(** * DevTrack: the project store behind app.py and its derived queries

    A shallow embedding of the data layer of [app.py]: the three SQLite
    tables, the INSERT / UPDATE statements issued by the forms of
    [projects_page] and [tasks_page], the filtered listing of [tasks_page],
    the "Tasks Due Soon" frame of [dashboard_page] and the timeline analysis
    of [reports_page].

    Conventions of the embedding.
    - A table is the list of its rows in rowid order, which is the order a
      full scan ([SELECT * FROM t]) returns them in.
    - [datetime.date] is a record of year, month and day; instants
      ([datetime.datetime], [pd.Timestamp]) are counted in microseconds
      since the midnight that starts ordinal day 0; a [timedelta] is a
      number of microseconds.
    - The TEXT columns [start_date], [end_date] and [due_date] are only ever
      written as [d.isoformat()] of a [st.date_input] value and only ever
      read back through [date.fromisoformat] or [pd.to_datetime]; rows carry
      the date itself, and [fromisoformat_isoformat] below justifies it.
    - Python floats are embedded as exact rationals ([Q]); rounding of
      binary64 arithmetic is not modelled.
    - A Python exception is a value of [py_exception], carried by the
      [Raise] constructor of [outcome]. *)

From Stdlib Require Import ZArith QArith Qround String Ascii List Bool Lia.
From Stdlib Require Import Permutation Sorted OrdersEx Lqa.
Import ListNotations.

Open Scope Z_scope.

(** ** Python values the pages manipulate *)

Inductive py_exception : Type :=
| TypeError
| ValueError
| IndexError
| ZeroDivisionError.

Inductive outcome (A : Type) : Type :=
| Ok (a : A)
| Raise (e : py_exception).

Arguments Ok {A} a.
Arguments Raise {A} e.

Definition bind {A B : Type} (m : outcome A) (k : A -> outcome B) : outcome B :=
  match m with
  | Ok a => k a
  | Raise e => Raise e
  end.

Notation "x <- m ;; k" := (bind m (fun x => k))
  (at level 61, m at next level, right associativity).

(** What a form shows after a submission: [st.success] or [st.error]. *)
Inductive st_message : Type :=
| StSuccess (msg : string)
| StError (msg : string).

Definition is_st_error (m : st_message) : bool :=
  match m with
  | StError _ => true
  | StSuccess _ => false
  end.

(** Truthiness of a [str]: [if name:] holds for every non-empty string. *)
Definition truthy (s : string) : bool :=
  match s with
  | EmptyString => false
  | String _ _ => true
  end.

(** ** Calendar dates, after CPython's [datetime] module *)

Module PyDate.

Record date : Type := mkdate { year : Z; month : Z; day : Z }.

Definition is_leap (y : Z) : bool :=
  (y mod 4 =? 0) && (negb (y mod 100 =? 0) || (y mod 400 =? 0)).

Definition DAYS_IN_MONTH : list Z :=
  [-1; 31; 28; 31; 30; 31; 30; 31; 31; 30; 31; 30; 31].

Definition DAYS_BEFORE_MONTH : list Z :=
  [-1; 0; 31; 59; 90; 120; 151; 181; 212; 243; 273; 304; 334].

Definition days_before_year (y : Z) : Z :=
  let y1 := y - 1 in
  y1 * 365 + y1 / 4 - y1 / 100 + y1 / 400.

Definition days_in_month (y m : Z) : Z :=
  if (m =? 2) && is_leap y then 29
  else nth (Z.to_nat m) DAYS_IN_MONTH 0.

Definition days_before_month (y m : Z) : Z :=
  nth (Z.to_nat m) DAYS_BEFORE_MONTH 0
  + (if (2 <? m) && is_leap y then 1 else 0).

(** [date.toordinal]: 0001-01-01 is day 1. *)
Definition toordinal (d : date) : Z :=
  days_before_year (year d) + days_before_month (year d) (month d) + day d.

(** The dates [datetime.date] can hold. *)
Definition valid (d : date) : bool :=
  (1 <=? year d) && (year d <=? 9999)
  && (1 <=? month d) && (month d <=? 12)
  && (1 <=? day d) && (day d <=? days_in_month (year d) (month d)).

(** *** [isoformat] and [fromisoformat] *)

Definition digit (n : Z) : ascii := ascii_of_nat (48 + Z.to_nat n).

Definition digit_val (c : ascii) : option Z :=
  let n := Z.of_nat (nat_of_ascii c) in
  if (48 <=? n) && (n <=? 57) then Some (n - 48) else None.

Definition dash : ascii := "-"%char.

(** ["%04d-%02d-%02d" % (year, month, day)] *)
Definition isoformat (d : date) : string :=
  let y := year d in
  let m := month d in
  let dd := day d in
  String (digit (y / 1000)) (String (digit (y / 100 mod 10))
  (String (digit (y / 10 mod 10)) (String (digit (y mod 10))
  (String dash
  (String (digit (m / 10)) (String (digit (m mod 10))
  (String dash
  (String (digit (dd / 10)) (String (digit (dd mod 10)) EmptyString))))))))).

Definition opt_bind {A B : Type} (o : option A) (k : A -> option B) : option B :=
  match o with
  | Some a => k a
  | None => None
  end.

(** [date.fromisoformat] on the ten-character form [YYYY-MM-DD]; [None]
    stands for the [ValueError] raised on any other text or on a day that
    does not exist. *)
Definition fromisoformat (s : string) : option date :=
  match s with
  | String y3 (String y2 (String y1 (String y0 (String s1
    (String m1 (String m0 (String s2
    (String d1 (String d0 EmptyString))))))))) =>
      if negb (Ascii.eqb s1 dash && Ascii.eqb s2 dash) then None else
      opt_bind (digit_val y3) (fun a3 =>
      opt_bind (digit_val y2) (fun a2 =>
      opt_bind (digit_val y1) (fun a1 =>
      opt_bind (digit_val y0) (fun a0 =>
      opt_bind (digit_val m1) (fun b1 =>
      opt_bind (digit_val m0) (fun b0 =>
      opt_bind (digit_val d1) (fun c1 =>
      opt_bind (digit_val d0) (fun c0 =>
        let r := mkdate (a3 * 1000 + a2 * 100 + a1 * 10 + a0)
                        (b1 * 10 + b0) (c1 * 10 + c0) in
        if valid r then Some r else None))))))))
  | _ => None
  end.

End PyDate.

Import PyDate.

(** ** Instants and durations *)

Definition us_per_day : Z := 86400000000.

(** [pd.to_datetime] of a stored date: the midnight that starts it. *)
Definition to_datetime (d : date) : Z := toordinal d * us_per_day.

(** [datetime.timedelta(days=n)] for an [int] [n]. *)
Definition timedelta_days (n : Z) : Z := n * us_per_day.

(** [delta.days]: whole days, rounded towards minus infinity. *)
Definition td_days (delta : Z) : Z := delta / us_per_day.

(** [round], to the nearest integer and to the even one on a tie. *)
Definition round_half_even (q : Q) : Z :=
  let f := Qfloor q in
  match Qcompare (q - inject_Z f) (1 # 2) with
  | Lt => f
  | Gt => f + 1
  | Eq => if Z.even f then f else f + 1
  end.

(** [datetime.timedelta(days=x)] for a [float] [x]: the nearest whole
    number of microseconds. *)
Definition timedelta_of_days (x : Q) : Z :=
  round_half_even (x * inject_Z us_per_day).

(** [a / b] on floats. *)
Definition truediv (a b : Q) : outcome Q :=
  if Qeq_bool b 0 then Raise ZeroDivisionError else Ok (a / b)%Q.

(** [int(x)] of a float: truncation towards zero. *)
Definition int_of_float (x : Q) : Z :=
  if Qle_bool 0 x then Qfloor x else Qceiling x.

(** ** The schema of [init_db] *)

Record project : Type := mkproject {
  p_id : Z;
  p_name : string;
  p_description : string;
  p_start_date : date;
  p_end_date : date;
  p_status : string;
  p_progress : Q
}.

Record team_member : Type := mkmember {
  m_id : Z;
  m_name : string;
  m_role : string;
  m_email : string
}.

Record task : Type := mktask {
  t_id : Z;
  t_project_id : Z;
  t_name : string;
  t_description : string;
  t_status : string;
  t_priority : string;
  t_start_date : date;
  t_due_date : date;
  t_assigned_to : option Z;
  t_progress : Q
}.

Record database : Type := mkdb {
  projects : list project;
  team_members : list team_member;
  tasks : list task
}.

(** The options of the three select boxes of the forms. *)
Inductive project_status : Type :=
| PS_Planning | PS_InProgress | PS_OnHold | PS_Completed | PS_Cancelled.

Inductive task_status : Type :=
| TS_NotStarted | TS_InProgress | TS_Blocked | TS_Completed.

Inductive task_priority : Type :=
| Low | Medium | High.

Definition project_status_str (s : project_status) : string :=
  match s with
  | PS_Planning => "Planning"
  | PS_InProgress => "In Progress"
  | PS_OnHold => "On Hold"
  | PS_Completed => "Completed"
  | PS_Cancelled => "Cancelled"
  end.

Definition project_status_options : list string :=
  ["Planning"; "In Progress"; "On Hold"; "Completed"; "Cancelled"]%string.

Definition task_status_str (s : task_status) : string :=
  match s with
  | TS_NotStarted => "Not Started"
  | TS_InProgress => "In Progress"
  | TS_Blocked => "Blocked"
  | TS_Completed => "Completed"
  end.

Definition task_priority_str (p : task_priority) : string :=
  match p with
  | Low => "Low"
  | Medium => "Medium"
  | High => "High"
  end.

(** ** SQLite statements *)

(** The rowid given to a row inserted without an id into a table declared
    [id INTEGER PRIMARY KEY]: 1 in an empty table, else one more than the
    largest rowid in use.  (At the largest 64-bit rowid SQLite picks an
    unused one at random; rowids handed out by this rule count up from 1
    and do not get there.) *)
Definition next_rowid (ids : list Z) : Z :=
  match ids with
  | [] => 1
  | x :: r => fold_right Z.max x r + 1
  end.

(** [INSERT INTO projects (name, description, start_date, end_date, status,
    progress) VALUES (?, ?, ?, ?, ?, ?)]; the integer bound to the REAL
    column [progress] is stored as the float of the same value. *)
Definition insert_project (name description : string) (start_date end_date : date)
    (status : string) (progress : Z) (ps : list project) : list project :=
  ps ++ [mkproject (next_rowid (map p_id ps)) name description
           start_date end_date status (inject_Z progress)].

(** [UPDATE projects SET name = ?, ... WHERE id = ?] *)
Definition update_project (name description : string) (start_date end_date : date)
    (status : string) (progress : Z) (id : Z) (ps : list project) : list project :=
  map (fun p =>
         if p_id p =? id
         then mkproject (p_id p) name description start_date end_date
                status (inject_Z progress)
         else p) ps.

(** [INSERT INTO tasks (project_id, ..., progress) VALUES (?, ..., ?)] *)
Definition insert_task (project_id : Z) (name description status priority : string)
    (start_date due_date : date) (assigned_to : option Z) (progress : Z)
    (ts : list task) : list task :=
  ts ++ [mktask (next_rowid (map t_id ts)) project_id name description status
           priority start_date due_date assigned_to (inject_Z progress)].

(** [UPDATE tasks SET project_id = ?, ... WHERE id = ?] *)
Definition update_task (project_id : Z) (name description status priority : string)
    (start_date due_date : date) (assigned_to : option Z) (progress : Z)
    (id : Z) (ts : list task) : list task :=
  map (fun t =>
         if t_id t =? id
         then mktask (t_id t) project_id name description status priority
                start_date due_date assigned_to (inject_Z progress)
         else t) ts.

(** [SELECT * FROM projects WHERE id = ?] followed by [c.fetchone()]. *)
Definition fetchone_project (id : Z) (ps : list project) : option project :=
  find (fun p => p_id p =? id) ps.

(** [SELECT * FROM tasks WHERE id = ?] followed by [c.fetchone()]. *)
Definition fetchone_task (id : Z) (ts : list task) : option task :=
  find (fun t => t_id t =? id) ts.

(** [a LEFT JOIN b ON on]: every row of [a] with each matching row of [b],
    or once with NULL when none matches. *)
Definition left_join {A B : Type} (on : A -> B -> bool)
    (a : list A) (b : list B) : list (A * option B) :=
  flat_map (fun x =>
              match filter (on x) b with
              | [] => [(x, None)]
              | ys => map (fun y => (x, Some y)) ys
              end) a.

(** [l.index(x)] and [l[i]] on Python lists. *)
Fixpoint index (x : string) (l : list string) : outcome nat :=
  match l with
  | [] => Raise ValueError
  | y :: r => if String.eqb y x then Ok 0%nat
              else i <- index x r ;; Ok (S i)
  end.

Definition getitem {A : Type} (l : list A) (i : nat) : outcome A :=
  match nth_error l i with
  | Some a => Ok a
  | None => Raise IndexError
  end.

Definition is_empty {A : Type} (l : list A) : bool :=
  match l with
  | [] => true
  | _ :: _ => false
  end.

(** ** [projects_page]: the add / edit form *)

(** [st.session_state['edit_project']] while the form is shown: ["new"] or
    the id of the project being edited. *)
Inductive edit_state : Type :=
| New
| Edit (id : Z).

(** The dict [project_data]: its values are the column values as the cursor
    returns them, the dates as their ISO text. *)
Record project_data : Type := mkproject_data {
  pd_id : option Z;
  pd_name : string;
  pd_description : string;
  pd_start_date : string;
  pd_end_date : string;
  pd_status : string;
  pd_progress : Q
}.

Definition project_dict (p : project) : project_data :=
  mkproject_data (Some (p_id p)) (p_name p) (p_description p)
    (isoformat (p_start_date p)) (isoformat (p_end_date p))
    (p_status p) (p_progress p).

(** [today + datetime.timedelta(days=n)] is left to the caller: [today30]
    is the date thirty days after [today]. *)
Definition load_project_data (edit_project : edit_state) (today today30 : date)
    (db : database) : outcome project_data :=
  match edit_project with
  | New =>
      Ok (mkproject_data None "" "" (isoformat today) (isoformat today30)
            "Planning" 0)
  | Edit id =>
      match fetchone_project id (projects db) with
      | Some row => Ok (project_dict row)
      | None => Raise TypeError  (* dict(zip(columns, None)) *)
      end
  end.

(** What the widgets of the form show before the user touches them. *)
Record project_form : Type := mkproject_form {
  f_name : string;
  f_description : string;
  f_start_date : date;
  f_end_date : date;
  f_status_index : nat;
  f_progress : Z
}.

Definition parse_date (s : string) : outcome date :=
  match fromisoformat s with
  | Some d => Ok d
  | None => Raise ValueError
  end.

Definition project_form_defaults (pd : project_data) : outcome project_form :=
  start_date <- parse_date (pd_start_date pd) ;;
  end_date <- parse_date (pd_end_date pd) ;;
  i <- index (pd_status pd) project_status_options ;;
  Ok (mkproject_form (pd_name pd) (pd_description pd) start_date end_date i
        (int_of_float (pd_progress pd))).

(** The [if submit:] block of the form. *)
Definition save_project (project_data_id : option Z) (name description : string)
    (start_date end_date : date) (status : project_status) (progress : Z)
    (db : database) : database * st_message :=
  if truthy name then
    let ps :=
      match project_data_id with
      | None =>
          insert_project name description start_date end_date
            (project_status_str status) progress (projects db)
      | Some id =>
          update_project name description start_date end_date
            (project_status_str status) progress id (projects db)
      end in
    (mkdb ps (team_members db) (tasks db),
     StSuccess "Project saved successfully!")
  else (db, StError "Project name is required.").

(** ** [tasks_page]: the filtered listing *)

(** A row of [SELECT t.*, p.name as project_name, tm.name as assignee_name
    FROM tasks t LEFT JOIN projects p ON t.project_id = p.id
    LEFT JOIN team_members tm ON t.assigned_to = tm.id]. *)
Record task_row : Type := mktask_row {
  r_task : task;
  project_name : option string;
  assignee_name : option string
}.

Definition on_project (t : task) (p : project) : bool :=
  t_project_id t =? p_id p.

(** [t.assigned_to = tm.id] is never true of a NULL [assigned_to]. *)
Definition on_assignee (t : task) (m : team_member) : bool :=
  match t_assigned_to t with
  | Some a => a =? m_id m
  | None => false
  end.

Definition tasks_joined (db : database) : list task_row :=
  map (fun x => mktask_row (fst (fst x))
                  (option_map p_name (snd (fst x)))
                  (option_map m_name (snd x)))
      (left_join (fun tp m => on_assignee (fst tp) m)
         (left_join on_project (tasks db) (projects db))
         (team_members db)).

(** The project a task points to, by the primary key. *)
Definition project_of (db : database) (t : task) : option project :=
  find (on_project t) (projects db).

Definition assignee_of (db : database) (t : task) : option team_member :=
  find (on_assignee t) (team_members db).

(** [column = ?] on a TEXT value: NULL equals nothing, and the comparison
    is byte for byte (the default BINARY collation). *)
Definition sql_text_eq (v : option string) (param : string) : bool :=
  match v with
  | Some s => String.eqb s param
  | None => false
  end.

(** The list [where_clauses], each clause with its bound parameter. *)
Definition where_clauses (selected_project selected_status : string) :
    list (task_row -> bool) :=
  (if negb (String.eqb selected_project "All Projects")
   then [fun r => sql_text_eq (project_name r) selected_project]
   else [])
  ++
  (if negb (String.eqb selected_status "All Statuses")
   then [fun r => String.eqb (t_status (r_task r)) selected_status]
   else []).

(** The frame [tasks_df] of the listing: the clauses joined by [AND]. *)
Definition tasks_query (selected_project selected_status : string)
    (db : database) : list task_row :=
  filter (fun r => forallb (fun clause => clause r)
                     (where_clauses selected_project selected_status))
         (tasks_joined db).

(** ** [tasks_page]: the add / edit form *)

(** The dict [task_data] is read like [project_data]; only its ['id'] is
    used once the form is submitted. *)
Definition load_task_id (edit_task : edit_state) (db : database) :
    outcome (option Z) :=
  match edit_task with
  | New => Ok None
  | Edit id =>
      match fetchone_task id (tasks db) with
      | Some row => Ok (Some (t_id row))
      | None => Raise TypeError  (* dict(zip(columns, None)) *)
      end
  end.

(** The [if submit:] block of the form.  [project_idx] and [assigned_idx]
    are the options picked in the two select boxes: a project name, and a
    member name or ["Unassigned"]. *)
Definition save_task (task_data_id : option Z) (name project_idx description : string)
    (start_date due_date : date) (status : task_status) (priority : task_priority)
    (assigned_idx : string) (progress : Z) (db : database) :
    outcome (database * st_message) :=
  let project_options := map p_name (projects db) in
  let project_ids := map p_id (projects db) in
  let team_options := "Unassigned"%string :: map m_name (team_members db) in
  let team_ids := None :: map (fun m => Some (m_id m)) (team_members db) in
  if truthy name && negb (is_empty (projects db)) then
    i <- index project_idx project_options ;;
    project_id <- getitem project_ids i ;;
    assigned_to <-
      (if String.eqb assigned_idx "Unassigned" || is_empty (team_members db)
       then Ok None
       else j <- index assigned_idx team_options ;; getitem team_ids j) ;;
    let ts :=
      match task_data_id with
      | None =>
          insert_task project_id name description (task_status_str status)
            (task_priority_str priority) start_date due_date assigned_to
            progress (tasks db)
      | Some id =>
          update_task project_id name description (task_status_str status)
            (task_priority_str priority) start_date due_date assigned_to
            progress id (tasks db)
      end in
    Ok (mkdb (projects db) (team_members db) ts,
        StSuccess "Task saved successfully!")
  else if is_empty (projects db)
  then Ok (db, StError "You need to create a project before adding tasks.")
  else Ok (db, StError "Task name is required.").

(** What a submission reports as a failure: an uncaught exception or an
    [st.error] message. *)
Definition reports_failure {A : Type} (r : outcome (A * st_message)) : bool :=
  match r with
  | Raise _ => true
  | Ok (_, m) => is_st_error m
  end.

(** ** [dashboard_page]: "Tasks Due Soon" *)

(** The boolean mask of [upcoming_tasks]; [today] is [datetime.now()]. *)
Definition due_soon (today : Z) (t : task) : bool :=
  negb (String.eqb (t_status t) "Completed")
  && (to_datetime (t_due_date t) <=? today + timedelta_days 7).

(** The order of [sort_values('due_date')]. *)
Definition le_due (a b : task) : Prop :=
  to_datetime (t_due_date a) <= to_datetime (t_due_date b).

(** [sort_values('due_date')].  Insertion after the equal keys fixes one
    order among tasks due the same day; pandas' default sort promises
    none. *)
Fixpoint insert_by_due_date (t : task) (l : list task) : list task :=
  match l with
  | [] => [t]
  | u :: r =>
      if to_datetime (t_due_date t) <? to_datetime (t_due_date u)
      then t :: u :: r
      else u :: insert_by_due_date t r
  end.

Definition sort_values_due_date (l : list task) : list task :=
  fold_left (fun acc t => insert_by_due_date t acc) l [].

(** [merge(projects_minimal, left_on='project_id', right_on='id')]: an
    inner join that keeps the order of the left frame. *)
Definition merge_projects (l : list task) (ps : list project) :
    list (task * project) :=
  flat_map (fun t => map (fun p => (t, p))
                       (filter (fun p => t_project_id t =? p_id p) ps)) l.

(** A row of [display_tasks]. *)
Record display_task : Type := mkdisplay_task {
  Task : string;
  Project : string;
  Status : string;
  Priority : string;
  Due_Date : Z
}.

Definition display_row (tp : task * project) : display_task :=
  mkdisplay_task (t_name (fst tp)) (p_name (snd tp)) (t_status (fst tp))
    (t_priority (fst tp)) (to_datetime (t_due_date (fst tp))).

Inductive due_soon_view : Type :=
| NoTasksFound          (* "No tasks found. Add tasks to see upcoming deadlines." *)
| NoUpcomingDeadlines   (* "No upcoming deadlines in the next 7 days." *)
| DueSoon (display_tasks : list display_task).

Definition upcoming_tasks (today : Z) (db : database) : list task :=
  filter (due_soon today) (tasks db).

Definition dashboard_due_soon (today : Z) (db : database) : due_soon_view :=
  if is_empty (tasks db) then NoTasksFound
  else if is_empty (upcoming_tasks today db) then NoUpcomingDeadlines
  else DueSoon (map display_row
                  (merge_projects
                     (sort_values_due_date (upcoming_tasks today db))
                     (projects db))).

(** ** [reports_page]: the "Timeline" tab *)

(** [projects_df[projects_df['name'] == selected_project]['id'].iloc[0]] *)
Definition select_project_id (selected_project : string) (ps : list project) :
    outcome Z :=
  getitem (map p_id (filter (fun p => String.eqb (p_name p) selected_project) ps))
          0%nat.

(** [pd.read_sql("SELECT * FROM projects WHERE id = ...").iloc[0]] *)
Definition select_project_details (project_id : Z) (ps : list project) :
    outcome project :=
  getitem (filter (fun p => p_id p =? project_id) ps) 0%nat.

(** [SELECT t.*, tm.name as assignee_name FROM tasks t LEFT JOIN
    team_members tm ON t.assigned_to = tm.id WHERE t.project_id = ...] *)
Definition timeline_tasks (project_id : Z) (db : database) :
    list (task * option string) :=
  map (fun x => (fst x, option_map m_name (snd x)))
      (filter (fun x => t_project_id (fst x) =? project_id)
         (left_join on_assignee (tasks db) (team_members db))).

(** [(due_date - start_date).dt.days] of one row. *)
Definition duration_days (t : task) : Z :=
  td_days (to_datetime (t_due_date t) - to_datetime (t_start_date t)).

(** [Series.idxmax] over a frame freshly read, whose labels are the
    positions 0, 1, ...: the first position that holds the maximum. *)
Fixpoint idxmax_from (best_i : nat) (best : Z) (i : nat) (l : list Z) : nat :=
  match l with
  | [] => best_i
  | x :: r =>
      if best <? x then idxmax_from i x (S i) r
      else idxmax_from best_i best (S i) r
  end.

Definition idxmax (l : list Z) : outcome nat :=
  match l with
  | [] => Raise ValueError
  | x :: r => Ok (idxmax_from 0%nat x 1%nat r)
  end.

(** [Series.max] of a non-empty column. *)
Definition series_max (l : list Z) : outcome Z :=
  match l with
  | [] => Raise ValueError
  | x :: r => Ok (fold_left Z.max r x)
  end.

(** "Critical Path Analysis": the longest duration and the task shown
    next to it. *)
Definition critical_path (tasks_df : list task) : outcome (Z * task) :=
  let task_durations := map duration_days tasks_df in
  critical_task_idx <- idxmax task_durations ;;
  critical_task <- getitem tasks_df critical_task_idx ;;
  longest <- series_max task_durations ;;
  Ok (longest, critical_task).

Definition completed_tasks_count (tasks_df : list task) : nat :=
  length (filter (fun t => String.eqb (t_status t) "Completed") tasks_df).

(** [(completed_tasks_count / total_tasks) * 100 if total_tasks > 0 else 0] *)
Definition completion_percentage (tasks_df : list task) : outcome Q :=
  let total_tasks := length tasks_df in
  if (0 <? total_tasks)%nat then
    ratio <- truediv (inject_Z (Z.of_nat (completed_tasks_count tasks_df)))
                     (inject_Z (Z.of_nat total_tasks)) ;;
    Ok (ratio * 100)%Q
  else Ok 0%Q.

(** The value of [completion_percentage] for a frame that has rows. *)
Definition percent_completed (tasks_df : list task) : Q :=
  (inject_Z (Z.of_nat (completed_tasks_count tasks_df))
   / inject_Z (Z.of_nat (length tasks_df)) * 100)%Q.

Inductive verdict : Type :=
| Late (days : Z)   (* "this project may finish **N days late**" *)
| OnTime.           (* "this project is on track to finish on time" *)

Record prediction : Type := mkprediction {
  days_passed : Z;
  estimated_total_days : Q;
  estimated_completion : Z;
  outlook : verdict
}.

(** "Task completion prediction"; [None] when the block under
    [if completion_percentage > 0:] is skipped and nothing is shown.  The
    range limits of [timedelta] and [Timestamp] are not modelled. *)
Definition completion_prediction (now : Z) (project_details : project)
    (tasks_df : list task) : outcome (option prediction) :=
  completion_percentage <- completion_percentage tasks_df ;;
  if negb (Qle_bool completion_percentage 0) then
    let project_start := to_datetime (p_start_date project_details) in
    let project_end := to_datetime (p_end_date project_details) in
    let days_passed := td_days (now - project_start) in
    fraction <- truediv completion_percentage 100 ;;
    estimated_total_days <- truediv (inject_Z days_passed) fraction ;;
    let estimated_completion :=
      project_start + timedelta_of_days estimated_total_days in
    Ok (Some (mkprediction days_passed estimated_total_days estimated_completion
                (if project_end <? estimated_completion
                 then Late (td_days (estimated_completion - project_end))
                 else OnTime)))
  else Ok None.

Inductive timeline_view : Type :=
| NoProjectsFound   (* "No projects found. Create a project to view timeline reports." *)
| NoTasksForProject (project_details : project)
                    (* "No tasks found for this project. Add tasks to see timeline analysis." *)
| Timeline (project_details : project) (tasks_df : list (task * option string))
           (longest : Z) (critical_task : task)
           (estimate : option prediction).

(** The tab for the project name picked in the select box. *)
Definition reports_timeline (now : Z) (selected_project : string) (db : database) :
    outcome timeline_view :=
  if is_empty (projects db) then Ok NoProjectsFound
  else
    project_id <- select_project_id selected_project (projects db) ;;
    project_details <- select_project_details project_id (projects db) ;;
    let tasks_df := timeline_tasks project_id db in
    if is_empty tasks_df then Ok (NoTasksForProject project_details)
    else
      cp <- critical_path (map fst tasks_df) ;;
      estimate <- completion_prediction now project_details (map fst tasks_df) ;;
      Ok (Timeline project_details tasks_df (fst cp) (snd cp) estimate).

(** ** The completion estimate as the specification words it

    [estimateCompletion] of the specification, for comparison with
    [completion_prediction]: from a progress percentage [P], the start date
    [S], the end date and the now-date [N], with [D = N - S] elapsed days;
    no estimate when [P = 0], else [estimatedTotalDays = D / (P / 100)] and
    [estimatedCompletionDate = S + estimatedTotalDays], late by the whole
    days the estimate lies past the end date. *)
Definition estimateCompletion_spec (P : Q) (S E : date) (N : Z) :
    option prediction :=
  if Qeq_bool P 0 then None
  else
    let D := td_days (N - to_datetime S) in
    let estimatedTotalDays := (inject_Z D / (P / 100))%Q in
    let estimatedCompletionDate :=
      to_datetime S + timedelta_of_days estimatedTotalDays in
    Some (mkprediction D estimatedTotalDays estimatedCompletionDate
            (if to_datetime E <? estimatedCompletionDate
             then Late (td_days (estimatedCompletionDate - to_datetime E))
             else OnTime)).

(** ** [team_page]: the listing and the add / edit form *)

(** [INSERT INTO team_members (name, role, email) VALUES (?, ?, ?)] *)
Definition insert_team_member (name role email : string)
    (ms : list team_member) : list team_member :=
  ms ++ [mkmember (next_rowid (map m_id ms)) name role email].

(** [UPDATE team_members SET name = ?, role = ?, email = ? WHERE id = ?] *)
Definition update_team_member (name role email : string) (id : Z)
    (ms : list team_member) : list team_member :=
  map (fun m => if m_id m =? id then mkmember (m_id m) name role email else m) ms.

(** [SELECT * FROM team_members WHERE id = ?] followed by [c.fetchone()]. *)
Definition fetchone_team_member (id : Z) (ms : list team_member) :
    option team_member :=
  find (fun m => m_id m =? id) ms.

(** The dict [member_data]. *)
Record member_data : Type := mkmember_data {
  md_id : option Z;
  md_name : string;
  md_role : string;
  md_email : string
}.

Definition load_member_data (edit_team_member : edit_state) (db : database) :
    outcome member_data :=
  match edit_team_member with
  | New => Ok (mkmember_data None "" "" "")
  | Edit id =>
      match fetchone_team_member id (team_members db) with
      | Some row =>
          Ok (mkmember_data (Some (m_id row)) (m_name row) (m_role row) (m_email row))
      | None => Raise TypeError  (* dict(zip(columns, None)) *)
      end
  end.

(** The [if submit:] block of the form. *)
Definition save_team_member (member_data_id : option Z) (name role email : string)
    (db : database) : database * st_message :=
  if truthy name && truthy role then
    let ms :=
      match member_data_id with
      | None => insert_team_member name role email (team_members db)
      | Some id => update_team_member name role email id (team_members db)
      end in
    (mkdb (projects db) ms (tasks db),
     StSuccess "Team member saved successfully!")
  else (db, StError "Name and role are required.").

(** [SELECT COUNT( * ) as count FROM tasks WHERE assigned_to = ...], the
    "Assigned Tasks" figure of a member's card. *)
Definition tasks_count (member_id : Z) (db : database) : nat :=
  length (filter (fun t => match t_assigned_to t with
                           | Some a => a =? member_id
                           | None => false
                           end) (tasks db)).

(** The cards of the listing, one per member in table order. *)
Definition team_listing (db : database) : list (team_member * nat) :=
  map (fun m => (m, tasks_count (m_id m) db)) (team_members db).

(** ** [projects_page]: the listing *)

(** What an expander says of the tasks of its project. *)
Inductive project_tasks_line : Type :=
| TasksCompleted (completed_tasks total : nat)   (* "**Tasks:** c/n completed" *)
| NoTasksAssigned.                               (* "**Tasks:** No tasks assigned" *)

(** [SELECT * FROM tasks WHERE project_id = ...] and the line made of it. *)
Definition project_tasks (project_id : Z) (db : database) : list task :=
  filter (fun t => t_project_id t =? project_id) (tasks db).

Definition project_tasks_summary (project_id : Z) (db : database) :
    project_tasks_line :=
  let tasks_df := project_tasks project_id db in
  if negb (is_empty tasks_df)
  then TasksCompleted
         (length (filter (fun t => String.eqb (t_status t) "Completed") tasks_df))
         (length tasks_df)
  else NoTasksAssigned.

Definition projects_listing (db : database) : list (project * project_tasks_line) :=
  map (fun p => (p, project_tasks_summary (p_id p) db)) (projects db).

(** ** [tasks_page]: the defaults of the add / edit form *)

(** The dict [task_data], with the values the cursor returns. *)
Record task_data : Type := mktask_data {
  td_id : option Z;
  td_project_id : option Z;
  td_name : string;
  td_description : string;
  td_status : string;
  td_priority : string;
  td_start_date : string;
  td_due_date : string;
  td_assigned_to : option Z;
  td_progress : Q
}.

Definition task_dict (t : task) : task_data :=
  mktask_data (Some (t_id t)) (Some (t_project_id t)) (t_name t) (t_description t)
    (t_status t) (t_priority t) (isoformat (t_start_date t))
    (isoformat (t_due_date t)) (t_assigned_to t) (t_progress t).

(** [today7] is the date seven days after [today]. *)
Definition load_task_data (edit_task : edit_state) (today today7 : date)
    (db : database) : outcome task_data :=
  match edit_task with
  | New =>
      Ok (mktask_data None None "" "" "Not Started" "Medium" (isoformat today)
            (isoformat today7) None 0)
  | Edit id =>
      match fetchone_task id (tasks db) with
      | Some row => Ok (task_dict row)
      | None => Raise TypeError  (* dict(zip(columns, None)) *)
      end
  end.

Definition task_status_options : list string :=
  ["Not Started"; "In Progress"; "Blocked"; "Completed"]%string.

Definition task_priority_options : list string :=
  ["Low"; "Medium"; "High"]%string.

(** [l.index(x)] on a list of ids. *)
Fixpoint index_of {A : Type} (eqb : A -> A -> bool) (x : A) (l : list A) :
    outcome nat :=
  match l with
  | [] => Raise ValueError
  | y :: r => if eqb y x then Ok 0%nat
              else i <- index_of eqb x r ;; Ok (S i)
  end.

Definition option_Z_eqb (a b : option Z) : bool :=
  match a, b with
  | Some x, Some y => x =? y
  | None, None => true
  | _, _ => false
  end.

(** What the widgets of the task form show before the user touches them.
    The two select boxes are absent when there is no project, or no
    member, to offer: [project_idx] and [assigned_idx] are then the number
    0, here [None]. *)
Record task_form : Type := mktask_form {
  tf_name : string;
  tf_project_idx : option string;
  tf_description : string;
  tf_start_date : date;
  tf_due_date : date;
  tf_status_index : nat;
  tf_priority_index : nat;
  tf_assigned_idx : option string;
  tf_progress : Z
}.

Definition task_form_defaults (td : task_data) (db : database) : outcome task_form :=
  let project_options := map p_name (projects db) in
  let project_ids := map p_id (projects db) in
  let team_options := "Unassigned"%string :: map m_name (team_members db) in
  let team_ids := None :: map (fun m => Some (m_id m)) (team_members db) in
  project_idx <-
    (if is_empty (projects db) then Ok None
     else
       default_idx <-
         match td_project_id td with
         | Some pid =>
             if existsb (Z.eqb pid) project_ids
             then index_of Z.eqb pid project_ids
             else Ok 0%nat
         | None => Ok 0%nat
         end ;;
       option <- getitem project_options default_idx ;;
       Ok (Some option)) ;;
  start_date <- parse_date (td_start_date td) ;;
  due_date <- parse_date (td_due_date td) ;;
  status_index <- index (td_status td) task_status_options ;;
  priority_index <- index (td_priority td) task_priority_options ;;
  assigned_idx <-
    (if is_empty (team_members db) then Ok None
     else
       let default_idx :=
         match td_assigned_to td with
         | Some a =>
             match index_of option_Z_eqb (Some a) team_ids with
             | Ok i => i
             | Raise _ => 0%nat   (* except ValueError *)
             end
         | None => 0%nat
         end in
       option <- getitem team_options default_idx ;;
       Ok (Some option)) ;;
  Ok (mktask_form (td_name td) project_idx (td_description td) start_date
        due_date status_index priority_index assigned_idx
        (int_of_float (td_progress td))).

(** The option a select box returns for a position in its list. *)
Definition task_status_of_index (i : nat) : outcome task_status :=
  getitem [TS_NotStarted; TS_InProgress; TS_Blocked; TS_Completed] i.

Definition task_priority_of_index (i : nat) : outcome task_priority :=
  getitem [Low; Medium; High] i.

Definition project_status_of_index (i : nat) : outcome project_status :=
  getitem [PS_Planning; PS_InProgress; PS_OnHold; PS_Completed; PS_Cancelled] i.

(** The option the "Assigned To" box opens on. *)
Definition assignee_option (db : database) (t : task) : option string :=
  if is_empty (team_members db) then None
  else match t_assigned_to t with
       | Some a =>
           match fetchone_team_member a (team_members db) with
           | Some m => Some (m_name m)
           | None => Some "Unassigned"%string
           end
       | None => Some "Unassigned"%string
       end.


(** The number of tasks a line of the listing speaks of. *)
Definition tasks_total (line : project_tasks_line) : nat :=
  match line with
  | TasksCompleted _ total => total
  | NoTasksAssigned => 0%nat
  end.

Definition is_assigned (t : task) : bool :=
  match t_assigned_to t with
  | Some _ => true
  | None => false
  end.

(** Rows by an optional key: those that hold a given key, and those that
    hold any. *)
Definition has_key {A : Type} (key : A -> option Z) (k : Z) (v : A) : bool :=
  match key v with
  | Some a => a =? k
  | None => false
  end.

Definition keyed {A : Type} (key : A -> option Z) (v : A) : bool :=
  match key v with
  | Some _ => true
  | None => false
  end.

(** ** Session state and navigation *)

Inductive page_name : Type :=
| Dashboard | Projects | Tasks | Team | Reports.

Definition page_name_eqb (a b : page_name) : bool :=
  match a, b with
  | Dashboard, Dashboard | Projects, Projects | Tasks, Tasks
  | Team, Team | Reports, Reports => true
  | _, _ => false
  end.

(** The four keys of [st.session_state]; an edit key holds [None], ["new"]
    or the id of the row being edited. *)
Record session_state : Type := mksession {
  page : page_name;
  edit_project : option edit_state;
  edit_task : option edit_state;
  edit_team_member : option edit_state
}.

(** [init_session_state]: the four keys are set on the first run, when
    none is there, and left alone afterwards. *)
Definition init_session_state (st : option session_state) : session_state :=
  match st with
  | None => mksession Dashboard None None None
  | Some s => s
  end.

(** The buttons of the sidebar. *)
Inductive sidebar_button : Type :=
| NavButton (option : page_name)
| NewProjectButton
| NewTaskButton.

Definition nav_options : list page_name :=
  [Dashboard; Projects; Tasks; Team; Reports].

(** [sidebar_navigation]; [clicked] is the sidebar button, if any, whose
    click started this run. *)
Definition sidebar_navigation (clicked : option sidebar_button)
    (s : session_state) : session_state :=
  let s :=
    fold_left
      (fun s option =>
         match clicked with
         | Some (NavButton o) =>
             if page_name_eqb o option then
               mksession option
                 (if negb (page_name_eqb option Projects) then None else edit_project s)
                 (if negb (page_name_eqb option Tasks) then None else edit_task s)
                 (if negb (page_name_eqb option Team) then None else edit_team_member s)
             else s
         | _ => s
         end)
      nav_options s in
  let s :=
    match clicked with
    | Some NewProjectButton =>
        mksession Projects (Some New) (edit_task s) (edit_team_member s)
    | _ => s
    end in
  match clicked with
  | Some NewTaskButton =>
      mksession Tasks (edit_project s) (Some New) (edit_team_member s)
  | _ => s
  end.

(** ** One run of the script *)

(** The values of the widgets of the three forms when "Save" is pressed. *)
Record project_submit : Type := mkproject_submit {
  ps_name : string;
  ps_description : string;
  ps_start_date : date;
  ps_end_date : date;
  ps_status : project_status;
  ps_progress : Z
}.

Record task_submit : Type := mktask_submit {
  ts_name : string;
  ts_project_idx : string;
  ts_description : string;
  ts_start_date : date;
  ts_due_date : date;
  ts_status : task_status;
  ts_priority : task_priority;
  ts_assigned_idx : string;
  ts_progress : Z
}.

Record member_submit : Type := mkmember_submit {
  ms_name : string;
  ms_role : string;
  ms_email : string
}.

(** What started the run: nothing (a rerun), a sidebar button, or a button
    of the page. *)
Inductive click : Type :=
| NoClick
| SidebarClick (b : sidebar_button)
| AddNewProjectClick
| EditProjectClick (id : Z)
| SaveProjectClick (f : project_submit)
| CancelProjectClick
| AddNewTaskClick
| EditTaskClick (id : Z)
| SaveTaskClick (f : task_submit)
| CancelTaskClick
| AddTeamMemberClick
| EditMemberClick (id : Z)
| SaveMemberClick (f : member_submit)
| CancelMemberClick.

(** The select boxes outside the forms. *)
Record widgets : Type := mkwidgets {
  w_tasks_project : string;     (* "Filter by Project" *)
  w_tasks_status : string;      (* "Filter by Status" *)
  w_reports_project : string    (* "Select Project" *)
}.

(** The clock readings of a run: [datetime.now()], [date.today()] and the
    dates 7 and 30 days after it. *)
Record clock : Type := mkclock {
  now : Z;
  today : date;
  today7 : date;
  today30 : date
}.

(** [projects_page].  A button that the page does not show in its present
    mode cannot have been clicked; such a click is passed over. *)
Definition projects_page (c : click) (k : clock) (s : session_state)
    (db : database) : outcome (session_state * database) :=
  match edit_project s with
  | None =>
      match c with
      | AddNewProjectClick =>
          Ok (mksession (page s) (Some New) (edit_task s) (edit_team_member s), db)
      | EditProjectClick id =>
          if existsb (fun p => p_id p =? id) (projects db)
          then Ok (mksession (page s) (Some (Edit id)) (edit_task s)
                     (edit_team_member s), db)
          else Ok (s, db)
      | _ => Ok (s, db)
      end
  | Some e =>
      project_data <- load_project_data e (today k) (today30 k) db ;;
      _ <- project_form_defaults project_data ;;
      match c with
      | CancelProjectClick =>
          Ok (mksession (page s) None (edit_task s) (edit_team_member s), db)
      | SaveProjectClick f =>
          let r := save_project (pd_id project_data) (ps_name f) (ps_description f)
                     (ps_start_date f) (ps_end_date f) (ps_status f)
                     (ps_progress f) db in
          if is_st_error (snd r) then Ok (s, db)
          else Ok (mksession (page s) None (edit_task s) (edit_team_member s), fst r)
      | _ => Ok (s, db)
      end
  end.

(** [tasks_page] *)
Definition tasks_page (c : click) (k : clock) (w : widgets) (s : session_state)
    (db : database) : outcome (session_state * database) :=
  match edit_task s with
  | None =>
      match c with
      | AddNewTaskClick =>
          Ok (mksession (page s) (edit_project s) (Some New) (edit_team_member s), db)
      | EditTaskClick id =>
          if existsb (fun r => t_id (r_task r) =? id)
               (tasks_query (w_tasks_project w) (w_tasks_status w) db)
          then Ok (mksession (page s) (edit_project s) (Some (Edit id))
                     (edit_team_member s), db)
          else Ok (s, db)
      | _ => Ok (s, db)
      end
  | Some e =>
      task_data <- load_task_data e (today k) (today7 k) db ;;
      _ <- task_form_defaults task_data db ;;
      match c with
      | CancelTaskClick =>
          Ok (mksession (page s) (edit_project s) None (edit_team_member s), db)
      | SaveTaskClick f =>
          r <- save_task (td_id task_data) (ts_name f) (ts_project_idx f)
                 (ts_description f) (ts_start_date f) (ts_due_date f)
                 (ts_status f) (ts_priority f) (ts_assigned_idx f)
                 (ts_progress f) db ;;
          if is_st_error (snd r) then Ok (s, db)
          else Ok (mksession (page s) (edit_project s) None (edit_team_member s),
                   fst r)
      | _ => Ok (s, db)
      end
  end.

(** [team_page] *)
Definition team_page (c : click) (s : session_state) (db : database) :
    outcome (session_state * database) :=
  match edit_team_member s with
  | None =>
      match c with
      | AddTeamMemberClick =>
          Ok (mksession (page s) (edit_project s) (edit_task s) (Some New), db)
      | EditMemberClick id =>
          if existsb (fun m => m_id m =? id) (team_members db)
          then Ok (mksession (page s) (edit_project s) (edit_task s)
                     (Some (Edit id)), db)
          else Ok (s, db)
      | _ => Ok (s, db)
      end
  | Some e =>
      member_data <- load_member_data e db ;;
      match c with
      | CancelMemberClick =>
          Ok (mksession (page s) (edit_project s) (edit_task s) None, db)
      | SaveMemberClick f =>
          let r := save_team_member (md_id member_data) (ms_name f) (ms_role f)
                     (ms_email f) db in
          if is_st_error (snd r) then Ok (s, db)
          else Ok (mksession (page s) (edit_project s) (edit_task s) None, fst r)
      | _ => Ok (s, db)
      end
  end.

(** The "Timeline" tab of [reports_page], as far as it can stop the run. *)
Definition reports_page (k : clock) (w : widgets) (s : session_state)
    (db : database) : outcome (session_state * database) :=
  _ <- reports_timeline (now k) (w_reports_project w) db ;;
  Ok (s, db).

(** [main]: the sidebar first, then the page the session state names. *)
Definition main (c : click) (k : clock) (w : widgets) (st : option session_state)
    (db : database) : outcome (session_state * database) :=
  let s := init_session_state st in
  let s := sidebar_navigation
             (match c with SidebarClick b => Some b | _ => None end) s in
  match page s with
  | Dashboard => Ok (s, db)
  | Projects => projects_page c k s db
  | Tasks => tasks_page c k w s db
  | Team => team_page c s db
  | Reports => reports_page k w s db
  end.

(** "Save" pressed on a form whose widgets were not touched: each widget
    returns the value it was opened on.  A select box that was not shown
    stands for the number 0, which the [if submit:] block does not look
    at; it is given the empty string here. *)
Definition untouched_project_form (f : project_form) : outcome project_submit :=
  status <- project_status_of_index (f_status_index f) ;;
  Ok (mkproject_submit (f_name f) (f_description f) (f_start_date f)
        (f_end_date f) status (f_progress f)).

Definition shown_option (o : option string) : string :=
  match o with
  | Some s => s
  | None => ""
  end.

Definition untouched_task_form (f : task_form) : outcome task_submit :=
  status <- task_status_of_index (tf_status_index f) ;;
  priority <- task_priority_of_index (tf_priority_index f) ;;
  Ok (mktask_submit (tf_name f) (shown_option (tf_project_idx f))
        (tf_description f) (tf_start_date f) (tf_due_date f) status priority
        (shown_option (tf_assigned_idx f)) (tf_progress f)).

(** ** [dashboard_page]: the overview metrics *)

(** "Total Projects", "Open Tasks" and "Team Members". *)
Definition total_projects (db : database) : nat := length (projects db).

Definition open_tasks (db : database) : nat :=
  length (filter (fun t => negb (String.eqb (t_status t) "Completed")) (tasks db)).

Definition team_members_count (db : database) : nat := length (team_members db).

(** [Series.mean] of a column without NULLs. *)
Definition mean (l : list Q) : Q :=
  (fold_right Qplus 0 l / inject_Z (Z.of_nat (length l)))%Q.

(** "Avg. Project Progress": the number that [f"{avg_progress:.0f}%"]
    prints before the percent sign, 0 when there is no project. *)
Definition avg_project_progress (db : database) : Z :=
  if negb (is_empty (projects db))
  then round_half_even (mean (map p_progress (projects db)))
  else 0.

(** [Series.value_counts]: each value that occurs with the number of its
    occurrences, by descending count.  The order among equal counts is one
    pandas may choose; here values keep the order of their first
    occurrence. *)
Fixpoint count_insert (k : string) (l : list (string * nat)) : list (string * nat) :=
  match l with
  | [] => [(k, 1%nat)]
  | (k', n) :: r =>
      if String.eqb k' k then (k', S n) :: r
      else (k', n) :: count_insert k r
  end.

Fixpoint insert_by_count (x : string * nat) (l : list (string * nat)) :
    list (string * nat) :=
  match l with
  | [] => [x]
  | y :: r =>
      if (snd y <? snd x)%nat then x :: y :: r
      else y :: insert_by_count x r
  end.

Definition value_counts (l : list string) : list (string * nat) :=
  fold_left (fun acc x => insert_by_count x acc)
            (fold_left (fun acc k => count_insert k acc) l [])
            [].

(** The frame [status_counts] of the "Project Status" pie. *)
Definition status_counts (db : database) : list (string * nat) :=
  value_counts (map p_status (projects db)).

(** ** [reports_page]: the "Team Workload" tab *)

(** The column [assignee_name] of [SELECT t.*, tm.name as assignee_name,
    p.name as project_name FROM tasks t LEFT JOIN team_members tm ON
    t.assigned_to = tm.id LEFT JOIN projects p ON t.project_id = p.id]. *)
Definition workload_assignee_names (db : database) : list (option string) :=
  map (fun x => option_map m_name (snd (fst x)))
      (left_join (fun tm p => on_project (fst tm) p)
         (left_join on_assignee (tasks db) (team_members db))
         (projects db)).

(** [groupby('assignee_name').size()]: the rows with a NULL key are left
    out and the groups come in ascending order of the key. *)
Fixpoint group_insert (k : string) (l : list (string * nat)) : list (string * nat) :=
  match l with
  | [] => [(k, 1%nat)]
  | (k', n) :: r =>
      match String.compare k k' with
      | Eq => (k', S n) :: r
      | Lt => (k, 1%nat) :: (k', n) :: r
      | Gt => (k', n) :: group_insert k r
      end
  end.

Definition groupby_size (keys : list (option string)) : list (string * nat) :=
  fold_left (fun acc k => match k with
                          | Some s => group_insert s acc
                          | None => acc
                          end) keys [].

Inductive workload_view : Type :=
| InsufficientData   (* "Insufficient data for team workload analysis." *)
| NoAssignments      (* "No tasks have been assigned to team members yet." *)
| Workload (task_counts : list (string * nat)).

Definition reports_workload (db : database) : workload_view :=
  if negb (is_empty (team_members db))
     && negb (is_empty (workload_assignee_names db))
  then
    let task_counts := groupby_size (workload_assignee_names db) in
    if negb (is_empty task_counts) then Workload task_counts
    else NoAssignments
  else InsufficientData.

(** The figure a frame of counts holds for a key. *)
Definition count_for (s : string) (l : list (string * nat)) : nat :=
  list_sum (map snd (filter (fun x => String.eqb (fst x) s) l)).

(** The order of the groups: ascending by key. *)
Definition key_lt (a b : string * nat) : Prop :=
  String.compare (fst a) (fst b) = Lt.

(** How many rows of a column hold a given name. *)
Definition occurrences (s : string) (keys : list (option string)) : nat :=
  length (filter (fun o => sql_text_eq o s) keys).

(** The order of [value_counts]: descending by count. *)
Definition count_ge (a b : string * nat) : Prop := (snd b <= snd a)%nat.

(** ** What the forms keep true of the database *)

(** A progress written by a slider: a whole number from 0 to 100. *)
Definition slider_value (q : Q) : Prop :=
  exists z, 0 <= z <= 100 /\ q = inject_Z z.

Definition project_ok (p : project) : Prop :=
  truthy (p_name p) = true
  /\ valid (p_start_date p) = true
  /\ valid (p_end_date p) = true
  /\ In (p_status p) project_status_options
  /\ slider_value (p_progress p).

Definition member_ok (m : team_member) : Prop :=
  truthy (m_name m) = true /\ truthy (m_role m) = true.

(** A task row names an existing project and, when assigned, an existing
    member. *)
Definition task_ok (db : database) (t : task) : Prop :=
  truthy (t_name t) = true
  /\ valid (t_start_date t) = true
  /\ valid (t_due_date t) = true
  /\ In (t_status t) task_status_options
  /\ In (t_priority t) task_priority_options
  /\ slider_value (t_progress t)
  /\ In (t_project_id t) (map p_id (projects db))
  /\ (forall a, t_assigned_to t = Some a -> In a (map m_id (team_members db))).

Definition db_ok (db : database) : Prop :=
  NoDup (map p_id (projects db))
  /\ NoDup (map m_id (team_members db))
  /\ NoDup (map t_id (tasks db))
  /\ Forall project_ok (projects db)
  /\ Forall member_ok (team_members db)
  /\ Forall (task_ok db) (tasks db).

(** An edit key that holds an id holds the id of a stored row. *)
Definition edit_ok (ids : list Z) (e : option edit_state) : Prop :=
  forall id, e = Some (Edit id) -> In id ids.

Definition session_ok (s : session_state) (db : database) : Prop :=
  edit_ok (map p_id (projects db)) (edit_project s)
  /\ edit_ok (map t_id (tasks db)) (edit_task s)
  /\ edit_ok (map m_id (team_members db)) (edit_team_member s).

Definition consistent (s : session_state) (db : database) : Prop :=
  db_ok db /\ session_ok s db.

(** What the widgets guarantee of the values a run receives: date inputs
    hold dates that exist, sliders a whole number from 0 to 100, and a
    select box one of its options. *)
Definition click_ok (c : click) (db : database) : Prop :=
  match c with
  | SaveProjectClick f =>
      valid (ps_start_date f) = true
      /\ valid (ps_end_date f) = true
      /\ 0 <= ps_progress f <= 100
  | SaveTaskClick f =>
      valid (ts_start_date f) = true
      /\ valid (ts_due_date f) = true
      /\ 0 <= ts_progress f <= 100
      /\ (projects db <> [] -> In (ts_project_idx f) (map p_name (projects db)))
      /\ (team_members db <> [] ->
          In (ts_assigned_idx f)
             ("Unassigned"%string :: map m_name (team_members db)))
  | _ => True
  end.

Definition widgets_ok (w : widgets) (db : database) : Prop :=
  projects db <> [] -> In (w_reports_project w) (map p_name (projects db)).

Definition clock_ok (k : clock) : Prop :=
  valid (today k) = true /\ valid (today7 k) = true /\ valid (today30 k) = true.

(** The states the application can be in: it starts on an empty database
    with an empty session state, and every run is started by a click. *)
Inductive reachable : session_state -> database -> Prop :=
| reachable_init :
    reachable (init_session_state None) (mkdb [] [] [])
| reachable_run (c : click) (k : clock) (w : widgets)
    (s s' : session_state) (db db' : database) :
    reachable s db ->
    click_ok c db -> widgets_ok w db -> clock_ok k ->
    main c k w (Some s) db = Ok (s', db') ->
    reachable s' db'.

(** Ids handed out one after the other from 1, none skipped. *)
Definition consecutive_ids (ids : list Z) : Prop :=
  ids = map Z.of_nat (seq 1 (length ids)).

(** What a run may do to an id column: leave it, or append the next
    rowid. *)
Definition kept_or_appended (ids ids' : list Z) : Prop :=
  ids' = ids \/ ids' = ids ++ [next_rowid ids].

(** What runs can do to the three id columns: at most one of them gets one
    more id, the next rowid. *)
Definition one_append (db db' : database) : Prop :=
  (kept_or_appended (map p_id (projects db)) (map p_id (projects db'))
   /\ team_members db' = team_members db /\ tasks db' = tasks db)
  \/ (kept_or_appended (map m_id (team_members db)) (map m_id (team_members db'))
      /\ projects db' = projects db /\ tasks db' = tasks db)
  \/ (kept_or_appended (map t_id (tasks db)) (map t_id (tasks db'))
      /\ projects db' = projects db /\ team_members db' = team_members db).


(** * Properties *)

Lemma digit_val_digit (n : Z) : 0 <= n <= 9 -> digit_val (digit n) = Some n.
Proof.
  intros H.
  rewrite <- (Z2Nat.id n) by lia.
  assert (Hk : (Z.to_nat n < 10)%nat) by lia.
  revert Hk. generalize (Z.to_nat n) as k. intros k Hk.
  do 10 (destruct k as [ | k]; [reflexivity | ]).
  lia.
Qed.

Lemma days_in_month_le_31 (y m : Z) : days_in_month y m <= 31.
Proof.
  unfold days_in_month.
  destruct ((m =? 2) && is_leap y); [lia | ].
  destruct (Z.to_nat m) as [ | k]; [simpl; lia | ].
  do 12 (destruct k as [ | k]; [simpl; lia | ]).
  destruct k; simpl; lia.
Qed.

Lemma pad4 (y : Z) : 0 <= y <= 9999 ->
  digit_val (digit (y / 1000)) = Some (y / 1000) /\
  digit_val (digit (y / 100 mod 10)) = Some (y / 100 mod 10) /\
  digit_val (digit (y / 10 mod 10)) = Some (y / 10 mod 10) /\
  digit_val (digit (y mod 10)) = Some (y mod 10) /\
  y / 1000 * 1000 + y / 100 mod 10 * 100 + y / 10 mod 10 * 10 + y mod 10 = y.
Proof.
  intros H.
  assert (E2 : y / 100 = y / 10 / 10) by (rewrite Z.div_div by lia; reflexivity).
  assert (E3 : y / 1000 = y / 10 / 10 / 10) by (rewrite !Z.div_div by lia; reflexivity).
  rewrite E2, E3.
  repeat split; try (apply digit_val_digit); Z.div_mod_to_equations; lia.
Qed.

Lemma pad2 (m : Z) : 0 <= m <= 99 ->
  digit_val (digit (m / 10)) = Some (m / 10) /\
  digit_val (digit (m mod 10)) = Some (m mod 10) /\
  m / 10 * 10 + m mod 10 = m.
Proof.
  intros H.
  repeat split; try (apply digit_val_digit); Z.div_mod_to_equations; lia.
Qed.

(** Reading back the text written by [isoformat] gives the date again:
    this is what lets rows carry dates in place of their ISO text. *)
Lemma fromisoformat_isoformat (d : date) :
  valid d = true -> fromisoformat (isoformat d) = Some d.
Proof.
  intros V. pose proof V as V'.
  unfold valid in V'.
  repeat rewrite andb_true_iff in V'.
  destruct V' as [[[[[Hy1 Hy2] Hm1] Hm2] Hd1] Hd2].
  apply Z.leb_le in Hy1, Hy2, Hm1, Hm2, Hd1, Hd2.
  pose proof (days_in_month_le_31 (year d) (month d)) as H31.
  destruct (pad4 (year d) ltac:(lia)) as (A3 & A2 & A1 & A0 & Ey).
  destruct (pad2 (month d) ltac:(lia)) as (B1 & B0 & Em).
  destruct (pad2 (day d) ltac:(lia)) as (C1 & C0 & Ed).
  unfold fromisoformat, isoformat.
  replace (Ascii.eqb dash dash) with true by reflexivity.
  cbv beta iota delta [negb andb].
  rewrite A3, A2, A1, A0, B1, B0, C1, C0.
  cbv beta iota delta [opt_bind].
  rewrite Ey, Em, Ed.
  destruct d as [y m dd]; cbv beta iota delta [year month day] in *.
  rewrite V. reflexivity.
Qed.

(** ** Rowids and single-row statements *)

Lemma fold_max_ge (x : Z) (r : list Z) :
  x <= fold_right Z.max x r /\ forall y, In y r -> y <= fold_right Z.max x r.
Proof.
  induction r as [ | z r [IHx IHr]]; simpl.
  - split; [lia | intros y []].
  - split; [lia | ].
    intros y [<- | Hy]; [lia | ].
    specialize (IHr y Hy). lia.
Qed.

(** A rowid handed out by [next_rowid] is not in use. *)
Lemma next_rowid_fresh (ids : list Z) : ~ In (next_rowid ids) ids.
Proof.
  destruct ids as [ | x r]; simpl; [tauto | ].
  destruct (fold_max_ge x r) as [Hx Hr].
  intros [E | Hin]; [lia | ].
  specialize (Hr _ Hin). lia.
Qed.

Lemma find_absent {A : Type} (key : A -> Z) (id : Z) (l : list A) :
  ~ In id (map key l) -> find (fun a => key a =? id) l = None.
Proof.
  induction l as [ | a l IH]; simpl; intros H; [reflexivity | ].
  destruct (Z.eqb_spec (key a) id) as [E | _]; [tauto | ].
  apply IH. tauto.
Qed.

Lemma find_app_absent {A : Type} (key : A -> Z) (id : Z) (l : list A) (a : A) :
  ~ In id (map key l) -> key a = id ->
  find (fun a => key a =? id) (l ++ [a]) = Some a.
Proof.
  intros H E.
  induction l as [ | b l IH]; simpl in *.
  - rewrite E, Z.eqb_refl. reflexivity.
  - destruct (Z.eqb_spec (key b) id) as [E' | _]; [tauto | ].
    apply IH. tauto.
Qed.

(** A [WHERE id = ?] that matches no row leaves an UPDATE without effect. *)
Lemma map_update_absent {A : Type} (key : A -> Z) (f : A -> A) (id : Z) (l : list A) :
  ~ In id (map key l) ->
  map (fun a => if key a =? id then f a else a) l = l.
Proof.
  induction l as [ | a l IH]; simpl; intros H; [reflexivity | ].
  destruct (Z.eqb_spec (key a) id) as [E | _]; [tauto | ].
  f_equal. apply IH. tauto.
Qed.

Lemma update_task_absent project_id name description status priority
    start_date due_date assigned_to progress id ts :
  ~ In id (map t_id ts) ->
  update_task project_id name description status priority start_date due_date
    assigned_to progress id ts = ts.
Proof. apply map_update_absent. Qed.

Lemma update_project_absent name description start_date end_date status
    progress id ps :
  ~ In id (map p_id ps) ->
  update_project name description start_date end_date status progress id ps = ps.
Proof. apply map_update_absent. Qed.

Lemma index_In (x : string) (l : list string) :
  In x l -> exists i, index x l = Ok i /\ nth_error l i = Some x.
Proof.
  induction l as [ | y l IH]; simpl; [tauto | ].
  intros H.
  destruct (String.eqb_spec y x) as [E | N].
  - exists 0%nat. subst. split; reflexivity.
  - destruct H as [E | H]; [contradiction | ].
    destruct (IH H) as (i & Hi & Hn).
    exists (S i). rewrite Hi. split; [reflexivity | exact Hn].
Qed.

Lemma getitem_map {A B : Type} (f : A -> B) (l : list A) (i : nat) (a : A) :
  nth_error l i = Some a -> getitem (map f l) i = Ok (f a).
Proof.
  intros H. unfold getitem. rewrite nth_error_map, H. reflexivity.
Qed.

Lemma mkdb_eta (db : database) :
  mkdb (projects db) (team_members db) (tasks db) = db.
Proof. destruct db; reflexivity. Qed.

(** Loading the edit form for an id that names no task stops the page with
    an uncaught [TypeError], before any statement is issued. *)
Lemma load_task_id_absent (id : Z) (db : database) :
  ~ In id (map t_id (tasks db)) -> load_task_id (Edit id) db = Raise TypeError.
Proof.
  intros H. unfold load_task_id, fetchone_task.
  rewrite (find_absent t_id) by exact H. reflexivity.
Qed.

Lemma load_project_data_absent (id : Z) (today today30 : date) (db : database) :
  ~ In id (map p_id (projects db)) ->
  load_project_data (Edit id) today today30 db = Raise TypeError.
Proof.
  intros H. unfold load_project_data, fetchone_project.
  rewrite (find_absent p_id) by exact H. reflexivity.
Qed.

(** ** [projects_page]: creating a project *)

(** C4. Submitting the new-project form with an empty name shows the
    error "Project name is required." and leaves the whole database, hence
    the projects table and its row count, as it was; with a non-empty name
    one row is appended to the projects table under a rowid that no
    stored project has. *)
Theorem createProject_requires_name :
  forall (db : database) (description : string) (start_date end_date : date)
         (status : project_status) (progress : Z),
    save_project None "" description start_date end_date status progress db
      = (db, StError "Project name is required.")
    /\
    forall (c : ascii) (s : string),
      let name := String c s in
      let id := next_rowid (map p_id (projects db)) in
      save_project None name description start_date end_date status progress db
        = (mkdb (projects db ++
                   [mkproject id name description start_date end_date
                      (project_status_str status) (inject_Z progress)])
                (team_members db) (tasks db),
           StSuccess "Project saved successfully!")
      /\ ~ In id (map p_id (projects db))
      /\ length (projects (fst (save_project None name description start_date
                                  end_date status progress db)))
         = S (length (projects db)).
Proof.
  intros db description start_date end_date status progress.
  split; [reflexivity | ].
  intros c s name id.
  split; [reflexivity | ].
  split; [apply next_rowid_fresh | ].
  unfold save_project, insert_project; simpl.
  rewrite length_app; simpl. lia.
Qed.

Lemma int_of_float_inject_Z (n : Z) : int_of_float (inject_Z n) = n.
Proof.
  unfold int_of_float.
  destruct (Qle_bool 0 (inject_Z n)); [apply Qfloor_Z | apply Qceiling_Z].
Qed.

Lemma project_status_index (status : project_status) :
  exists i, index (project_status_str status) project_status_options = Ok i
            /\ nth_error project_status_options i = Some (project_status_str status).
Proof.
  apply index_In. destruct status; simpl; tauto.
Qed.

(** C7. For a non-empty name, dates that exist, a status of the select box
    and a progress between 0 and 100, the row written by the new-project
    form is read back under its new id with every field equal to the form's
    value: name, description and status as they were given, the dates as
    their ISO text (which the edit form parses back to the same dates) and
    progress as the same number, which lies in [0, 100]. *)
Theorem createProject_getProject_roundtrip :
  forall (db : database) (name description : string) (start_date end_date : date)
         (status : project_status) (progress : Z) (today today30 : date),
    truthy name = true ->
    valid start_date = true ->
    valid end_date = true ->
    0 <= progress <= 100 ->
    let id := next_rowid (map p_id (projects db)) in
    let db' := fst (save_project None name description start_date end_date
                      status progress db) in
    let read := mkproject_data (Some id) name description
                  (isoformat start_date) (isoformat end_date)
                  (project_status_str status) (inject_Z progress) in
    fetchone_project id (projects db')
      = Some (mkproject id name description start_date end_date
                (project_status_str status) (inject_Z progress))
    /\ load_project_data (Edit id) today today30 db' = Ok read
    /\ (exists i,
          project_form_defaults read
            = Ok (mkproject_form name description start_date end_date i progress)
          /\ nth_error project_status_options i = Some (project_status_str status))
    /\ (0 <= pd_progress read)%Q /\ (pd_progress read <= 100)%Q.
Proof.
  intros db name description start_date end_date status progress today today30
         Hname Hs He Hp id db' read.
  assert (F : fetchone_project id (projects db')
              = Some (mkproject id name description start_date end_date
                        (project_status_str status) (inject_Z progress))).
  { unfold db', save_project. rewrite Hname. cbn [fst projects].
    unfold fetchone_project, insert_project.
    apply (find_app_absent p_id); [apply next_rowid_fresh | reflexivity]. }
  split; [exact F | ].
  split.
  { unfold load_project_data. rewrite F. reflexivity. }
  split.
  { destruct (project_status_index status) as (i & Hi & Hn).
    exists i. split; [ | exact Hn].
    unfold project_form_defaults, parse_date, read.
    cbn [pd_name pd_description pd_start_date pd_end_date pd_status pd_progress].
    rewrite (fromisoformat_isoformat _ Hs), (fromisoformat_isoformat _ He).
    cbn [bind]. rewrite Hi. cbn [bind].
    rewrite int_of_float_inject_Z. reflexivity. }
  unfold read; cbn [pd_progress].
  split.
  - change 0%Q with (inject_Z 0). rewrite <- Zle_Qle. lia.
  - change 100%Q with (inject_Z 100). rewrite <- Zle_Qle. lia.
Qed.

Lemma createProject_getProject_roundtrip_witness :
  let db := mkdb [mkproject 1 "Alpha" "" (mkdate 2024 1 1) (mkdate 2024 1 31)
                    "Planning" 0] [] [] in
  truthy "Beta" = true
  /\ valid (mkdate 2024 2 1) = true
  /\ valid (mkdate 2024 2 29) = true
  /\ 0 <= 40 <= 100
  /\ fetchone_project 2
       (projects (fst (save_project None "Beta" "second" (mkdate 2024 2 1)
                         (mkdate 2024 2 29) PS_InProgress 40 db)))
     = Some (mkproject 2 "Beta" "second" (mkdate 2024 2 1) (mkdate 2024 2 29)
               "In Progress" (inject_Z 40)).
Proof.
  intros db.
  split; [reflexivity | ].
  split; [reflexivity | ].
  split; [reflexivity | ].
  split; [lia | ].
  apply (createProject_getProject_roundtrip db "Beta" "second" (mkdate 2024 2 1)
           (mkdate 2024 2 29) PS_InProgress 40 (mkdate 2024 1 1) (mkdate 2024 1 31));
    [reflexivity | reflexivity | reflexivity | lia].
Defined.

(** ** [tasks_page] and [projects_page]: saving under an id that is absent *)




(** ** Joins *)

Section LeftJoin.

Context {A B : Type}.
Variable on : A -> B -> bool.
Variable a : list A.
Variable b : list B.

Lemma left_join_In (x : A) (y : B) :
  In x a -> In y b -> on x y = true -> In (x, Some y) (left_join on a b).
Proof.
  intros Hx Hy Hon. unfold left_join.
  apply in_flat_map. exists x. split; [exact Hx | ].
  assert (Hf : In y (filter (on x) b)) by (apply filter_In; tauto).
  destruct (filter (on x) b) as [ | z zs]; [destruct Hf | ].
  apply (in_map (fun y => (x, Some y))). exact Hf.
Qed.

Lemma left_join_total (x : A) :
  In x a -> exists o, In (x, o) (left_join on a b).
Proof.
  intros Hx. unfold left_join.
  destruct (filter (on x) b) as [ | z zs] eqn:E.
  - exists None. apply in_flat_map. exists x. rewrite E. simpl. tauto.
  - exists (Some z). apply in_flat_map. exists x. rewrite E. simpl. tauto.
Qed.

Lemma left_join_fst (x : A) (o : option B) :
  In (x, o) (left_join on a b) -> In x a.
Proof.
  unfold left_join. intros H.
  apply in_flat_map in H. destruct H as (x' & Hx' & H).
  destruct (filter (on x') b) as [ | z zs].
  - destruct H as [[= <- <-] | []]. exact Hx'.
  - apply in_map_iff in H. destruct H as (y & [= <- <-] & _). exact Hx'.
Qed.

End LeftJoin.

(** Under a key without duplicates at most one row answers a lookup, and
    it is the one [find] returns. *)
Lemma filter_unique_key {A : Type} (key : A -> Z) (f : A -> bool) (k : Z) (l : list A) :
  (forall a, f a = true -> key a = k) ->
  NoDup (map key l) ->
  filter f l = match find f l with Some a => [a] | None => [] end.
Proof.
  intros Hf. induction l as [ | a l IH]; simpl; intros N; [reflexivity | ].
  inversion N as [ | ? ? Hnotin N']; subst.
  destruct (f a) eqn:E.
  - f_equal.
    assert (Hnone : forall b, In b l -> f b = false).
    { intros b Hb. destruct (f b) eqn:Eb; [ | reflexivity].
      exfalso. apply Hnotin. rewrite (Hf a E), <- (Hf b Eb).
      apply in_map. exact Hb. }
    clear - Hnone. induction l as [ | b l IH]; simpl; [reflexivity | ].
    rewrite (Hnone b) by (left; reflexivity).
    apply IH. intros c Hc. apply Hnone. right. exact Hc.
  - apply IH. exact N'.
Qed.

Lemma left_join_unique {A B : Type} (on : A -> B -> bool) (a : list A) (b : list B) :
  (forall x, filter (on x) b = match find (on x) b with Some y => [y] | None => [] end) ->
  left_join on a b = map (fun x => (x, find (on x) b)) a.
Proof.
  intros H.
  induction a as [ | x a IH]; [reflexivity | ].
  change (left_join on (x :: a) b)
    with (match filter (on x) b with
          | [] => [(x, None)]
          | ys => map (fun y => (x, Some y)) ys
          end ++ left_join on a b).
  rewrite IH, (H x).
  destruct (find (on x) b) eqn:E; simpl; rewrite E; reflexivity.
Qed.

Lemma filter_on_project_unique (db : database) (t : task) :
  NoDup (map p_id (projects db)) ->
  filter (on_project t) (projects db)
  = match find (on_project t) (projects db) with Some p => [p] | None => [] end.
Proof.
  apply (filter_unique_key p_id _ (t_project_id t)).
  intros p H. unfold on_project in H. apply Z.eqb_eq in H. congruence.
Qed.

Lemma filter_on_assignee_unique (db : database) (t : task) :
  NoDup (map m_id (team_members db)) ->
  filter (on_assignee t) (team_members db)
  = match find (on_assignee t) (team_members db) with Some m => [m] | None => [] end.
Proof.
  intros N. unfold on_assignee.
  destruct (t_assigned_to t) as [k | ].
  - apply (filter_unique_key m_id _ k); [ | exact N].
    intros m H. apply Z.eqb_eq in H. congruence.
  - induction (team_members db) as [ | m l IH]; simpl; [reflexivity | ].
    inversion N; subst. auto.
Qed.

(** With primary keys the joined frame has one row per task, in the order
    of the tasks table. *)
Lemma tasks_joined_one_row_per_task (db : database) :
  NoDup (map p_id (projects db)) ->
  NoDup (map m_id (team_members db)) ->
  tasks_joined db
  = map (fun t => mktask_row t (option_map p_name (project_of db t))
                    (option_map m_name (assignee_of db t)))
        (tasks db).
Proof.
  intros NP NM. unfold tasks_joined.
  rewrite (left_join_unique on_project)
    by (intros t; apply filter_on_project_unique; exact NP).
  rewrite (left_join_unique (fun tp m => on_assignee (fst tp) m))
    by (intros tp; apply filter_on_assignee_unique; exact NM).
  rewrite !map_map. reflexivity.
Qed.

(** The clauses collected in [where_clauses], read as one condition. *)
Lemma forallb_where_clauses (selected_project selected_status : string) (r : task_row) :
  forallb (fun clause => clause r) (where_clauses selected_project selected_status)
  = (String.eqb selected_project "All Projects"
     || sql_text_eq (project_name r) selected_project)
    && (String.eqb selected_status "All Statuses"
        || String.eqb (t_status (r_task r)) selected_status).
Proof.
  unfold where_clauses.
  destruct (String.eqb selected_project "All Projects");
    destruct (String.eqb selected_status "All Statuses"); simpl;
    rewrite ?andb_true_r; reflexivity.
Qed.

Lemma sql_text_eq_true (v : option string) (param : string) :
  sql_text_eq v param = true <-> v = Some param.
Proof.
  destruct v as [s | ]; simpl.
  - rewrite String.eqb_eq. split; congruence.
  - split; discriminate.
Qed.

Lemma map_filter_map {A B : Type} (mk : A -> B) (back : B -> A) (f : B -> bool) (l : list A) :
  (forall a, back (mk a) = a) ->
  map back (filter f (map mk l)) = filter (fun a => f (mk a)) l.
Proof.
  intros H. induction l as [ | a l IH]; simpl; [reflexivity | ].
  destruct (f (mk a)); simpl; rewrite ?H, IH; reflexivity.
Qed.

(** ** [tasks_page]: the listing *)



(** ** [reports_page]: the longest task *)

Lemma idxmax_from_spec (l : list Z) :
  forall (best_i : nat) (best : Z) (i : nat),
    (idxmax_from best_i best i l = best_i /\ Forall (fun x => x <= best) l)
    \/ (exists j m,
          idxmax_from best_i best i l = (i + j)%nat
          /\ nth_error l j = Some m
          /\ best < m
          /\ Forall (fun x => x <= m) l
          /\ forall j' x, (j' < j)%nat -> nth_error l j' = Some x -> x < m).
Proof.
  induction l as [ | x r IH]; intros best_i best i; simpl.
  - left. split; [reflexivity | constructor].
  - destruct (Z.ltb_spec best x) as [Hlt | Hge].
    + right.
      destruct (IH i x (S i)) as [[Hk Hall] | (j & m & Hk & Hn & Hm & Hall & Hfirst)].
      * exists 0%nat, x. rewrite Hk, Nat.add_0_r.
        repeat split; try assumption.
        -- constructor; [lia | exact Hall].
        -- intros j' y Hj'. lia.
      * exists (S j), m. rewrite Hk.
        repeat split; try assumption.
        -- lia.
        -- lia.
        -- constructor; [lia | exact Hall].
        -- intros [ | j'] y Hj' Hy; simpl in Hy.
           ++ injection Hy as <-. exact Hm.
           ++ apply (Hfirst j'); [lia | exact Hy].
    + destruct (IH best_i best (S i)) as [[Hk Hall] | (j & m & Hk & Hn & Hm & Hall & Hfirst)].
      * left. split; [exact Hk | constructor; [lia | exact Hall]].
      * right. exists (S j), m. rewrite Hk.
        repeat split; try assumption.
        -- lia.
        -- constructor; [lia | exact Hall].
        -- intros [ | j'] y Hj' Hy; simpl in Hy.
           ++ injection Hy as <-. lia.
           ++ apply (Hfirst j'); [lia | exact Hy].
Qed.

Lemma fold_left_max_spec (l : list Z) :
  forall x,
    x <= fold_left Z.max l x
    /\ Forall (fun y => y <= fold_left Z.max l x) l
    /\ (fold_left Z.max l x = x \/ In (fold_left Z.max l x) l).
Proof.
  induction l as [ | y l IH]; intros x; simpl.
  - repeat split; [lia | constructor | left; reflexivity].
  - destruct (IH (Z.max x y)) as (H1 & H2 & H3).
    repeat split.
    + lia.
    + constructor; [lia | exact H2].
    + destruct H3 as [E | Hin]; [ | right; right; exact Hin].
      rewrite E. destruct (Z.max_spec x y) as [[_ ->] | [_ ->]]; [right | ]; tauto.
Qed.

(** The task named under "Critical Path Analysis" of a non-empty frame:
    its duration is the largest, the duration shown is its own, and no row
    before it lasts as long. *)
Lemma critical_path_spec (tasks_df : list task) :
  tasks_df <> [] ->
  exists i critical_task,
    critical_path tasks_df = Ok (duration_days critical_task, critical_task)
    /\ nth_error tasks_df i = Some critical_task
    /\ (forall u, In u tasks_df -> duration_days u <= duration_days critical_task)
    /\ (forall j u, (j < i)%nat -> nth_error tasks_df j = Some u ->
                    duration_days u < duration_days critical_task).
Proof.
  destruct tasks_df as [ | t0 r]; [congruence | intros _].
  assert (K : exists i ct,
             idxmax (map duration_days (t0 :: r)) = Ok i
             /\ nth_error (t0 :: r) i = Some ct
             /\ (forall u, In u (t0 :: r) -> duration_days u <= duration_days ct)
             /\ (forall j u, (j < i)%nat -> nth_error (t0 :: r) j = Some u ->
                             duration_days u < duration_days ct)).
  { simpl idxmax.
    destruct (idxmax_from_spec (map duration_days r) 0%nat (duration_days t0) 1%nat)
      as [[Hk Hall] | (j & m & Hk & Hn & Hm & Hall & Hfirst)].
    - exists 0%nat, t0. rewrite Hk.
      repeat split.
      + intros u [<- | Hu]; [lia | ].
        rewrite Forall_forall in Hall. apply Hall, in_map, Hu.
      + intros j u Hj. lia.
    - rewrite nth_error_map in Hn.
      destruct (nth_error r j) as [ct | ] eqn:Ect; [ | discriminate].
      injection Hn as <-.
      exists (S j), ct. rewrite Hk.
      repeat split.
      + exact Ect.
      + intros u [<- | Hu]; [lia | ].
        rewrite Forall_forall in Hall. apply Hall, in_map, Hu.
      + intros [ | j'] u Hj' Hu; simpl in Hu.
        * injection Hu as <-. exact Hm.
        * apply (Hfirst j'); [lia | ].
          rewrite nth_error_map, Hu. reflexivity. }
  destruct K as (i & ct & Hidx & Hnth & Hmax & Hfirst).
  exists i, ct.
  split; [ | repeat split; assumption].
  unfold critical_path. rewrite Hidx. cbn [bind].
  unfold getitem. rewrite Hnth. cbn [bind].
  assert (E : series_max (map duration_days (t0 :: r)) = Ok (duration_days ct)).
  { simpl series_max. f_equal.
    destruct (fold_left_max_spec (map duration_days r) (duration_days t0))
      as (H1 & H2 & H3).
    assert (Hle : fold_left Z.max (map duration_days r) (duration_days t0)
                  <= duration_days ct).
    { destruct H3 as [-> | Hin].
      - apply Hmax. left. reflexivity.
      - apply in_map_iff in Hin. destruct Hin as (u & <- & Hu).
        apply Hmax. right. exact Hu. }
    assert (Hge : duration_days ct
                  <= fold_left Z.max (map duration_days r) (duration_days t0)).
    { apply nth_error_In in Hnth. destruct Hnth as [<- | Hin]; [exact H1 | ].
      rewrite Forall_forall in H2. apply H2, in_map, Hin. }
    lia. }
  rewrite E. reflexivity.
Qed.

(** ** [reports_page]: which project and which tasks *)

Lemma select_project_id_first (selected_project : string)
    (before after : list project) (first : project) :
  (forall p, In p before -> p_name p <> selected_project) ->
  p_name first = selected_project ->
  select_project_id selected_project (before ++ first :: after) = Ok (p_id first).
Proof.
  intros Hb Hf. unfold select_project_id.
  induction before as [ | b before IH]; simpl.
  - destruct (String.eqb_spec (p_name first) selected_project); [reflexivity | contradiction].
  - destruct (String.eqb_spec (p_name b) selected_project) as [E | _].
    + exfalso. apply (Hb b); [left; reflexivity | exact E].
    + apply IH. intros p Hp. apply Hb. right. exact Hp.
Qed.

Lemma select_project_id_Ok (selected_project : string) (ps : list project) (id : Z) :
  select_project_id selected_project ps = Ok id ->
  exists p, In p ps /\ p_name p = selected_project /\ p_id p = id.
Proof.
  unfold select_project_id, getitem.
  destruct (map p_id (filter (fun p => String.eqb (p_name p) selected_project) ps))
    as [ | x l] eqn:E; simpl; [discriminate | ].
  intros [= <-].
  assert (Hin : In x (map p_id (filter (fun p => String.eqb (p_name p) selected_project) ps)))
    by (rewrite E; left; reflexivity).
  apply in_map_iff in Hin. destruct Hin as (p & Hid & Hp).
  apply filter_In in Hp. destruct Hp as [Hp Hn].
  apply String.eqb_eq in Hn. exists p. tauto.
Qed.

Lemma select_project_details_Ok (id : Z) (ps : list project) (p : project) :
  In p ps -> p_id p = id ->
  exists project_details,
    select_project_details id ps = Ok project_details
    /\ p_id project_details = id /\ In project_details ps.
Proof.
  intros Hin Hid. unfold select_project_details, getitem.
  destruct (filter (fun p => p_id p =? id) ps) as [ | q l] eqn:E; simpl.
  - exfalso.
    assert (H : In p (filter (fun p => p_id p =? id) ps))
      by (apply filter_In; split; [exact Hin | apply Z.eqb_eq; exact Hid]).
    rewrite E in H. destruct H.
  - exists q. split; [reflexivity | ].
    assert (H : In q (filter (fun p => p_id p =? id) ps))
      by (rewrite E; left; reflexivity).
    apply filter_In in H. destruct H as [H1 H2].
    apply Z.eqb_eq in H2. tauto.
Qed.

(** The frame of the timeline holds the tasks of the chosen project id and
    no other. *)
Lemma timeline_tasks_In (project_id : Z) (db : database) (t : task) :
  In t (map fst (timeline_tasks project_id db))
  <-> In t (tasks db) /\ t_project_id t = project_id.
Proof.
  unfold timeline_tasks. rewrite map_map. cbn [fst].
  rewrite in_map_iff. split.
  - intros ([u o] & <- & H). apply filter_In in H. destruct H as [H1 H2].
    cbn [fst] in *. apply Z.eqb_eq in H2.
    split; [eapply left_join_fst; exact H1 | exact H2].
  - intros [Hin Hid].
    destruct (left_join_total on_assignee (tasks db) (team_members db) t Hin) as [o Ho].
    exists (t, o). split; [reflexivity | ].
    apply filter_In. split; [exact Ho | ]. apply Z.eqb_eq. exact Hid.
Qed.

(** ** [reports_page]: the completion prediction *)

Lemma truediv_nonzero (a b : Q) : ~ (b == 0)%Q -> truediv a b = Ok (a / b)%Q.
Proof.
  intros H. unfold truediv.
  destruct (Qeq_bool b 0) eqn:E; [ | reflexivity].
  apply Qeq_bool_iff in E. contradiction.
Qed.

Lemma total_tasks_pos (tasks_df : list task) :
  tasks_df <> [] -> (0 < inject_Z (Z.of_nat (length tasks_df)))%Q.
Proof.
  intros H. destruct tasks_df as [ | t r]; [congruence | ].
  change 0%Q with (inject_Z 0). rewrite <- Zlt_Qlt. simpl length. lia.
Qed.

Lemma completion_percentage_eq (tasks_df : list task) :
  tasks_df <> [] ->
  completion_percentage tasks_df = Ok (percent_completed tasks_df).
Proof.
  intros H. unfold completion_percentage, percent_completed.
  pose proof (total_tasks_pos tasks_df H) as Hpos.
  destruct tasks_df as [ | t r]; [congruence | ].
  replace (0 <? length (t :: r))%nat with true by reflexivity.
  rewrite truediv_nonzero; [reflexivity | ].
  intros E. rewrite E in Hpos. discriminate Hpos.
Qed.

Lemma percent_completed_nonneg (tasks_df : list task) :
  tasks_df <> [] -> (0 <= percent_completed tasks_df)%Q.
Proof.
  intros H. unfold percent_completed.
  apply Qmult_le_0_compat; [ | discriminate].
  apply Qle_shift_div_l; [apply total_tasks_pos; exact H | ].
  rewrite Qmult_0_l.
  change 0%Q with (inject_Z 0). rewrite <- Zle_Qle. lia.
Qed.

Lemma percent_completed_zero (tasks_df : list task) :
  completed_tasks_count tasks_df = 0%nat -> (percent_completed tasks_df == 0)%Q.
Proof.
  intros H. unfold percent_completed. rewrite H.
  change (inject_Z (Z.of_nat 0)) with 0%Q.
  unfold Qdiv. rewrite !Qmult_0_l. reflexivity.
Qed.

Lemma percent_completed_pos (tasks_df : list task) :
  (0 < completed_tasks_count tasks_df)%nat -> (0 < percent_completed tasks_df)%Q.
Proof.
  intros H.
  assert (Hne : tasks_df <> []).
  { intros ->. unfold completed_tasks_count in H. simpl in H. lia. }
  unfold percent_completed.
  apply Qmult_lt_0_compat; [ | reflexivity].
  apply Qlt_shift_div_l; [apply total_tasks_pos; exact Hne | ].
  rewrite Qmult_0_l.
  change 0%Q with (inject_Z 0). rewrite <- Zlt_Qlt. lia.
Qed.

(** The code's prediction is the specification's formula evaluated at the
    percentage of the project's tasks that are "Completed". *)
Lemma completion_prediction_eq (now : Z) (project_details : project)
    (tasks_df : list task) :
  tasks_df <> [] ->
  completion_prediction now project_details tasks_df
  = Ok (estimateCompletion_spec (percent_completed tasks_df)
          (p_start_date project_details) (p_end_date project_details) now).
Proof.
  intros H. unfold completion_prediction, estimateCompletion_spec.
  rewrite (completion_percentage_eq _ H). cbn [bind].
  pose proof (percent_completed_nonneg _ H) as Hge.
  set (P := percent_completed tasks_df) in *.
  destruct (Qle_bool P 0) eqn:Ele; cbn [negb].
  - apply Qle_bool_iff in Ele.
    assert (E : (P == 0)%Q) by (apply Qle_antisym; assumption).
    apply Qeq_bool_iff in E. rewrite E. reflexivity.
  - assert (Hnle : ~ (P <= 0)%Q).
    { intros C. apply Qle_bool_iff in C. congruence. }
    assert (Hn0 : ~ (P == 0)%Q).
    { intros C. apply Hnle. rewrite C. apply Qle_refl. }
    assert (Hf0 : ~ (P / 100 == 0)%Q).
    { intros C. apply Hn0.
      assert (E : (P == P / 100 * 100)%Q) by field.
      rewrite E, C. reflexivity. }
    destruct (Qeq_bool P 0) eqn:E0; [apply Qeq_bool_iff in E0; contradiction | ].
    rewrite (truediv_nonzero P 100) by discriminate. cbn [bind].
    rewrite (truediv_nonzero _ _ Hf0). cbn [bind].
    reflexivity.
Qed.

Lemma completion_prediction_no_tasks (now : Z) (project_details : project) :
  completion_prediction now project_details [] = Ok None.
Proof. reflexivity. Qed.

(** Both divisions are reached with a non-zero divisor only, so that the
    prediction returns. *)
Lemma completion_prediction_total (now : Z) (project_details : project)
    (tasks_df : list task) :
  exists r, completion_prediction now project_details tasks_df = Ok r.
Proof.
  destruct tasks_df as [ | t l] eqn:E.
  - exists None. reflexivity.
  - rewrite <- E. eexists. apply completion_prediction_eq. rewrite E. discriminate.
Qed.

(** With no task "Completed" the block that divides is skipped. *)
Lemma completion_prediction_none (now : Z) (project_details : project)
    (tasks_df : list task) :
  completed_tasks_count tasks_df = 0%nat ->
  completion_prediction now project_details tasks_df = Ok None.
Proof.
  intros H. destruct tasks_df as [ | t l] eqn:E; [reflexivity | ].
  rewrite <- E in *.
  rewrite completion_prediction_eq by (rewrite E; discriminate).
  unfold estimateCompletion_spec.
  pose proof (percent_completed_zero _ H) as Z0.
  apply Qeq_bool_iff in Z0. rewrite Z0. reflexivity.
Qed.

(** With a task "Completed" an estimate is made. *)
Lemma completion_prediction_some (now : Z) (project_details : project)
    (tasks_df : list task) :
  (0 < completed_tasks_count tasks_df)%nat ->
  exists pr, completion_prediction now project_details tasks_df = Ok (Some pr).
Proof.
  intros H.
  assert (Hne : tasks_df <> []).
  { intros ->. unfold completed_tasks_count in H. simpl in H. lia. }
  rewrite completion_prediction_eq by exact Hne.
  unfold estimateCompletion_spec.
  pose proof (percent_completed_pos _ H) as Hpos.
  destruct (Qeq_bool (percent_completed tasks_df) 0) eqn:E.
  - apply Qeq_bool_iff in E. rewrite E in Hpos. discriminate Hpos.
  - eexists. reflexivity.
Qed.

(** Once a project is selected, the tab is settled by its task frame. *)
Lemma reports_timeline_selected (now : Z) (selected_project : string)
    (db : database) (project_id : Z) :
  select_project_id selected_project (projects db) = Ok project_id ->
  exists project_details,
    In project_details (projects db)
    /\ p_id project_details = project_id
    /\ reports_timeline now selected_project db
       = (let tasks_df := timeline_tasks project_id db in
          if is_empty tasks_df then Ok (NoTasksForProject project_details)
          else
            cp <- critical_path (map fst tasks_df) ;;
            estimate <- completion_prediction now project_details (map fst tasks_df) ;;
            Ok (Timeline project_details tasks_df (fst cp) (snd cp) estimate)).
Proof.
  intros Hsel.
  destruct (select_project_id_Ok _ _ _ Hsel) as (p & Hin & _ & Hid).
  destruct (select_project_details_Ok _ _ _ Hin Hid) as (pd & Hpd & Hpid & Hpin).
  exists pd. split; [exact Hpin | split; [exact Hpid | ]].
  unfold reports_timeline.
  destruct (projects db) as [ | q ps] eqn:E; [destruct Hin | ].
  cbn [is_empty]. rewrite Hsel. cbn [bind]. rewrite Hpd. cbn [bind].
  reflexivity.
Qed.









Lemma round_half_even_inject_Z (q : Q) (n : Z) :
  (q == inject_Z n)%Q -> round_half_even q = n.
Proof.
  intros H. unfold round_half_even.
  rewrite (Qfloor_comp _ _ H), Qfloor_Z.
  assert (C : (q - inject_Z n ?= 1 # 2)%Q = Lt).
  { assert (E : (q - inject_Z n == 0)%Q) by (rewrite H; ring).
    rewrite E. reflexivity. }
  rewrite C. reflexivity.
Qed.




(** ** Projects that share a name *)

Lemma tasks_joined_row (db : database) (t : task) (p : project) :
  In t (tasks db) -> In p (projects db) -> t_project_id t = p_id p ->
  exists r, In r (tasks_joined db) /\ r_task r = t
            /\ project_name r = Some (p_name p).
Proof.
  intros Ht Hp Hid.
  assert (H1 : In (t, Some p) (left_join on_project (tasks db) (projects db))).
  { apply left_join_In; [exact Ht | exact Hp | ].
    unfold on_project. apply Z.eqb_eq. exact Hid. }
  destruct (left_join_total (fun tp m => on_assignee (fst tp) m) _
              (team_members db) _ H1) as [o Ho].
  exists (mktask_row t (Some (p_name p)) (option_map m_name o)).
  split; [ | split; reflexivity].
  unfold tasks_joined.
  apply (in_map (fun x => mktask_row (fst (fst x))
                            (option_map p_name (snd (fst x)))
                            (option_map m_name (snd x))) _ _ Ho).
Qed.

(** C10. Nothing keeps two projects from bearing one name: the new-project
    form accepts a name that is already stored and gives the row an id of
    its own.  When a later project [other] shares the name of [first], the
    first row of that name, a task of [other] is listed by the tasks page
    under the project filter set to that name, while the Timeline tab,
    for the same name, resolves to the id of [first]: its frame, and the
    task it names under "Critical Path Analysis", leave the task of
    [other] out. *)
Theorem same_name_projects_listing_vs_timeline :
  forall (db : database) (before after : list project) (first other : project)
         (t : task),
    projects db = before ++ first :: after ->
    (forall p, In p before -> p_name p <> p_name first) ->
    In other after ->
    p_name other = p_name first ->
    p_id other <> p_id first ->
    In t (tasks db) ->
    t_project_id t = p_id other ->
    (exists r, In r (tasks_query (p_name first) "All Statuses" db) /\ r_task r = t)
    /\ select_project_id (p_name first) (projects db) = Ok (p_id first)
    /\ ~ In t (map fst (timeline_tasks (p_id first) db))
    /\ (forall now, exists view,
          reports_timeline now (p_name first) db = Ok view
          /\ match view with
             | NoProjectsFound => False
             | NoTasksForProject project_details =>
                 p_id project_details = p_id first
             | Timeline project_details tasks_df _ critical_task _ =>
                 p_id project_details = p_id first
                 /\ ~ In t (map fst tasks_df)
                 /\ critical_task <> t
             end)
    /\ (forall description start_date end_date status progress,
          truthy (p_name first) = true ->
          exists p',
            In p' (projects (fst (save_project None (p_name first) description
                                    start_date end_date status progress db)))
            /\ p_name p' = p_name first
            /\ ~ In (p_id p') (map p_id (projects db))).
Proof.
  intros db before after first other t Hps Hbefore Hother Hname Hid Ht Htid.
  assert (Hin_other : In other (projects db)).
  { rewrite Hps. apply in_or_app. right. right. exact Hother. }
  assert (Hsel : select_project_id (p_name first) (projects db) = Ok (p_id first)).
  { rewrite Hps. apply select_project_id_first; [exact Hbefore | reflexivity]. }
  assert (Hout : ~ In t (map fst (timeline_tasks (p_id first) db))).
  { intros H. apply timeline_tasks_In in H. destruct H as [_ H]. congruence. }
  split.
  { destruct (tasks_joined_row db t other Ht Hin_other Htid) as (r & Hr & Hrt & Hrn).
    exists r. split; [ | exact Hrt].
    unfold tasks_query. apply filter_In. split; [exact Hr | ].
    rewrite forallb_where_clauses, Hrn. cbn [sql_text_eq].
    rewrite Hname, String.eqb_refl, orb_true_r. reflexivity. }
  split; [exact Hsel | ].
  split; [exact Hout | ].
  split.
  { intros now.
    destruct (reports_timeline_selected now _ db _ Hsel) as (pd & _ & Hpid & Hview).
    rewrite Hview. cbv zeta.
    destruct (timeline_tasks (p_id first) db) as [ | x l] eqn:E.
    - exists (NoTasksForProject pd). split; [reflexivity | exact Hpid].
    - cbn [is_empty].
      assert (Hne : map fst (x :: l) <> []) by discriminate.
      destruct (critical_path_spec _ Hne) as (i & ct & Hcp & Hnth & _ & _).
      destruct (completion_prediction_total now pd (map fst (x :: l))) as [est Hest].
      rewrite Hcp, Hest. cbn [bind fst snd].
      eexists. split; [reflexivity | ].
      split; [exact Hpid | split; [exact Hout | ]].
      intros ->. apply Hout. eapply nth_error_In. exact Hnth. }
  intros description start_date end_date status progress Htruthy.
  exists (mkproject (next_rowid (map p_id (projects db))) (p_name first) description
            start_date end_date (project_status_str status) (inject_Z progress)).
  split; [ | split; [reflexivity | apply next_rowid_fresh]].
  unfold save_project. rewrite Htruthy. cbn [fst projects].
  unfold insert_project. apply in_or_app. right. left. reflexivity.
Qed.

Lemma same_name_projects_listing_vs_timeline_witness :
  let first := mkproject 1 "Alpha" "" (mkdate 2024 1 1) (mkdate 2024 1 31)
                 "Planning" 0 in
  let other := mkproject 2 "Alpha" "" (mkdate 2024 2 1) (mkdate 2024 2 29)
                 "Planning" 0 in
  let t := mktask 1 2 "design" "" "Not Started" "Medium" (mkdate 2024 2 1)
             (mkdate 2024 2 8) None 0 in
  let db := mkdb [first; other] [] [t] in
  projects db = [] ++ first :: [other]
  /\ (forall p, In p [] -> p_name p <> p_name first)
  /\ In other [other]
  /\ p_name other = p_name first
  /\ p_id other <> p_id first
  /\ In t (tasks db)
  /\ t_project_id t = p_id other
  /\ (exists r, In r (tasks_query "Alpha" "All Statuses" db) /\ r_task r = t)
  /\ select_project_id "Alpha" (projects db) = Ok 1
  /\ ~ In t (map fst (timeline_tasks 1 db)).
Proof.
  intros first other t db.
  assert (H1 : projects db = [] ++ first :: [other]) by reflexivity.
  assert (H2 : forall p, In p [] -> p_name p <> p_name first) by (intros p []).
  assert (H3 : In other [other]) by (left; reflexivity).
  assert (H4 : p_name other = p_name first) by reflexivity.
  assert (H5 : p_id other <> p_id first) by discriminate.
  assert (H6 : In t (tasks db)) by (left; reflexivity).
  assert (H7 : t_project_id t = p_id other) by reflexivity.
  pose proof (same_name_projects_listing_vs_timeline db [] [other] first other t
                H1 H2 H3 H4 H5 H6 H7) as (C1 & C2 & C3 & _).
  repeat (split; [assumption | ]).
  exact C3.
Defined.

(** ** [dashboard_page]: "Tasks Due Soon" *)

Lemma insert_by_due_date_perm (t : task) (l : list task) :
  Permutation (insert_by_due_date t l) (t :: l).
Proof.
  induction l as [ | u r IH]; simpl; [reflexivity | ].
  destruct (to_datetime (t_due_date t) <? to_datetime (t_due_date u));
    [reflexivity | ].
  rewrite IH. apply perm_swap.
Qed.

Lemma insert_by_due_date_sorted (t : task) (l : list task) :
  StronglySorted le_due l -> StronglySorted le_due (insert_by_due_date t l).
Proof.
  induction l as [ | u r IH]; simpl; intros H.
  - constructor; constructor.
  - inversion H as [ | ? ? Hr Hu]; subst.
    destruct (Z.ltb_spec (to_datetime (t_due_date t)) (to_datetime (t_due_date u)))
      as [Hlt | Hge].
    + constructor; [exact H | ].
      constructor; [unfold le_due; lia | ].
      rewrite Forall_forall in *. intros v Hv.
      specialize (Hu v Hv). unfold le_due in *. lia.
    + constructor; [apply IH; exact Hr | ].
      rewrite Forall_forall in *. intros v Hv.
      apply (Permutation_in _ (insert_by_due_date_perm t r)) in Hv.
      destruct Hv as [<- | Hv]; [exact Hge | apply Hu; exact Hv].
Qed.

Lemma sort_values_due_date_spec (l : list task) :
  StronglySorted le_due (sort_values_due_date l)
  /\ Permutation (sort_values_due_date l) l.
Proof.
  unfold sort_values_due_date.
  assert (G : forall acc,
             StronglySorted le_due acc ->
             StronglySorted le_due
               (fold_left (fun acc t => insert_by_due_date t acc) l acc)
             /\ Permutation
                  (fold_left (fun acc t => insert_by_due_date t acc) l acc)
                  (acc ++ l)).
  { induction l as [ | t l IH]; simpl; intros acc Hacc.
    - rewrite app_nil_r. split; [exact Hacc | reflexivity].
    - destruct (IH (insert_by_due_date t acc)
                  (insert_by_due_date_sorted t acc Hacc)) as [S P].
      split; [exact S | ].
      rewrite P, insert_by_due_date_perm.
      apply Permutation_middle. }
  apply (G []). constructor.
Qed.

Lemma merge_projects_In (l : list task) (ps : list project) (t : task) (p : project) :
  In (t, p) (merge_projects l ps)
  <-> In t l /\ In p ps /\ t_project_id t = p_id p.
Proof.
  unfold merge_projects. rewrite in_flat_map. split.
  - intros (u & Hu & H). apply in_map_iff in H.
    destruct H as (q & [= <- <-] & Hq).
    apply filter_In in Hq. destruct Hq as [Hq E].
    apply Z.eqb_eq in E. tauto.
  - intros (Ht & Hp & E). exists t. split; [exact Ht | ].
    apply in_map. apply filter_In. split; [exact Hp | apply Z.eqb_eq; exact E].
Qed.

Lemma merge_projects_sorted (l : list task) (ps : list project) :
  StronglySorted le_due l ->
  StronglySorted (fun a b => le_due (fst a) (fst b)) (merge_projects l ps).
Proof.
  induction l as [ | t l IH]; intros H; [constructor | ].
  inversion H as [ | ? ? Hl Ht]; subst.
  change (merge_projects (t :: l) ps)
    with (map (fun p => (t, p)) (filter (fun p => t_project_id t =? p_id p) ps)
          ++ merge_projects l ps).
  specialize (IH Hl).
  induction (filter (fun p => t_project_id t =? p_id p) ps) as [ | q qs IHq];
    simpl; [exact IH | ].
  constructor; [exact IHq | ].
  rewrite Forall_forall. intros [u p] Hu.
  apply in_app_or in Hu. destruct Hu as [Hu | Hu].
  - apply in_map_iff in Hu. destruct Hu as (p' & [= <- <-] & _).
    unfold le_due; simpl. lia.
  - apply merge_projects_In in Hu. destruct Hu as (Hu & _ & _).
    rewrite Forall_forall in Ht. apply (Ht u Hu).
Qed.

(** What the dashboard does show: the tasks that are not "Completed" and
    due no later than seven days from now, however long ago they were due,
    each with the project it points to, by ascending due date. *)
Lemma dashboard_due_soon_rows (today : Z) (db : database)
    (display_tasks : list display_task) :
  dashboard_due_soon today db = DueSoon display_tasks ->
  StronglySorted (fun a b => Due_Date a <= Due_Date b) display_tasks
  /\ forall row,
       In row display_tasks
       <-> exists t p,
             row = display_row (t, p)
             /\ In t (tasks db)
             /\ t_status t <> "Completed"%string
             /\ to_datetime (t_due_date t) <= today + timedelta_days 7
             /\ In p (projects db)
             /\ t_project_id t = p_id p.
Proof.
  unfold dashboard_due_soon.
  destruct (is_empty (tasks db)); [discriminate | ].
  destruct (is_empty (upcoming_tasks today db)); [discriminate | ].
  intros [= <-].
  destruct (sort_values_due_date_spec (upcoming_tasks today db)) as [S P].
  split.
  - pose proof (merge_projects_sorted _ (projects db) S) as M.
    induction M as [ | x l _ IH Hx]; simpl; constructor; [exact IH | ].
    rewrite Forall_forall in *. intros row Hrow.
    apply in_map_iff in Hrow. destruct Hrow as (y & <- & Hy).
    apply (Hx y Hy).
  - intros row. rewrite in_map_iff. split.
    + intros ([t p] & <- & H). apply merge_projects_In in H.
      destruct H as (Ht & Hp & E).
      apply (Permutation_in _ P) in Ht.
      unfold upcoming_tasks in Ht. apply filter_In in Ht.
      destruct Ht as [Ht D]. unfold due_soon in D.
      apply andb_true_iff in D. destruct D as [D1 D2].
      apply negb_true_iff in D1. apply String.eqb_neq in D1.
      apply Z.leb_le in D2.
      exists t, p. tauto.
    + intros (t & p & -> & Ht & Hs & Hd & Hp & E).
      exists (t, p). split; [reflexivity | ].
      apply merge_projects_In. split; [ | tauto].
      apply (Permutation_in _ (Permutation_sym P)).
      unfold upcoming_tasks. apply filter_In. split; [exact Ht | ].
      unfold due_soon. apply andb_true_iff. split.
      * apply negb_true_iff. apply String.eqb_neq. exact Hs.
      * apply Z.leb_le. exact Hd.
Qed.

(** The example of the specification: on 2024-01-01, of three tasks due
    2024-01-03 (Not Started), 2024-01-20 (Not Started) and 2024-01-05
    (Completed), the first alone is shown. *)
Example dashboard_due_soon_three_tasks :
  let tk id name status due :=
    mktask id 1 name "" status "Medium" (mkdate 2024 1 1) due None 0 in
  let db := mkdb [mkproject 1 "Alpha" "" (mkdate 2024 1 1) (mkdate 2024 1 31)
                    "In Progress" 0]
                 []
                 [tk 1 "a" "Not Started" (mkdate 2024 1 3);
                  tk 2 "b" "Not Started" (mkdate 2024 1 20);
                  tk 3 "c" "Completed" (mkdate 2024 1 5)]%string in
  dashboard_due_soon (to_datetime (mkdate 2024 1 1)) db
  = DueSoon [mkdisplay_task "a" "Alpha" "Not Started" "Medium"
               (to_datetime (mkdate 2024 1 3))].
Proof. vm_compute. reflexivity. Qed.

(** C1, at the input where the code departs from it: on 2024-01-10 at
    09:00 a task "Not Started" that was due on 2024-01-03, a week before,
    is shown under "Tasks Due Soon"; the mask of [upcoming_tasks] bounds
    the due date from above only. *)
Theorem upcomingTasks_shows_overdue_task :
  let db := mkdb [mkproject 1 "Alpha" "" (mkdate 2024 1 1) (mkdate 2024 1 31)
                    "In Progress" 0]
                 []
                 [mktask 1 1 "fix login" "" "Not Started" "High"
                    (mkdate 2024 1 1) (mkdate 2024 1 3) None 0] in
  let today := to_datetime (mkdate 2024 1 10) + 9 * 3600 * 1000000 in
  to_datetime (mkdate 2024 1 3) < today
  /\ dashboard_due_soon today db
     = DueSoon [mkdisplay_task "fix login" "Alpha" "Not Started" "High"
                  (to_datetime (mkdate 2024 1 3))].
Proof.
  split; vm_compute; reflexivity.
Qed.

(** ** Keys and references under INSERT and UPDATE *)

Section KeyedRows.

Context {A : Type}.
Variable key : A -> Z.

Lemma insert_keeps_key (l : list A) (a : A) :
  key a = next_rowid (map key l) ->
  NoDup (map key l) -> NoDup (map key (l ++ [a])).
Proof.
  intros E N. rewrite map_app. simpl.
  apply NoDup_app; [exact N | repeat constructor; simpl; tauto | ].
  intros x Hx [<- | []]. rewrite E in Hx.
  exact (next_rowid_fresh _ Hx).
Qed.

Lemma update_keeps_ids (f : A -> A) (id : Z) (l : list A) :
  (forall a, key (f a) = key a) ->
  map key (map (fun a => if key a =? id then f a else a) l) = map key l.
Proof.
  intros H. rewrite map_map. apply map_ext.
  intros a. destruct (key a =? id); [apply H | reflexivity].
Qed.

Lemma update_keeps_Forall (P : A -> Prop) (f : A -> A) (id : Z) (l : list A) :
  (forall a, P (f a)) ->
  Forall P l -> Forall P (map (fun a => if key a =? id then f a else a) l).
Proof.
  intros H F. induction F as [ | a l Ha _ IH]; simpl; constructor; [ | exact IH].
  destruct (key a =? id); [apply H | exact Ha].
Qed.

Lemma find_In (id : Z) (l : list A) :
  In id (map key l) ->
  exists a, find (fun a => key a =? id) l = Some a /\ In a l /\ key a = id.
Proof.
  induction l as [ | b l IH]; simpl; [tauto | ].
  intros H. destruct (Z.eqb_spec (key b) id) as [E | N].
  - exists b. tauto.
  - destruct H as [E | H]; [contradiction | ].
    destruct (IH H) as (a & Ha & Hin & Hk). exists a. tauto.
Qed.

Lemma find_unique (l : list A) (a : A) :
  NoDup (map key l) -> In a l ->
  find (fun b => key b =? key a) l = Some a.
Proof.
  induction l as [ | b l IH]; simpl; intros N H; [destruct H | ].
  inversion N as [ | ? ? Hnotin N']; subst.
  destruct (Z.eqb_spec (key b) (key a)) as [E | Hne].
  - destruct H as [-> | H]; [reflexivity | ].
    exfalso. apply Hnotin. rewrite E. apply in_map. exact H.
  - destruct H as [-> | H]; [contradiction | apply IH; assumption].
Qed.

End KeyedRows.

Lemma slider_value_inject_Z (z : Z) : 0 <= z <= 100 -> slider_value (inject_Z z).
Proof. intros H. exists z. split; [exact H | reflexivity]. Qed.

Lemma project_status_str_option (status : project_status) :
  In (project_status_str status) project_status_options.
Proof. destruct status; simpl; tauto. Qed.

Lemma task_status_str_option (status : task_status) :
  In (task_status_str status) task_status_options.
Proof. destruct status; simpl; tauto. Qed.

Lemma task_priority_str_option (priority : task_priority) :
  In (task_priority_str priority) task_priority_options.
Proof. destruct priority; simpl; tauto. Qed.

(** A task row stays in order when project and member ids are only added. *)
Lemma task_ok_mono (db db' : database) (t : task) :
  incl (map p_id (projects db)) (map p_id (projects db')) ->
  incl (map m_id (team_members db)) (map m_id (team_members db')) ->
  task_ok db t -> task_ok db' t.
Proof.
  intros Hp Hm (H1 & H2 & H3 & H4 & H5 & H6 & H7 & H8).
  repeat split; try assumption.
  - apply Hp. exact H7.
  - intros a Ha. apply Hm. apply H8. exact Ha.
Qed.

Lemma save_project_db_ok (project_data_id : option Z) (name description : string)
    (start_date end_date : date) (status : project_status) (progress : Z)
    (db : database) :
  db_ok db ->
  valid start_date = true -> valid end_date = true -> 0 <= progress <= 100 ->
  let db' := fst (save_project project_data_id name description start_date
                    end_date status progress db) in
  db_ok db'
  /\ incl (map p_id (projects db)) (map p_id (projects db'))
  /\ team_members db' = team_members db
  /\ tasks db' = tasks db.
Proof.
  intros (NP & NM & NT & FP & FM & FT) Hs He Hpr.
  unfold save_project.
  destruct (truthy name) eqn:Hname; cbn [fst].
  2: { repeat split; try assumption. apply incl_refl. }
  assert (Hrow : forall id,
             project_ok (mkproject id name description start_date end_date
                           (project_status_str status) (inject_Z progress))).
  { intros id. repeat split; cbn; try assumption.
    - apply project_status_str_option.
    - apply slider_value_inject_Z. exact Hpr. }
  destruct project_data_id as [id | ]; cbn [projects team_members tasks].
  - assert (Eids : map p_id (update_project name description start_date end_date
                               (project_status_str status) progress id (projects db))
                   = map p_id (projects db)).
    { apply (update_keeps_ids p_id). reflexivity. }
    split; [ | split; [rewrite Eids; apply incl_refl | split; reflexivity]].
    unfold db_ok; cbn [projects team_members tasks].
    rewrite Eids.
    repeat split; try assumption.
    + apply (update_keeps_Forall p_id); [intros a; apply Hrow | exact FP].
    + eapply Forall_impl; [ | exact FT].
      intros t. apply task_ok_mono; cbn [projects team_members];
        [rewrite Eids | ]; apply incl_refl.
  - assert (Hincl : incl (map p_id (projects db))
                      (map p_id (insert_project name description start_date
                                   end_date (project_status_str status) progress
                                   (projects db)))).
    { unfold insert_project. rewrite map_app. apply incl_appl, incl_refl. }
    split; [ | split; [exact Hincl | split; reflexivity]].
    unfold db_ok; cbn [projects team_members tasks].
    repeat split; try assumption.
    + apply (insert_keeps_key p_id); [reflexivity | exact NP].
    + unfold insert_project. apply Forall_app. split; [exact FP | ].
      constructor; [apply Hrow | constructor].
    + eapply Forall_impl; [ | exact FT].
      intros t. apply task_ok_mono; cbn [projects team_members];
        [exact Hincl | apply incl_refl].
Qed.

Lemma save_team_member_db_ok (member_data_id : option Z) (name role email : string)
    (db : database) :
  db_ok db ->
  let db' := fst (save_team_member member_data_id name role email db) in
  db_ok db'
  /\ incl (map m_id (team_members db)) (map m_id (team_members db'))
  /\ projects db' = projects db
  /\ tasks db' = tasks db.
Proof.
  intros (NP & NM & NT & FP & FM & FT).
  unfold save_team_member.
  destruct (truthy name && truthy role) eqn:Hreq; cbn [fst].
  2: { repeat split; try assumption. apply incl_refl. }
  apply andb_true_iff in Hreq.
  assert (Hrow : forall id, member_ok (mkmember id name role email)).
  { intros id. exact Hreq. }
  destruct member_data_id as [id | ]; cbn [projects team_members tasks].
  - assert (Eids : map m_id (update_team_member name role email id (team_members db))
                   = map m_id (team_members db)).
    { apply (update_keeps_ids m_id). reflexivity. }
    split; [ | split; [rewrite Eids; apply incl_refl | split; reflexivity]].
    unfold db_ok; cbn [projects team_members tasks].
    rewrite Eids.
    repeat split; try assumption.
    + apply (update_keeps_Forall m_id); [intros a; apply Hrow | exact FM].
    + eapply Forall_impl; [ | exact FT].
      intros t. apply task_ok_mono; cbn [projects team_members];
        [ | rewrite Eids]; apply incl_refl.
  - assert (Hincl : incl (map m_id (team_members db))
                      (map m_id (insert_team_member name role email (team_members db)))).
    { unfold insert_team_member. rewrite map_app. apply incl_appl, incl_refl. }
    split; [ | split; [exact Hincl | split; reflexivity]].
    unfold db_ok; cbn [projects team_members tasks].
    repeat split; try assumption.
    + apply (insert_keeps_key m_id); [reflexivity | exact NM].
    + unfold insert_team_member. apply Forall_app. split; [exact FM | ].
      constructor; [apply Hrow | constructor].
    + eapply Forall_impl; [ | exact FT].
      intros t. apply task_ok_mono; cbn [projects team_members];
        [apply incl_refl | exact Hincl].
Qed.

Lemma is_empty_false {A : Type} (l : list A) : is_empty l = false <-> l <> [].
Proof. destruct l; simpl; split; congruence. Qed.

(** The project a chosen name resolves to is a stored one. *)
Lemma chosen_project_id (project_idx : string) (ps : list project) :
  In project_idx (map p_name ps) ->
  exists i p,
    index project_idx (map p_name ps) = Ok i
    /\ nth_error ps i = Some p
    /\ p_name p = project_idx
    /\ getitem (map p_id ps) i = Ok (p_id p)
    /\ In (p_id p) (map p_id ps).
Proof.
  intros H. destruct (index_In _ _ H) as (i & Hi & Hn).
  rewrite nth_error_map in Hn.
  destruct (nth_error ps i) as [p | ] eqn:Ep; [ | discriminate].
  injection Hn as Hn.
  exists i, p. repeat split; try assumption.
  - apply getitem_map. exact Ep.
  - apply in_map. eapply nth_error_In. exact Ep.
Qed.

(** The member a chosen option resolves to is NULL or a stored one. *)
Lemma chosen_assignee (assigned_idx : string) (ms : list team_member) :
  In assigned_idx ("Unassigned"%string :: map m_name ms) ->
  exists j a,
    index assigned_idx ("Unassigned"%string :: map m_name ms) = Ok j
    /\ getitem (None :: map (fun m => Some (m_id m)) ms) j = Ok a
    /\ (forall id, a = Some id -> In id (map m_id ms)).
Proof.
  intros H. destruct (index_In _ _ H) as (j & Hj & Hn).
  destruct j as [ | j].
  - exists 0%nat, None. repeat split; [exact Hj | discriminate].
  - simpl in Hn. rewrite nth_error_map in Hn.
    destruct (nth_error ms j) as [m | ] eqn:Em; [ | discriminate].
    exists (S j), (Some (m_id m)). split; [exact Hj | ]. split.
    + unfold getitem. simpl. rewrite nth_error_map, Em. reflexivity.
    + intros id [= <-]. apply in_map. eapply nth_error_In. exact Em.
Qed.

Lemma save_task_db_ok (task_data_id : option Z)
    (name project_idx description : string) (start_date due_date : date)
    (status : task_status) (priority : task_priority) (assigned_idx : string)
    (progress : Z) (db : database) :
  db_ok db ->
  valid start_date = true -> valid due_date = true -> 0 <= progress <= 100 ->
  (projects db <> [] -> In project_idx (map p_name (projects db))) ->
  (team_members db <> [] ->
   In assigned_idx ("Unassigned"%string :: map m_name (team_members db))) ->
  exists db' msg,
    save_task task_data_id name project_idx description start_date due_date
      status priority assigned_idx progress db = Ok (db', msg)
    /\ db_ok db'
    /\ projects db' = projects db
    /\ team_members db' = team_members db
    /\ incl (map t_id (tasks db)) (map t_id (tasks db')).
Proof.
  intros Hok Hs Hd Hpr Hproj Hteam.
  pose proof Hok as (NP & NM & NT & FP & FM & FT).
  unfold save_task.
  destruct (truthy name && negb (is_empty (projects db))) eqn:Hreq.
  2: { destruct (is_empty (projects db)); eexists; eexists;
       (split; [reflexivity | ]); repeat split; try assumption; apply incl_refl. }
  apply andb_true_iff in Hreq. destruct Hreq as [Hname Hne].
  apply negb_true_iff, is_empty_false in Hne.
  destruct (chosen_project_id _ _ (Hproj Hne)) as (i & p & Hi & _ & _ & Hget & Hpin).
  rewrite Hi. cbn [bind]. rewrite Hget. cbn [bind].
  assert (Hassigned :
            exists a,
              (if String.eqb assigned_idx "Unassigned" || is_empty (team_members db)
               then Ok None
               else j <- index assigned_idx
                           ("Unassigned"%string :: map m_name (team_members db)) ;;
                    getitem (None :: map (fun m => Some (m_id m)) (team_members db)) j)
              = Ok a
              /\ forall id, a = Some id -> In id (map m_id (team_members db))).
  { destruct (String.eqb assigned_idx "Unassigned") eqn:Eu; cbn [orb].
    - exists None. split; [reflexivity | discriminate].
    - destruct (is_empty (team_members db)) eqn:Ee.
      + exists None. split; [reflexivity | discriminate].
      + apply is_empty_false in Ee.
        destruct (chosen_assignee _ _ (Hteam Ee)) as (j & a & Hj & Ha & Hin).
        exists a. rewrite Hj. cbn [bind]. split; assumption. }
  destruct Hassigned as (a & -> & Ha). cbn [bind].
  eexists. eexists. split; [reflexivity | ].
  assert (Hrow : forall id db',
             projects db' = projects db -> team_members db' = team_members db ->
             task_ok db'
               (mktask id (p_id p) name description (task_status_str status)
                  (task_priority_str priority) start_date due_date a
                  (inject_Z progress))).
  { intros id db' Ep Em. unfold task_ok. cbn. rewrite Ep, Em.
    repeat split; try assumption.
    - apply task_status_str_option.
    - apply task_priority_str_option.
    - apply slider_value_inject_Z. exact Hpr. }
  assert (Hold : forall db' t,
             projects db' = projects db -> team_members db' = team_members db ->
             task_ok db t -> task_ok db' t).
  { intros db' t Ep Em. apply task_ok_mono; rewrite ?Ep, ?Em; apply incl_refl. }
  destruct task_data_id as [id | ].
  - assert (Eids : map t_id (update_task (p_id p) name description
                               (task_status_str status) (task_priority_str priority)
                               start_date due_date a progress id (tasks db))
                   = map t_id (tasks db)).
    { apply (update_keeps_ids t_id). reflexivity. }
    split; [ | split; [reflexivity | split; [reflexivity | ]]].
    2: { cbn [tasks]. rewrite Eids. apply incl_refl. }
    unfold db_ok; cbn [projects team_members tasks]. rewrite Eids.
    repeat split; try assumption.
    apply (update_keeps_Forall t_id).
    + intros t. apply Hrow; reflexivity.
    + eapply Forall_impl; [ | exact FT]. intros t. apply Hold; reflexivity.
  - split; [ | split; [reflexivity | split; [reflexivity | ]]].
    2: { cbn [tasks]. unfold insert_task. rewrite map_app. apply incl_appl, incl_refl. }
    unfold db_ok; cbn [projects team_members tasks].
    repeat split; try assumption.
    + apply (insert_keeps_key t_id); [reflexivity | exact NT].
    + unfold insert_task. apply Forall_app. split.
      * eapply Forall_impl; [ | exact FT]. intros t. apply Hold; reflexivity.
      * constructor; [apply Hrow; reflexivity | constructor].
Qed.

(** ** The defaults of the forms *)

Lemma index_of_key {A : Type} (key : A -> Z) (id : Z) (l : list A) :
  In id (map key l) ->
  exists i a,
    index_of Z.eqb id (map key l) = Ok i
    /\ nth_error l i = Some a
    /\ key a = id
    /\ find (fun b => key b =? id) l = Some a.
Proof.
  induction l as [ | b l IH]; simpl; [tauto | ].
  intros H. destruct (Z.eqb_spec (key b) id) as [E | N].
  - exists 0%nat, b. repeat split; try reflexivity; exact E.
  - destruct H as [E | H]; [contradiction | ].
    destruct (IH H) as (i & a & Hi & Hn & Hk & Hf).
    exists (S i), a. rewrite Hi. repeat split; assumption.
Qed.

Lemma existsb_ids (id : Z) (ids : list Z) :
  existsb (Z.eqb id) ids = true <-> In id ids.
Proof.
  rewrite existsb_exists. split.
  - intros (x & Hx & E). apply Z.eqb_eq in E. subst. exact Hx.
  - intros H. exists id. split; [exact H | apply Z.eqb_refl].
Qed.

Lemma index_of_member (a : Z) (ms : list team_member) :
  In a (map m_id ms) ->
  exists j m,
    index_of option_Z_eqb (Some a) (None :: map (fun m => Some (m_id m)) ms)
    = Ok (S j)
    /\ nth_error ms j = Some m
    /\ m_id m = a
    /\ find (fun b => m_id b =? a) ms = Some m.
Proof.
  intros H. cbn [index_of option_Z_eqb].
  assert (G : exists j m,
             index_of option_Z_eqb (Some a) (map (fun m => Some (m_id m)) ms) = Ok j
             /\ nth_error ms j = Some m /\ m_id m = a
             /\ find (fun b => m_id b =? a) ms = Some m).
  { induction ms as [ | b l IH]; simpl in *; [tauto | ].
    destruct (Z.eqb_spec (m_id b) a) as [E | N].
    - exists 0%nat, b. repeat split; try reflexivity; exact E.
    - destruct H as [E | H]; [contradiction | ].
      destruct (IH H) as (j & m & Hj & Hn & Hk & Hf).
      exists (S j), m. rewrite Hj. repeat split; assumption. }
  destruct G as (j & m & Hj & Hn & Hk & Hf).
  exists j, m. rewrite Hj. repeat split; assumption.
Qed.

Lemma index_option (x : string) (l : list string) :
  In x l -> exists i, index x l = Ok i.
Proof.
  intros H. destruct (index_In _ _ H) as (i & Hi & _). exists i. exact Hi.
Qed.

Lemma parse_date_isoformat (d : date) :
  valid d = true -> parse_date (isoformat d) = Ok d.
Proof.
  intros V. unfold parse_date. rewrite (fromisoformat_isoformat _ V). reflexivity.
Qed.

(** The edit form of a stored project opens on the stored values. *)
Lemma project_form_defaults_stored (p : project) :
  project_ok p ->
  exists i z,
    project_form_defaults (project_dict p)
    = Ok (mkproject_form (p_name p) (p_description p) (p_start_date p)
            (p_end_date p) i z)
    /\ nth_error project_status_options i = Some (p_status p)
    /\ p_progress p = inject_Z z
    /\ 0 <= z <= 100.
Proof.
  intros (_ & Hs & He & Hst & z & Hz & Hp).
  destruct (index_In _ _ Hst) as (i & Hi & Hn).
  exists i, z. split; [ | repeat split; try assumption; lia].
  unfold project_form_defaults, project_dict.
  cbn [pd_name pd_description pd_start_date pd_end_date pd_status pd_progress].
  rewrite (parse_date_isoformat _ Hs), (parse_date_isoformat _ He). cbn [bind].
  rewrite Hi. cbn [bind].
  rewrite Hp, int_of_float_inject_Z. reflexivity.
Qed.

Lemma project_form_defaults_new (today today30 : date) :
  valid today = true -> valid today30 = true ->
  project_form_defaults
    (mkproject_data None "" "" (isoformat today) (isoformat today30) "Planning" 0)
  = Ok (mkproject_form "" "" today today30 0%nat 0).
Proof.
  intros H1 H2. unfold project_form_defaults.
  cbn [pd_name pd_description pd_start_date pd_end_date pd_status pd_progress].
  rewrite (parse_date_isoformat _ H1), (parse_date_isoformat _ H2).
  reflexivity.
Qed.

(** The edit form of a stored task opens on the stored values, the two
    select boxes on the names of the task's project and assignee. *)
Lemma task_form_defaults_stored (db : database) (t : task) :
  task_ok db t ->
  exists p i j z,
    task_form_defaults (task_dict t) db
    = Ok (mktask_form (t_name t) (Some (p_name p)) (t_description t)
            (t_start_date t) (t_due_date t) i j (assignee_option db t) z)
    /\ fetchone_project (t_project_id t) (projects db) = Some p
    /\ nth_error task_status_options i = Some (t_status t)
    /\ nth_error task_priority_options j = Some (t_priority t)
    /\ t_progress t = inject_Z z
    /\ 0 <= z <= 100.
Proof.
  intros (_ & Hs & Hd & Hst & Hprio & (z & Hz & Hp) & Hproj & Hass).
  destruct (index_of_key p_id _ _ Hproj) as (ip & p & Hip & Hnp & Hkp & Hfp).
  destruct (index_In _ _ Hst) as (i & Hi & Hni).
  destruct (index_In _ _ Hprio) as (j & Hj & Hnj).
  exists p, i, j, z.
  split; [ | repeat split; try assumption; lia].
  unfold task_form_defaults, task_dict.
  cbn [td_project_id td_name td_description td_status td_priority td_start_date
       td_due_date td_assigned_to td_progress].
  assert (Hne : is_empty (projects db) = false).
  { destruct (projects db); [destruct Hproj | reflexivity]. }
  rewrite Hne.
  rewrite (proj2 (existsb_ids _ _) Hproj), Hip. cbn [bind].
  rewrite (getitem_map p_name _ _ _ Hnp). cbn [bind].
  rewrite (parse_date_isoformat _ Hs), (parse_date_isoformat _ Hd). cbn [bind].
  rewrite Hi, Hj. cbn [bind].
  rewrite Hp, int_of_float_inject_Z.
  unfold assignee_option.
  destruct (is_empty (team_members db)) eqn:Ee; [reflexivity | ].
  destruct (t_assigned_to t) as [a | ] eqn:Ea.
  - destruct (index_of_member a (team_members db) (Hass a eq_refl))
      as (jm & m & Hjm & Hnm & Hkm & Hfm).
    rewrite Hjm. unfold fetchone_team_member. rewrite Hfm.
    unfold getitem. cbn [nth_error]. rewrite nth_error_map, Hnm.
    reflexivity.
  - reflexivity.
Qed.

Lemma task_form_defaults_new (today today7 : date) (db : database) :
  valid today = true -> valid today7 = true ->
  exists f,
    task_form_defaults
      (mktask_data None None "" "" "Not Started" "Medium" (isoformat today)
         (isoformat today7) None 0) db
    = Ok f.
Proof.
  intros H1 H2. unfold task_form_defaults.
  cbn [td_project_id td_name td_description td_status td_priority td_start_date
       td_due_date td_assigned_to td_progress].
  rewrite (parse_date_isoformat _ H1), (parse_date_isoformat _ H2).
  destruct (projects db) as [ | p ps]; destruct (team_members db) as [ | m ms];
    eexists; reflexivity.
Qed.

(** ** Runs of the script *)

Lemma sidebar_navigation_nav (option : page_name) (s : session_state) :
  sidebar_navigation (Some (NavButton option)) s
  = mksession option
      (if page_name_eqb option Projects then edit_project s else None)
      (if page_name_eqb option Tasks then edit_task s else None)
      (if page_name_eqb option Team then edit_team_member s else None).
Proof. destruct option; reflexivity. Qed.

Lemma edit_ok_None (ids : list Z) : edit_ok ids None.
Proof. intros id H. discriminate H. Qed.

Lemma edit_ok_New (ids : list Z) : edit_ok ids (Some New).
Proof. intros id H. discriminate H. Qed.

Lemma edit_ok_Edit (ids : list Z) (id : Z) : In id ids -> edit_ok ids (Some (Edit id)).
Proof. intros H id' [= <-]. exact H. Qed.

Lemma edit_ok_incl (ids ids' : list Z) (e : option edit_state) :
  incl ids ids' -> edit_ok ids e -> edit_ok ids' e.
Proof. intros Hi H id E. apply Hi, H, E. Qed.

Create HintDb session.
#[local] Hint Resolve edit_ok_None edit_ok_New edit_ok_Edit : session.

Lemma sidebar_navigation_session_ok (clicked : option sidebar_button)
    (s : session_state) (db : database) :
  session_ok s db -> session_ok (sidebar_navigation clicked s) db.
Proof.
  intros (HP & HT & HM).
  destruct clicked as [[o | | ] | ].
  - rewrite sidebar_navigation_nav.
    destruct o; repeat split; cbn; auto with session.
  - repeat split; cbn; auto with session.
  - repeat split; cbn; auto with session.
  - repeat split; assumption.
Qed.

Lemma session_ok_incl (s : session_state) (db db' : database) :
  incl (map p_id (projects db)) (map p_id (projects db')) ->
  incl (map t_id (tasks db)) (map t_id (tasks db')) ->
  incl (map m_id (team_members db)) (map m_id (team_members db')) ->
  session_ok s db -> session_ok s db'.
Proof.
  intros Hp Ht Hm (HP & HT & HM).
  repeat split; eapply edit_ok_incl; eassumption.
Qed.

Ltac stay := eexists; eexists; split; [reflexivity | split; assumption].

Lemma projects_page_consistent (c : click) (k : clock) (s : session_state)
    (db : database) :
  consistent s db -> click_ok c db -> clock_ok k ->
  exists s' db', projects_page c k s db = Ok (s', db') /\ consistent s' db'.
Proof.
  intros [Hdb Hs] Hc (Hk1 & Hk7 & Hk30).
  pose proof Hs as (HP & HT & HM).
  unfold projects_page.
  destruct (edit_project s) as [e | ] eqn:Ee.
  - assert (L : exists pd f,
               load_project_data e (today k) (today30 k) db = Ok pd
               /\ project_form_defaults pd = Ok f).
    { destruct e as [ | id].
      - eexists. eexists. split; [reflexivity | ].
        apply project_form_defaults_new; assumption.
      - destruct (find_In p_id id (projects db) (HP id eq_refl)) as (row & Hf & Hin & _).
        unfold load_project_data, fetchone_project. rewrite Hf.
        destruct Hdb as (_ & _ & _ & FP & _).
        rewrite Forall_forall in FP.
        destruct (project_form_defaults_stored row (FP row Hin)) as (i & z & Hd & _).
        eexists. eexists. split; [reflexivity | exact Hd]. }
    destruct L as (pd & f & L1 & L2).
    rewrite L1. cbn [bind]. rewrite L2. cbn [bind].
    destruct c; try stay.
    + destruct Hc as (V1 & V2 & Vp).
      destruct (save_project_db_ok (pd_id pd) (ps_name f0) (ps_description f0)
                  (ps_start_date f0) (ps_end_date f0) (ps_status f0)
                  (ps_progress f0) db Hdb V1 V2 Vp) as (Hdb' & Hincl & Em & Et).
      destruct (is_st_error _); [stay | ].
      eexists. eexists. split; [reflexivity | ].
      split; [exact Hdb' | ].
      repeat split; cbn; auto with session.
      * rewrite Et. exact HT.
      * rewrite Em. exact HM.
    + eexists. eexists. split; [reflexivity | ].
      split; [exact Hdb | ]. repeat split; cbn; auto with session.
  - destruct c; try stay.
    + eexists. eexists. split; [reflexivity | ].
      split; [exact Hdb | ]. repeat split; cbn; auto with session.
    + destruct (existsb (fun p => p_id p =? id) (projects db)) eqn:Ex; [ | stay].
      apply existsb_exists in Ex. destruct Ex as (p & Hp & E).
      apply Z.eqb_eq in E.
      eexists. eexists. split; [reflexivity | ].
      split; [exact Hdb | ]. repeat split; cbn; auto with session.
      apply edit_ok_Edit. rewrite <- E. apply in_map. exact Hp.
Qed.

Lemma tasks_joined_task (db : database) (r : task_row) :
  In r (tasks_joined db) -> In (r_task r) (tasks db).
Proof.
  unfold tasks_joined. intros H.
  apply in_map_iff in H. destruct H as ([[t op] om] & <- & H).
  cbn [r_task fst].
  apply left_join_fst in H. apply left_join_fst in H. exact H.
Qed.

Lemma tasks_page_consistent (c : click) (k : clock) (w : widgets)
    (s : session_state) (db : database) :
  consistent s db -> click_ok c db -> clock_ok k ->
  exists s' db', tasks_page c k w s db = Ok (s', db') /\ consistent s' db'.
Proof.
  intros [Hdb Hs] Hc (Hk1 & Hk7 & Hk30).
  pose proof Hs as (HP & HT & HM).
  unfold tasks_page.
  destruct (edit_task s) as [e | ] eqn:Ee.
  - assert (L : exists td f,
               load_task_data e (today k) (today7 k) db = Ok td
               /\ task_form_defaults td db = Ok f).
    { destruct e as [ | id].
      - destruct (task_form_defaults_new (today k) (today7 k) db Hk1 Hk7) as [f Hf].
        eexists. eexists. split; [reflexivity | exact Hf].
      - destruct (find_In t_id id (tasks db) (HT id eq_refl)) as (row & Hf & Hin & _).
        unfold load_task_data, fetchone_task. rewrite Hf.
        destruct Hdb as (_ & _ & _ & _ & _ & FT).
        rewrite Forall_forall in FT.
        destruct (task_form_defaults_stored db row (FT row Hin))
          as (p & i & j & z & Hd & _).
        eexists. eexists. split; [reflexivity | exact Hd]. }
    destruct L as (td & f & L1 & L2).
    rewrite L1. cbn [bind]. rewrite L2. cbn [bind].
    destruct c; try stay.
    + destruct Hc as (V1 & V2 & Vp & Vproj & Vteam).
      destruct (save_task_db_ok (td_id td) (ts_name f0) (ts_project_idx f0)
                  (ts_description f0) (ts_start_date f0) (ts_due_date f0)
                  (ts_status f0) (ts_priority f0) (ts_assigned_idx f0)
                  (ts_progress f0) db Hdb V1 V2 Vp Vproj Vteam)
        as (db' & msg & -> & Hdb' & Ep & Em & Hincl).
      cbn [bind snd fst].
      destruct (is_st_error msg); [stay | ].
      eexists. eexists. split; [reflexivity | ].
      split; [exact Hdb' | ].
      repeat split; cbn; auto with session.
      * rewrite Ep. exact HP.
      * rewrite Em. exact HM.
    + eexists. eexists. split; [reflexivity | ].
      split; [exact Hdb | ]. repeat split; cbn; auto with session.
  - destruct c; try stay.
    + eexists. eexists. split; [reflexivity | ].
      split; [exact Hdb | ]. repeat split; cbn; auto with session.
    + destruct (existsb _ _) eqn:Ex; [ | stay].
      apply existsb_exists in Ex. destruct Ex as (r & Hr & E).
      apply Z.eqb_eq in E.
      unfold tasks_query in Hr. apply filter_In in Hr. destruct Hr as [Hr _].
      apply tasks_joined_task in Hr.
      eexists. eexists. split; [reflexivity | ].
      split; [exact Hdb | ]. repeat split; cbn; auto with session.
      apply edit_ok_Edit. rewrite <- E. apply in_map. exact Hr.
Qed.

Lemma team_page_consistent (c : click) (s : session_state) (db : database) :
  consistent s db ->
  exists s' db', team_page c s db = Ok (s', db') /\ consistent s' db'.
Proof.
  intros [Hdb Hs].
  pose proof Hs as (HP & HT & HM).
  unfold team_page.
  destruct (edit_team_member s) as [e | ] eqn:Ee.
  - assert (L : exists md, load_member_data e db = Ok md).
    { destruct e as [ | id]; [eexists; reflexivity | ].
      destruct (find_In m_id id (team_members db) (HM id eq_refl)) as (row & Hf & _).
      unfold load_member_data, fetchone_team_member. rewrite Hf.
      eexists. reflexivity. }
    destruct L as (md & ->). cbn [bind].
    destruct c; try stay.
    + destruct (save_team_member_db_ok (md_id md) (ms_name f) (ms_role f)
                  (ms_email f) db Hdb) as (Hdb' & Hincl & Ep & Et).
      destruct (is_st_error _); [stay | ].
      eexists. eexists. split; [reflexivity | ].
      split; [exact Hdb' | ].
      repeat split; cbn; auto with session.
      * rewrite Ep. exact HP.
      * rewrite Et. exact HT.
    + eexists. eexists. split; [reflexivity | ].
      split; [exact Hdb | ]. repeat split; cbn; auto with session.
  - destruct c; try stay.
    + eexists. eexists. split; [reflexivity | ].
      split; [exact Hdb | ]. repeat split; cbn; auto with session.
    + destruct (existsb (fun m => m_id m =? id) (team_members db)) eqn:Ex; [ | stay].
      apply existsb_exists in Ex. destruct Ex as (m & Hm & E).
      apply Z.eqb_eq in E.
      eexists. eexists. split; [reflexivity | ].
      split; [exact Hdb | ]. repeat split; cbn; auto with session.
      apply edit_ok_Edit. rewrite <- E. apply in_map. exact Hm.
Qed.

Lemma select_project_id_In (selected_project : string) (ps : list project) :
  In selected_project (map p_name ps) ->
  exists project_id, select_project_id selected_project ps = Ok project_id.
Proof.
  intros H. apply in_map_iff in H. destruct H as (p & Hn & Hp).
  assert (Hf : In p (filter (fun p => String.eqb (p_name p) selected_project) ps)).
  { apply filter_In. split; [exact Hp | apply String.eqb_eq; exact Hn]. }
  unfold select_project_id, getitem.
  destruct (filter (fun p => String.eqb (p_name p) selected_project) ps) as [ | q l];
    [destruct Hf | ].
  eexists. reflexivity.
Qed.

(** The "Timeline" tab shows something for every option of its select
    box. *)
Lemma reports_timeline_total (now : Z) (selected_project : string) (db : database) :
  (projects db <> [] -> In selected_project (map p_name (projects db))) ->
  exists view, reports_timeline now selected_project db = Ok view.
Proof.
  intros H.
  destruct (projects db) as [ | p ps] eqn:E.
  - exists NoProjectsFound. unfold reports_timeline. rewrite E. reflexivity.
  - rewrite <- E in *.
    assert (Hne : projects db <> []) by (rewrite E; discriminate).
    destruct (select_project_id_In _ _ (H Hne)) as [pid Hsel].
    destruct (reports_timeline_selected now _ db pid Hsel) as (pd & _ & _ & ->).
    cbv zeta.
    destruct (timeline_tasks pid db) as [ | x l] eqn:Et.
    + eexists. reflexivity.
    + cbn [is_empty].
      assert (Hn : map fst (x :: l) <> []) by discriminate.
      destruct (critical_path_spec _ Hn) as (i & ct & -> & _).
      destruct (completion_prediction_total now pd (map fst (x :: l))) as [est ->].
      eexists. reflexivity.
Qed.

Lemma main_consistent (c : click) (k : clock) (w : widgets) (s : session_state)
    (db : database) :
  consistent s db -> click_ok c db -> widgets_ok w db -> clock_ok k ->
  exists s' db', main c k w (Some s) db = Ok (s', db') /\ consistent s' db'.
Proof.
  intros [Hdb Hs] Hc Hw Hk.
  unfold main. cbn [init_session_state].
  set (s1 := sidebar_navigation _ s).
  assert (Hs1 : session_ok s1 db) by (apply sidebar_navigation_session_ok; exact Hs).
  destruct (page s1).
  - eexists. eexists. split; [reflexivity | split; assumption].
  - apply projects_page_consistent; [split | | ]; assumption.
  - apply tasks_page_consistent; [split | | ]; assumption.
  - apply team_page_consistent; split; assumption.
  - unfold reports_page.
    destruct (reports_timeline_total (now k) (w_reports_project w) db Hw) as [v ->].
    eexists. eexists. split; [reflexivity | split; assumption].
Qed.

Lemma initial_consistent : consistent (init_session_state None) (mkdb [] [] []).
Proof.
  split.
  - repeat split; constructor.
  - repeat split; apply edit_ok_None.
Qed.

Lemma reachable_consistent (s : session_state) (db : database) :
  reachable s db -> consistent s db.
Proof.
  induction 1 as [ | c k w s s' db db' _ IH Hc Hw Hk Hrun].
  - apply initial_consistent.
  - destruct (main_consistent c k w s db IH Hc Hw Hk) as (s2 & db2 & E & Hcons).
    rewrite E in Hrun. injection Hrun as <- <-. exact Hcons.
Qed.





(** X3. A click on a navigation button of the sidebar sets the page and
    clears the edit keys of the other pages, so that a form left open
    elsewhere is dropped, while the edit key of the page gone to is kept.
    The quick actions "New Project" and "New Task" open the empty form of
    their page and leave the other edit keys as they are; without a
    sidebar click nothing changes. *)
Theorem sidebar_navigation_edit_keys :
  forall (s : session_state),
    (forall option,
       let s' := sidebar_navigation (Some (NavButton option)) s in
       page s' = option
       /\ edit_project s'
          = (if page_name_eqb option Projects then edit_project s else None)
       /\ edit_task s'
          = (if page_name_eqb option Tasks then edit_task s else None)
       /\ edit_team_member s'
          = (if page_name_eqb option Team then edit_team_member s else None))
    /\ sidebar_navigation (Some NewProjectButton) s
       = mksession Projects (Some New) (edit_task s) (edit_team_member s)
    /\ sidebar_navigation (Some NewTaskButton) s
       = mksession Tasks (edit_project s) (Some New) (edit_team_member s)
    /\ sidebar_navigation None s = s.
Proof.
  intros s. split.
  - intros option s'. unfold s'. destruct option; repeat split.
  - repeat split.
Qed.

(** ** Saving rows *)

Lemma index_find {A : Type} (nm : A -> string) (x : string) (l : list A) (a : A) :
  find (fun b => String.eqb (nm b) x) l = Some a ->
  exists i, index x (map nm l) = Ok i /\ nth_error l i = Some a.
Proof.
  induction l as [ | b l IH]; simpl; [discriminate | ].
  destruct (String.eqb (nm b) x).
  - intros [= <-]. exists 0%nat. split; reflexivity.
  - intros H. destruct (IH H) as (i & Hi & Hn).
    exists (S i). rewrite Hi. split; [reflexivity | exact Hn].
Qed.

Lemma find_name_In {A : Type} (nm : A -> string) (x : string) (l : list A) :
  In x (map nm l) -> exists a, find (fun b => String.eqb (nm b) x) l = Some a.
Proof.
  induction l as [ | b l IH]; simpl; [tauto | ].
  intros H. destruct (String.eqb_spec (nm b) x) as [E | N].
  - exists b. reflexivity.
  - destruct H as [E | H]; [contradiction | apply IH; exact H].
Qed.

(** The member id the form stores for an option of the "Assigned To" box. *)
Lemma assigned_to_of_option (assigned_idx : string) (db : database) :
  (team_members db <> [] ->
   In assigned_idx ("Unassigned"%string :: map m_name (team_members db))) ->
  (if String.eqb assigned_idx "Unassigned" || is_empty (team_members db)
   then Ok None
   else j <- index assigned_idx
               ("Unassigned"%string :: map m_name (team_members db)) ;;
        getitem (None :: map (fun m => Some (m_id m)) (team_members db)) j)
  = Ok (if String.eqb assigned_idx "Unassigned" || is_empty (team_members db)
        then None
        else option_map m_id
               (find (fun m => String.eqb (m_name m) assigned_idx)
                     (team_members db))).
Proof.
  intros H.
  destruct (String.eqb_spec assigned_idx "Unassigned") as [E | N]; cbn [orb];
    [reflexivity | ].
  destruct (is_empty (team_members db)) eqn:Ee; [reflexivity | ].
  apply is_empty_false in Ee.
  destruct (H Ee) as [E | Hin]; [congruence | ].
  destruct (find_name_In m_name _ _ Hin) as [m Hm].
  destruct (index_find m_name _ _ _ Hm) as (i & Hi & Hn).
  rewrite Hm. cbn [index option_map].
  destruct (String.eqb_spec "Unassigned" assigned_idx) as [E | _]; [congruence | ].
  rewrite Hi. cbn [bind]. unfold getitem. cbn [nth_error].
  rewrite nth_error_map, Hn. reflexivity.
Qed.

(** X4. The member form saves only when both name and role are non-empty;
    otherwise it shows "Name and role are required." and the database is
    left as it was (the email may be empty).  A new member is appended
    under a rowid no stored member has and is read back with the name,
    role and email given; projects and tasks are not touched. *)
Theorem save_team_member_requires_name_and_role :
  forall (db : database) (member_data_id : option Z) (name role email : string),
    (truthy name && truthy role = false ->
     save_team_member member_data_id name role email db
     = (db, StError "Name and role are required."))
    /\
    (truthy name && truthy role = true ->
     let id := next_rowid (map m_id (team_members db)) in
     let r := save_team_member None name role email db in
     snd r = StSuccess "Team member saved successfully!"
     /\ team_members (fst r) = team_members db ++ [mkmember id name role email]
     /\ ~ In id (map m_id (team_members db))
     /\ load_member_data (Edit id) (fst r)
        = Ok (mkmember_data (Some id) name role email)
     /\ projects (fst r) = projects db
     /\ tasks (fst r) = tasks db).
Proof.
  intros db member_data_id name role email. split.
  - intros H. unfold save_team_member. rewrite H. reflexivity.
  - intros H id r. unfold r, save_team_member. rewrite H. cbn [fst snd].
    repeat split.
    + apply next_rowid_fresh.
    + unfold load_member_data, fetchone_team_member, insert_team_member.
      cbn [team_members].
      rewrite (find_app_absent m_id id _ (mkmember id name role email));
        [reflexivity | apply next_rowid_fresh | reflexivity].
Qed.

Lemma save_team_member_requires_name_and_role_witness :
  let db := mkdb [] [mkmember 1 "Ada" "dev" ""] [] in
  truthy "Grace" && truthy "" = false
  /\ truthy "Grace" && truthy "lead" = true
  /\ save_team_member None "Grace" "" "g@x.org" db
     = (db, StError "Name and role are required.")
  /\ team_members (fst (save_team_member None "Grace" "lead" "" db))
     = [mkmember 1 "Ada" "dev" ""; mkmember 2 "Grace" "lead" ""].
Proof.
  intros db.
  split; [reflexivity | ].
  split; [reflexivity | ].
  split.
  - exact (proj1 (save_team_member_requires_name_and_role db None "Grace" ""
                    "g@x.org") eq_refl).
  - exact (proj1 (proj2 (proj2 (save_team_member_requires_name_and_role db None
                                  "Grace" "lead" "") eq_refl))).
Defined.

(** X5. The task form saves nothing without a project to attach the task
    to or without a name: when there is no project the message is "You
    need to create a project before adding tasks.", whatever the name,
    and otherwise, for an empty name, "Task name is required."; in both
    cases the database is left as it was and nothing is raised. *)
Theorem save_task_requires_name_and_project :
  forall (db : database) (task_data_id : option Z)
         (name project_idx description : string) (start_date due_date : date)
         (status : task_status) (priority : task_priority) (assigned_idx : string)
         (progress : Z),
    (projects db = [] ->
     save_task task_data_id name project_idx description start_date due_date
       status priority assigned_idx progress db
     = Ok (db, StError "You need to create a project before adding tasks."))
    /\
    (projects db <> [] -> truthy name = false ->
     save_task task_data_id name project_idx description start_date due_date
       status priority assigned_idx progress db
     = Ok (db, StError "Task name is required.")).
Proof.
  intros. split.
  - intros E. unfold save_task. rewrite E. cbn [is_empty negb].
    rewrite andb_false_r. reflexivity.
  - intros Hne Hname. unfold save_task. rewrite Hname. cbn [andb].
    apply is_empty_false in Hne. rewrite Hne. reflexivity.
Qed.

Lemma save_task_requires_name_and_project_witness :
  let db0 := mkdb [] [] [] in
  let db1 := mkdb [mkproject 1 "Alpha" "" (mkdate 2024 1 1) (mkdate 2024 1 31)
                     "Planning" 0] [] [] in
  projects db0 = []
  /\ projects db1 <> []
  /\ truthy "" = false
  /\ save_task None "" "" "" (mkdate 2024 1 1) (mkdate 2024 1 8) TS_NotStarted
       Medium "" 0 db0
     = Ok (db0, StError "You need to create a project before adding tasks.")
  /\ save_task None "" "Alpha" "" (mkdate 2024 1 1) (mkdate 2024 1 8)
       TS_NotStarted Medium "Unassigned" 0 db1
     = Ok (db1, StError "Task name is required.").
Proof.
  intros db0 db1.
  assert (H0 : projects db0 = []) by reflexivity.
  assert (H1 : projects db1 <> []) by discriminate.
  split; [exact H0 | ]. split; [exact H1 | ]. split; [reflexivity | ].
  split.
  - exact (proj1 (save_task_requires_name_and_project db0 None "" "" ""
                    (mkdate 2024 1 1) (mkdate 2024 1 8) TS_NotStarted Medium "" 0)
                 H0).
  - exact (proj2 (save_task_requires_name_and_project db1 None "" "Alpha" ""
                    (mkdate 2024 1 1) (mkdate 2024 1 8) TS_NotStarted Medium
                    "Unassigned" 0) H1 eq_refl).
Defined.

(** X6. A task saved with a name is stored under a fresh id and read back
    with the values of the form.  Its project is the first stored project
    that bears the name picked in the "Project" box.  Its assignee is
    NULL when "Unassigned" is picked (or there is no member) and otherwise
    the first stored member that bears the name picked: a member who is
    called "Unassigned" can therefore not be assigned. *)
Theorem createTask_getTask_roundtrip :
  forall (db : database) (name project_idx description : string)
         (start_date due_date : date) (status : task_status)
         (priority : task_priority) (assigned_idx : string) (progress : Z)
         (p : project),
    truthy name = true ->
    find (fun q => String.eqb (p_name q) project_idx) (projects db) = Some p ->
    (team_members db <> [] ->
     In assigned_idx ("Unassigned"%string :: map m_name (team_members db))) ->
    let id := next_rowid (map t_id (tasks db)) in
    let assigned_to :=
      if String.eqb assigned_idx "Unassigned" || is_empty (team_members db)
      then None
      else option_map m_id
             (find (fun m => String.eqb (m_name m) assigned_idx) (team_members db)) in
    let row := mktask id (p_id p) name description (task_status_str status)
                 (task_priority_str priority) start_date due_date assigned_to
                 (inject_Z progress) in
    save_task None name project_idx description start_date due_date status
      priority assigned_idx progress db
    = Ok (mkdb (projects db) (team_members db) (tasks db ++ [row]),
          StSuccess "Task saved successfully!")
    /\ ~ In id (map t_id (tasks db))
    /\ fetchone_task id (tasks db ++ [row]) = Some row.
Proof.
  intros db name project_idx description start_date due_date status priority
         assigned_idx progress p Hname Hp Hteam id assigned_to row.
  split; [ | split; [apply next_rowid_fresh | ]].
  - unfold save_task. rewrite Hname.
    assert (Hne : is_empty (projects db) = false).
    { destruct (projects db); [discriminate Hp | reflexivity]. }
    rewrite Hne. cbn [negb andb].
    destruct (index_find p_name _ _ _ Hp) as (i & Hi & Hn).
    rewrite Hi. cbn [bind].
    rewrite (getitem_map p_id _ _ _ Hn). cbn [bind].
    rewrite (assigned_to_of_option _ _ Hteam). cbn [bind].
    reflexivity.
  - unfold fetchone_task.
    apply (find_app_absent t_id); [apply next_rowid_fresh | reflexivity].
Qed.

Lemma createTask_getTask_roundtrip_witness :
  let alpha := mkproject 1 "Alpha" "" (mkdate 2024 1 1) (mkdate 2024 1 31)
                 "Planning" 0 in
  let db := mkdb [alpha] [mkmember 1 "Unassigned" "dev" ""; mkmember 2 "Ada" "dev" ""]
              [] in
  truthy "design" = true
  /\ find (fun q => String.eqb (p_name q) "Alpha") (projects db) = Some alpha
  /\ (team_members db <> [] ->
      In "Unassigned"%string ("Unassigned"%string :: map m_name (team_members db)))
  /\ save_task None "design" "Alpha" "" (mkdate 2024 1 1) (mkdate 2024 1 8)
       TS_NotStarted High "Unassigned" 10 db
     = Ok (mkdb (projects db) (team_members db)
             [mktask 1 1 "design" "" "Not Started" "High" (mkdate 2024 1 1)
                (mkdate 2024 1 8) None (inject_Z 10)],
           StSuccess "Task saved successfully!").
Proof.
  intros alpha db.
  assert (H1 : truthy "design" = true) by reflexivity.
  assert (H2 : find (fun q => String.eqb (p_name q) "Alpha") (projects db)
               = Some alpha) by reflexivity.
  assert (H3 : team_members db <> [] ->
               In "Unassigned"%string
                  ("Unassigned"%string :: map m_name (team_members db)))
    by (intros _; left; reflexivity).
  split; [exact H1 | ]. split; [exact H2 | ]. split; [exact H3 | ].
  exact (proj1 (createTask_getTask_roundtrip db "design" "Alpha" ""
                  (mkdate 2024 1 1) (mkdate 2024 1 8) TS_NotStarted High
                  "Unassigned" 10 alpha H1 H2 H3)).
Defined.

(** ** Editing rows *)

Section UpdateRows.

Context {A : Type}.
Variable key : A -> Z.
Variable f : A -> A.
Hypothesis f_key : forall a, key (f a) = key a.

Lemma find_update_same (id : Z) (l : list A) :
  In id (map key l) ->
  exists a, In a l /\ key a = id
            /\ find (fun b => key b =? id)
                 (map (fun b => if key b =? id then f b else b) l)
               = Some (f a).
Proof.
  induction l as [ | b l IH]; simpl; [tauto | ].
  intros H. destruct (Z.eqb_spec (key b) id) as [E | N].
  - exists b. rewrite f_key. destruct (Z.eqb_spec (key b) id); [ | contradiction].
    tauto.
  - destruct (Z.eqb_spec (key b) id); [contradiction | ].
    destruct H as [E | H]; [contradiction | ].
    destruct (IH H) as (a & Ha & Hk & Hf). exists a. tauto.
Qed.

Lemma find_update_other (id id' : Z) (l : list A) :
  id' <> id ->
  find (fun b => key b =? id') (map (fun b => if key b =? id then f b else b) l)
  = find (fun b => key b =? id') l.
Proof.
  intros Hne. induction l as [ | b l IH]; simpl; [reflexivity | ].
  destruct (Z.eqb_spec (key b) id) as [E | N].
  - rewrite f_key.
    destruct (Z.eqb_spec (key b) id'); [congruence | exact IH].
  - destruct (key b =? id'); [reflexivity | exact IH].
Qed.

Lemma map_update_same_row (a : A) (l : list A) :
  NoDup (map key l) -> In a l ->
  f a = a ->
  map (fun b => if key b =? key a then f b else b) l = l.
Proof.
  intros N Ha Hf.
  induction l as [ | b l IH]; simpl; [reflexivity | ].
  inversion N as [ | ? ? Hnotin N']; subst.
  destruct (Z.eqb_spec (key b) (key a)) as [E | Hne].
  - destruct Ha as [-> | Ha].
    + rewrite Hf. f_equal. apply map_update_absent. exact Hnotin.
    + exfalso. apply Hnotin. rewrite E. apply in_map. exact Ha.
  - destruct Ha as [-> | Ha]; [contradiction | ].
    f_equal. apply IH; assumption.
Qed.

End UpdateRows.

(** X7. Saving the edit form of a stored project overwrites that row with
    all the values of the form under the same id, and is a full overwrite:
    the row read back holds nothing of the old one.  Every other project
    reads back as before, the id column is unchanged, and members and
    tasks are not touched. *)
Theorem updateProject_overwrites_one_row :
  forall (db : database) (id : Z) (name description : string)
         (start_date end_date : date) (status : project_status) (progress : Z),
    In id (map p_id (projects db)) ->
    truthy name = true ->
    let r := save_project (Some id) name description start_date end_date status
               progress db in
    snd r = StSuccess "Project saved successfully!"
    /\ fetchone_project id (projects (fst r))
       = Some (mkproject id name description start_date end_date
                 (project_status_str status) (inject_Z progress))
    /\ (forall id', id' <> id ->
          fetchone_project id' (projects (fst r))
          = fetchone_project id' (projects db))
    /\ map p_id (projects (fst r)) = map p_id (projects db)
    /\ team_members (fst r) = team_members db
    /\ tasks (fst r) = tasks db.
Proof.
  intros db id name description start_date end_date status progress Hin Hname r.
  unfold r, save_project. rewrite Hname. cbn [fst snd projects team_members tasks].
  split; [reflexivity | ].
  split.
  { unfold fetchone_project, update_project.
    destruct (find_update_same p_id
                (fun p => mkproject (p_id p) name description start_date end_date
                            (project_status_str status) (inject_Z progress))
                (fun _ => eq_refl) id (projects db) Hin) as (a & _ & Hk & Hf).
    rewrite Hf, Hk. reflexivity. }
  split.
  { intros id' Hne. unfold fetchone_project, update_project.
    apply (find_update_other p_id); [reflexivity | exact Hne]. }
  split; [ | split; reflexivity].
  apply (update_keeps_ids p_id). reflexivity.
Qed.

Lemma updateProject_overwrites_one_row_witness :
  let db := mkdb [mkproject 1 "Alpha" "old" (mkdate 2024 1 1) (mkdate 2024 1 31)
                    "Planning" 0;
                  mkproject 2 "Beta" "" (mkdate 2024 1 1) (mkdate 2024 1 31)
                    "Planning" 0] [] [] in
  In 1 (map p_id (projects db))
  /\ truthy "Gamma" = true
  /\ fetchone_project 1
       (projects (fst (save_project (Some 1) "Gamma" "" (mkdate 2024 3 1)
                         (mkdate 2024 3 31) PS_OnHold 70 db)))
     = Some (mkproject 1 "Gamma" "" (mkdate 2024 3 1) (mkdate 2024 3 31)
               "On Hold" (inject_Z 70)).
Proof.
  intros db.
  assert (H1 : In 1 (map p_id (projects db))) by (left; reflexivity).
  split; [exact H1 | ]. split; [reflexivity | ].
  exact (proj1 (proj2 (updateProject_overwrites_one_row db 1 "Gamma" ""
                         (mkdate 2024 3 1) (mkdate 2024 3 31) PS_OnHold 70 H1
                         eq_refl))).
Defined.

Lemma project_status_of_option (i : nat) (s : string) :
  nth_error project_status_options i = Some s ->
  exists status, project_status_of_index i = Ok status
                 /\ project_status_str status = s.
Proof.
  unfold project_status_of_index, getitem.
  do 5 (destruct i as [ | i]; [intros [= <-]; eexists; split; reflexivity | ]).
  destruct i; discriminate.
Qed.

Lemma task_status_of_option (i : nat) (s : string) :
  nth_error task_status_options i = Some s ->
  exists status, task_status_of_index i = Ok status
                 /\ task_status_str status = s.
Proof.
  unfold task_status_of_index, getitem.
  do 4 (destruct i as [ | i]; [intros [= <-]; eexists; split; reflexivity | ]).
  destruct i; discriminate.
Qed.

Lemma task_priority_of_option (i : nat) (s : string) :
  nth_error task_priority_options i = Some s ->
  exists priority, task_priority_of_index i = Ok priority
                   /\ task_priority_str priority = s.
Proof.
  unfold task_priority_of_index, getitem.
  do 3 (destruct i as [ | i]; [intros [= <-]; eexists; split; reflexivity | ]).
  destruct i; discriminate.
Qed.

(** X8. Opening the edit form of a stored project and pressing "Save"
    without touching a widget writes the row back as it was: the database
    is unchanged, the form is closed and nothing is raised.  (The row must
    be one the forms can have written: existing dates, a status of the
    select box, a whole progress from 0 to 100, a non-empty name.) *)
Theorem edit_project_untouched_is_identity :
  forall (k : clock) (s : session_state) (db : database) (p : project),
    NoDup (map p_id (projects db)) ->
    In p (projects db) ->
    project_ok p ->
    edit_project s = Some (Edit (p_id p)) ->
    exists f sub,
      project_form_defaults (project_dict p) = Ok f
      /\ untouched_project_form f = Ok sub
      /\ projects_page (SaveProjectClick sub) k s db
         = Ok (mksession (page s) None (edit_task s) (edit_team_member s), db).
Proof.
  intros k s db p N Hin Hok He.
  destruct (project_form_defaults_stored p Hok) as (i & z & Hd & Hn & Hp & Hz).
  destruct (project_status_of_option i _ Hn) as (status & Hst & Hstr).
  eexists. eexists. split; [exact Hd | ].
  unfold untouched_project_form. cbn [f_status_index]. rewrite Hst. cbn [bind].
  split; [reflexivity | ].
  unfold projects_page. rewrite He.
  unfold load_project_data, fetchone_project.
  rewrite (find_unique p_id _ _ N Hin). cbn [bind]. rewrite Hd. cbn [bind].
  cbn [ps_name ps_description ps_start_date ps_end_date ps_status ps_progress
       f_name f_description f_start_date f_end_date f_progress pd_id project_dict].
  unfold save_project.
  destruct Hok as (Hname & _). rewrite Hname. cbn [snd fst is_st_error].
  unfold update_project.
  rewrite (map_update_same_row p_id _ p _ N Hin).
  - rewrite mkdb_eta. reflexivity.
  - rewrite Hstr, <- Hp. destruct p; reflexivity.
Qed.

Lemma edit_project_untouched_is_identity_witness :
  let p := mkproject 1 "Alpha" "first" (mkdate 2024 1 1) (mkdate 2024 2 29)
             "On Hold" (inject_Z 35) in
  let db := mkdb [p] [] [] in
  let s := mksession Projects (Some (Edit 1)) None None in
  let k := mkclock 0 (mkdate 2024 1 1) (mkdate 2024 1 8) (mkdate 2024 1 31) in
  NoDup (map p_id (projects db))
  /\ In p (projects db)
  /\ project_ok p
  /\ edit_project s = Some (Edit (p_id p))
  /\ exists f sub,
       project_form_defaults (project_dict p) = Ok f
       /\ untouched_project_form f = Ok sub
       /\ projects_page (SaveProjectClick sub) k s db
          = Ok (mksession (page s) None (edit_task s) (edit_team_member s), db).
Proof.
  intros p db s k.
  assert (H1 : NoDup (map p_id (projects db))).
  { simpl. repeat constructor. simpl. tauto. }
  assert (H2 : In p (projects db)) by (left; reflexivity).
  assert (H3 : project_ok p).
  { repeat split; try reflexivity.
    - simpl. tauto.
    - exists 35. split; [lia | reflexivity]. }
  assert (H4 : edit_project s = Some (Edit (p_id p))) by reflexivity.
  split; [exact H1 | ]. split; [exact H2 | ]. split; [exact H3 | ].
  split; [exact H4 | ].
  exact (edit_project_untouched_is_identity k s db p H1 H2 H3 H4).
Defined.

Lemma find_unique_name {A : Type} (nm : A -> string) (l : list A) (a : A) :
  NoDup (map nm l) -> In a l ->
  find (fun b => String.eqb (nm b) (nm a)) l = Some a.
Proof.
  induction l as [ | b l IH]; simpl; intros N H; [destruct H | ].
  inversion N as [ | ? ? Hnotin N']; subst.
  destruct (String.eqb_spec (nm b) (nm a)) as [E | Hne].
  - destruct H as [-> | H]; [reflexivity | ].
    exfalso. apply Hnotin. rewrite E. apply in_map. exact H.
  - destruct H as [-> | H]; [contradiction | apply IH; assumption].
Qed.

Lemma find_first_name {A : Type} (nm : A -> string) (x : string)
    (before after : list A) (first : A) :
  (forall b, In b before -> nm b <> x) -> nm first = x ->
  find (fun b => String.eqb (nm b) x) (before ++ first :: after) = Some first.
Proof.
  intros Hb Hf. induction before as [ | b before IH]; simpl.
  - destruct (String.eqb_spec (nm first) x); [reflexivity | contradiction].
  - destruct (String.eqb_spec (nm b) x) as [E | _].
    + exfalso. apply (Hb b); [left; reflexivity | exact E].
    + apply IH. intros c Hc. apply Hb. right. exact Hc.
Qed.

Lemma assignee_option_shown (db : database) (t : task) :
  task_ok db t ->
  team_members db <> [] ->
  In (shown_option (assignee_option db t))
     ("Unassigned"%string :: map m_name (team_members db)).
Proof.
  intros (_ & _ & _ & _ & _ & _ & _ & Hass) Hne.
  unfold assignee_option.
  apply is_empty_false in Hne. rewrite Hne.
  destruct (t_assigned_to t) as [a | ]; [ | left; reflexivity].
  destruct (find_In m_id a (team_members db) (Hass a eq_refl)) as (m & Hf & Hin & _).
  unfold fetchone_team_member. rewrite Hf. cbn [shown_option].
  right. apply in_map. exact Hin.
Qed.

(** What "Save" on the untouched edit form of a stored task writes: the
    stored values, except that project and assignee are looked up again
    by the names shown in the two select boxes. *)
Lemma untouched_task_save (db : database) (t : task) :
  db_ok db -> In t (tasks db) ->
  exists p p1 f sub z,
    fetchone_project (t_project_id t) (projects db) = Some p
    /\ find (fun q => String.eqb (p_name q) (p_name p)) (projects db) = Some p1
    /\ t_progress t = inject_Z z
    /\ task_form_defaults (task_dict t) db = Ok f
    /\ untouched_task_form f = Ok sub
    /\ save_task (Some (t_id t)) (ts_name sub) (ts_project_idx sub)
         (ts_description sub) (ts_start_date sub) (ts_due_date sub)
         (ts_status sub) (ts_priority sub) (ts_assigned_idx sub)
         (ts_progress sub) db
       = Ok (mkdb (projects db) (team_members db)
               (update_task (p_id p1) (t_name t) (t_description t) (t_status t)
                  (t_priority t) (t_start_date t) (t_due_date t)
                  (if String.eqb (shown_option (assignee_option db t)) "Unassigned"
                      || is_empty (team_members db)
                   then None
                   else option_map m_id
                          (find (fun m => String.eqb (m_name m)
                                            (shown_option (assignee_option db t)))
                                (team_members db)))
                  z (t_id t) (tasks db)),
             StSuccess "Task saved successfully!").
Proof.
  intros Hdb Hin.
  pose proof Hdb as (_ & _ & _ & _ & _ & FT).
  rewrite Forall_forall in FT. pose proof (FT t Hin) as Hok.
  destruct (task_form_defaults_stored db t Hok)
    as (p & i & j & z & Hd & Hfp & Hni & Hnj & Hp & Hz).
  destruct (task_status_of_option i _ Hni) as (status & Hst & Hstr).
  destruct (task_priority_of_option j _ Hnj) as (priority & Hpr & Hprs).
  assert (Hpin : In (p_name p) (map p_name (projects db))).
  { apply in_map. unfold fetchone_project in Hfp.
    apply find_some in Hfp. tauto. }
  destruct (find_name_In p_name _ _ Hpin) as [p1 Hp1].
  exists p, p1. eexists. eexists. exists z.
  split; [exact Hfp | ]. split; [exact Hp1 | ]. split; [exact Hp | ].
  split; [exact Hd | ].
  unfold untouched_task_form. cbn [tf_status_index tf_priority_index].
  rewrite Hst, Hpr. cbn [bind].
  split; [reflexivity | ].
  cbn [ts_name ts_project_idx ts_description ts_start_date ts_due_date ts_status
       ts_priority ts_assigned_idx ts_progress tf_name tf_project_idx
       tf_description tf_start_date tf_due_date tf_assigned_idx tf_progress
       shown_option].
  unfold save_task.
  destruct Hok as (Hname & _). rewrite Hname.
  assert (Hne : is_empty (projects db) = false).
  { destruct (projects db); [destruct Hpin | reflexivity]. }
  rewrite Hne. cbn [negb andb].
  destruct (index_find p_name _ _ _ Hp1) as (ip & Hip & Hnp).
  rewrite Hip. cbn [bind].
  rewrite (getitem_map p_id _ _ _ Hnp). cbn [bind].
  rewrite (assigned_to_of_option _ _ (assignee_option_shown db t (FT t Hin))).
  cbn [bind]. rewrite Hstr, Hprs. reflexivity.
Qed.

(** X9. When no two projects and no two members share a name and no member
    is called "Unassigned", opening the edit form of a stored task and
    pressing "Save" without touching a widget leaves the database as it
    was and closes the form. *)
Theorem edit_task_untouched_is_identity :
  forall (k : clock) (w : widgets) (s : session_state) (db : database) (t : task),
    db_ok db ->
    In t (tasks db) ->
    NoDup (map p_name (projects db)) ->
    NoDup (map m_name (team_members db)) ->
    ~ In "Unassigned"%string (map m_name (team_members db)) ->
    edit_task s = Some (Edit (t_id t)) ->
    exists f sub,
      task_form_defaults (task_dict t) db = Ok f
      /\ untouched_task_form f = Ok sub
      /\ tasks_page (SaveTaskClick sub) k w s db
         = Ok (mksession (page s) (edit_project s) None (edit_team_member s), db).
Proof.
  intros k w s db t Hdb Hin NPn NMn Hun He.
  destruct (untouched_task_save db t Hdb Hin)
    as (p & p1 & f & sub & z & Hfp & Hp1 & Hz & Hd & Hu & Hsave).
  pose proof Hdb as (NP & NM & NT & _ & _ & FT).
  rewrite Forall_forall in FT.
  pose proof (FT t Hin) as (_ & _ & _ & _ & _ & _ & _ & Hass).
  exists f, sub. split; [exact Hd | split; [exact Hu | ]].
  unfold tasks_page. rewrite He.
  unfold load_task_data, fetchone_task.
  rewrite (find_unique t_id _ _ NT Hin). cbn [bind]. rewrite Hd. cbn [bind].
  cbn [td_id task_dict]. rewrite Hsave. cbn [bind snd fst is_st_error].
  unfold fetchone_project in Hfp. apply find_some in Hfp.
  destruct Hfp as [Hpin Hpid]. apply Z.eqb_eq in Hpid.
  assert (E1 : p1 = p).
  { rewrite (find_unique_name p_name _ _ NPn Hpin) in Hp1. congruence. }
  assert (E2 : (if String.eqb (shown_option (assignee_option db t)) "Unassigned"
                   || is_empty (team_members db)
                then None
                else option_map m_id
                       (find (fun m => String.eqb (m_name m)
                                         (shown_option (assignee_option db t)))
                             (team_members db)))
               = t_assigned_to t).
  { unfold assignee_option.
    destruct (is_empty (team_members db)) eqn:Ee.
    - rewrite orb_true_r.
      destruct (t_assigned_to t) as [a | ]; [ | reflexivity].
      exfalso. specialize (Hass a eq_refl).
      destruct (team_members db); [destruct Hass | discriminate Ee].
    - rewrite orb_false_r.
      destruct (t_assigned_to t) as [a | ]; [ | reflexivity].
      destruct (find_In m_id a (team_members db) (Hass a eq_refl))
        as (m & Hf & Hmin & Hk).
      unfold fetchone_team_member. rewrite Hf. cbn [shown_option].
      destruct (String.eqb_spec (m_name m) "Unassigned") as [E | _].
      + exfalso. apply Hun. rewrite <- E. apply in_map. exact Hmin.
      + rewrite (find_unique_name m_name _ _ NMn Hmin). cbn [option_map].
        rewrite Hk. reflexivity. }
  rewrite E2, E1. unfold update_task.
  rewrite (map_update_same_row t_id _ t _ NT Hin).
  - rewrite mkdb_eta. reflexivity.
  - rewrite Hpid, <- Hz. destruct t; reflexivity.
Qed.

Ltac pick_option := first [left; reflexivity | right; pick_option].

(** Checks [db_ok] and its parts on a database written out in full. *)
Ltac concrete_rows :=
  repeat match goal with
         | |- _ /\ _ => split
         | |- NoDup _ => constructor
         | |- Forall _ _ => constructor
         | |- ~ In _ _ => simpl; intuition discriminate
         | |- In _ _ => simpl; pick_option
         | |- _ \/ _ => pick_option
         | |- slider_value _ =>
             cbn [p_progress t_progress];
             match goal with
             | |- slider_value (inject_Z ?z) => exists z; split; [lia | reflexivity]
             end
         | |- forall a, _ = Some a -> _ =>
             let E := fresh in
             intros ? E; first [discriminate E | injection E as <-]
         | |- _ = _ => reflexivity
         end.

Lemma edit_task_untouched_is_identity_witness :
  let p := mkproject 1 "Alpha" "" (mkdate 2024 1 1) (mkdate 2024 1 31)
             "Planning" (inject_Z 0) in
  let m := mkmember 1 "Ada" "dev" "" in
  let t := mktask 1 1 "design" "" "Blocked" "High" (mkdate 2024 1 1)
             (mkdate 2024 1 8) (Some 1) (inject_Z 40) in
  let db := mkdb [p] [m] [t] in
  let s := mksession Tasks None (Some (Edit 1)) None in
  let k := mkclock 0 (mkdate 2024 1 1) (mkdate 2024 1 8) (mkdate 2024 1 31) in
  let w := mkwidgets "All Projects" "All Statuses" "Alpha" in
  db_ok db
  /\ In t (tasks db)
  /\ NoDup (map p_name (projects db))
  /\ NoDup (map m_name (team_members db))
  /\ ~ In "Unassigned"%string (map m_name (team_members db))
  /\ edit_task s = Some (Edit (t_id t))
  /\ exists f sub,
       task_form_defaults (task_dict t) db = Ok f
       /\ untouched_task_form f = Ok sub
       /\ tasks_page (SaveTaskClick sub) k w s db
          = Ok (mksession (page s) (edit_project s) None (edit_team_member s), db).
Proof.
  intros p m t db s k w.
  assert (H1 : db_ok db).
  { unfold db_ok, project_ok, member_ok, task_ok, db, p, m, t. simpl.
    concrete_rows. }
  assert (H2 : In t (tasks db)) by (left; reflexivity).
  assert (H3 : NoDup (map p_name (projects db))).
  { simpl. repeat constructor. simpl. tauto. }
  assert (H4 : NoDup (map m_name (team_members db))).
  { simpl. repeat constructor. simpl. tauto. }
  assert (H5 : ~ In "Unassigned"%string (map m_name (team_members db))).
  { simpl. intros [E | []]. discriminate E. }
  assert (H6 : edit_task s = Some (Edit (t_id t))) by reflexivity.
  split; [exact H1 | ]. split; [exact H2 | ]. split; [exact H3 | ].
  split; [exact H4 | ]. split; [exact H5 | ]. split; [exact H6 | ].
  exact (edit_task_untouched_is_identity k w s db t H1 H2 H3 H4 H5 H6).
Defined.

(** X10. The "Project" box of the task form holds names, not ids.  When a
    task belongs to a project whose name an earlier project also bears,
    pressing "Save" on the task's untouched edit form stores the id of the
    earlier project: the task moves to the first project of that name. *)
Theorem edit_task_untouched_moves_to_first_namesake :
  forall (k : clock) (w : widgets) (s : session_state) (db : database) (t : task)
         (before after : list project) (first other : project),
    db_ok db ->
    In t (tasks db) ->
    projects db = before ++ first :: after ->
    (forall p, In p before -> p_name p <> p_name first) ->
    In other after ->
    p_name other = p_name first ->
    t_project_id t = p_id other ->
    edit_task s = Some (Edit (t_id t)) ->
    exists f sub db' t',
      task_form_defaults (task_dict t) db = Ok f
      /\ untouched_task_form f = Ok sub
      /\ tasks_page (SaveTaskClick sub) k w s db
         = Ok (mksession (page s) (edit_project s) None (edit_team_member s), db')
      /\ fetchone_task (t_id t) (tasks db') = Some t'
      /\ t_project_id t' = p_id first
      /\ p_id first <> t_project_id t
      /\ t_name t' = t_name t.
Proof.
  intros k w s db t before after first other Hdb Hin Hps Hbefore Hother Hname
         Htid He.
  destruct (untouched_task_save db t Hdb Hin)
    as (p & p1 & f & sub & z & Hfp & Hp1 & Hz & Hd & Hu & Hsave).
  pose proof Hdb as (NP & _ & NT & _).
  assert (Hoin : In other (projects db)).
  { rewrite Hps. apply in_or_app. right. right. exact Hother. }
  assert (Ep : p = other).
  { unfold fetchone_project in Hfp. rewrite Htid in Hfp.
    rewrite (find_unique p_id _ _ NP Hoin) in Hfp. congruence. }
  assert (Ep1 : p1 = first).
  { rewrite Ep, Hname, Hps in Hp1.
    rewrite (find_first_name p_name _ before after first Hbefore eq_refl) in Hp1.
    congruence. }
  assert (Hne : p_id first <> t_project_id t).
  { rewrite Htid. rewrite Hps, map_app in NP. cbn [map] in NP.
    apply NoDup_remove_2 in NP. intros E. apply NP.
    apply in_or_app. right. rewrite E. apply in_map. exact Hother. }
  subst p p1.
  destruct (find_update_same t_id
              (fun u => mktask (t_id u) (p_id first) (t_name t) (t_description t)
                          (t_status t) (t_priority t) (t_start_date t)
                          (t_due_date t)
                          (if String.eqb (shown_option (assignee_option db t))
                                "Unassigned"
                              || is_empty (team_members db)
                           then None
                           else option_map m_id
                                  (find (fun m => String.eqb (m_name m)
                                                    (shown_option (assignee_option db t)))
                                        (team_members db)))
                          (inject_Z z))
              (fun _ => eq_refl) (t_id t) (tasks db) (in_map t_id _ _ Hin))
    as (u & _ & _ & Hfu).
  exists f, sub. eexists. eexists.
  split; [exact Hd | split; [exact Hu | ]].
  split.
  { unfold tasks_page. rewrite He.
    unfold load_task_data, fetchone_task.
    rewrite (find_unique t_id _ _ NT Hin). cbn [bind]. rewrite Hd. cbn [bind].
    cbn [td_id task_dict]. rewrite Hsave. cbn [bind snd fst is_st_error].
    reflexivity. }
  split.
  { cbn [tasks]. unfold fetchone_task, update_task. exact Hfu. }
  cbn [t_project_id t_name]. repeat split. exact Hne.
Qed.

Lemma edit_task_untouched_moves_to_first_namesake_witness :
  let first := mkproject 1 "Alpha" "" (mkdate 2024 1 1) (mkdate 2024 1 31)
                 "Planning" (inject_Z 0) in
  let other := mkproject 2 "Alpha" "" (mkdate 2024 2 1) (mkdate 2024 2 29)
                 "Planning" (inject_Z 0) in
  let t := mktask 1 2 "design" "" "Blocked" "High" (mkdate 2024 2 1)
             (mkdate 2024 2 8) None (inject_Z 40) in
  let db := mkdb [first; other] [] [t] in
  let s := mksession Tasks None (Some (Edit 1)) None in
  let k := mkclock 0 (mkdate 2024 1 1) (mkdate 2024 1 8) (mkdate 2024 1 31) in
  let w := mkwidgets "All Projects" "All Statuses" "Alpha" in
  db_ok db
  /\ In t (tasks db)
  /\ projects db = [] ++ first :: [other]
  /\ (forall p, In p [] -> p_name p <> p_name first)
  /\ In other [other]
  /\ p_name other = p_name first
  /\ t_project_id t = p_id other
  /\ edit_task s = Some (Edit (t_id t))
  /\ exists f sub db' t',
       task_form_defaults (task_dict t) db = Ok f
       /\ untouched_task_form f = Ok sub
       /\ tasks_page (SaveTaskClick sub) k w s db
          = Ok (mksession (page s) (edit_project s) None (edit_team_member s), db')
       /\ fetchone_task (t_id t) (tasks db') = Some t'
       /\ t_project_id t' = p_id first
       /\ p_id first <> t_project_id t
       /\ t_name t' = t_name t.
Proof.
  intros first other t db s k w.
  assert (H1 : db_ok db).
  { unfold db_ok, project_ok, member_ok, task_ok, db, first, other, t. simpl.
    concrete_rows. }
  assert (H2 : In t (tasks db)) by (left; reflexivity).
  assert (H3 : projects db = [] ++ first :: [other]) by reflexivity.
  assert (H4 : forall p, In p [] -> p_name p <> p_name first) by (intros p []).
  assert (H5 : In other [other]) by (left; reflexivity).
  assert (H6 : p_name other = p_name first) by reflexivity.
  assert (H7 : t_project_id t = p_id other) by reflexivity.
  assert (H8 : edit_task s = Some (Edit (t_id t))) by reflexivity.
  repeat (split; [assumption | ]).
  exact (edit_task_untouched_moves_to_first_namesake k w s db t [] [other] first
           other H1 H2 H3 H4 H5 H6 H7 H8).
Defined.

Lemma load_task_data_absent (id : Z) (today today7 : date) (db : database) :
  ~ In id (map t_id (tasks db)) ->
  load_task_data (Edit id) today today7 db = Raise TypeError.
Proof.
  intros H. unfold load_task_data, fetchone_task.
  rewrite (find_absent t_id) by exact H. reflexivity.
Qed.

Lemma load_member_data_absent (id : Z) (db : database) :
  ~ In id (map m_id (team_members db)) ->
  load_member_data (Edit id) db = Raise TypeError.
Proof.
  intros H. unfold load_member_data, fetchone_team_member.
  rewrite (find_absent m_id) by exact H. reflexivity.
Qed.

(** X11. Were an edit key to hold an id that no row of its table has, the
    page would stop with [TypeError] at [dict(zip(columns, None))] on every
    run, whatever is clicked on the page, "Cancel" included; nothing is
    written.  Going to another page by the sidebar clears the key. *)
Theorem edit_form_of_absent_id_raises :
  forall (c : click) (k : clock) (w : widgets) (s : session_state)
         (db : database) (id : Z),
    (edit_project s = Some (Edit id) -> ~ In id (map p_id (projects db)) ->
     projects_page c k s db = Raise TypeError)
    /\ (edit_task s = Some (Edit id) -> ~ In id (map t_id (tasks db)) ->
        tasks_page c k w s db = Raise TypeError)
    /\ (edit_team_member s = Some (Edit id) ->
        ~ In id (map m_id (team_members db)) ->
        team_page c s db = Raise TypeError)
    /\ main (SidebarClick (NavButton Dashboard)) k w (Some s) db
       = Ok (mksession Dashboard None None None, db).
Proof.
  intros c k w s db id. repeat split.
  - intros He Habs. unfold projects_page. rewrite He.
    rewrite load_project_data_absent by exact Habs. reflexivity.
  - intros He Habs. unfold tasks_page. rewrite He.
    rewrite load_task_data_absent by exact Habs. reflexivity.
  - intros He Habs. unfold team_page. rewrite He.
    rewrite load_member_data_absent by exact Habs. reflexivity.
Qed.

Lemma edit_form_of_absent_id_raises_witness :
  let db := mkdb [] [] [] in
  let k := mkclock 0 (mkdate 2024 1 1) (mkdate 2024 1 8) (mkdate 2024 1 31) in
  let w := mkwidgets "All Projects" "All Statuses" "" in
  let s := mksession Projects (Some (Edit 7)) None None in
  edit_project s = Some (Edit 7)
  /\ ~ In 7 (map p_id (projects db))
  /\ projects_page CancelProjectClick k s db = Raise TypeError.
Proof.
  intros db k w s.
  assert (H1 : edit_project s = Some (Edit 7)) by reflexivity.
  assert (H2 : ~ In 7 (map p_id (projects db))) by (intros []).
  split; [exact H1 | ]. split; [exact H2 | ].
  exact (proj1 (edit_form_of_absent_id_raises CancelProjectClick k w s db 7) H1 H2).
Defined.

(** ** [dashboard_page]: what is shown *)

Lemma filter_nil_iff {A : Type} (f : A -> bool) (l : list A) :
  filter f l = [] <-> forall a, In a l -> f a = false.
Proof.
  induction l as [ | b l IH]; simpl.
  - split; [intros _ a [] | reflexivity].
  - destruct (f b) eqn:E.
    + split; [discriminate | ].
      intros H. specialize (H b (or_introl eq_refl)). congruence.
    + rewrite IH. split.
      * intros H a [<- | Ha]; [exact E | apply H; exact Ha].
      * intros H a Ha. apply H. right. exact Ha.
Qed.

Lemma is_empty_true {A : Type} (l : list A) : is_empty l = true <-> l = [].
Proof. destruct l; simpl; split; congruence. Qed.

(** With primary keys and stored projects behind all tasks the merge
    neither drops nor doubles a row. *)
Lemma merge_projects_one_each (l : list task) (ps : list project) :
  NoDup (map p_id ps) ->
  (forall t, In t l -> In (t_project_id t) (map p_id ps)) ->
  map fst (merge_projects l ps) = l.
Proof.
  intros N H. unfold merge_projects.
  induction l as [ | t l IH]; [reflexivity | ].
  cbn [flat_map]. rewrite map_app, IH by (intros u Hu; apply H; right; exact Hu).
  rewrite (filter_unique_key p_id _ (t_project_id t) ps)
    by (try exact N; intros p E; apply Z.eqb_eq in E; congruence).
  specialize (H t (or_introl eq_refl)).
  apply in_map_iff in H. destruct H as (p & E & Hp).
  destruct (find (fun p => t_project_id t =? p_id p) ps) as [q | ] eqn:Ef.
  - reflexivity.
  - exfalso. apply (find_none _ _ Ef) in Hp.
    rewrite E, Z.eqb_refl in Hp. discriminate Hp.
Qed.



(** ** [reports_page]: the workload by member *)

Lemma string_lt_trans (a b c : string) :
  String.compare a b = Lt -> String.compare b c = Lt -> String.compare a c = Lt.
Proof.
  intros H1 H2.
  exact (@RelationClasses.StrictOrder_Transitive _ _ String_as_OT.lt_strorder
           a b c H1 H2).
Qed.

Lemma string_lt_irrefl (a : string) : String.compare a a <> Lt.
Proof.
  exact (@RelationClasses.StrictOrder_Irreflexive _ _ String_as_OT.lt_strorder a).
Qed.

Lemma string_compare_eq (a b : string) : String.compare a b = Eq <-> a = b.
Proof.
  split; [apply String.compare_eq_iff | ].
  intros ->. destruct (String.compare b b) eqn:E; [reflexivity | | ].
  - exfalso. exact (string_lt_irrefl b E).
  - exfalso. rewrite String.compare_antisym in E.
    destruct (String.compare b b) eqn:E'; try discriminate.
    exact (string_lt_irrefl b E').
Qed.

Lemma group_insert_count (s k : string) (l : list (string * nat)) :
  count_for s (group_insert k l)
  = (count_for s l + (if String.eqb k s then 1 else 0))%nat.
Proof.
  unfold count_for.
  induction l as [ | [k' n] l IH]; simpl.
  - destruct (String.eqb k s); reflexivity.
  - destruct (String.compare k k') eqn:C.
    + apply string_compare_eq in C. subst k'. simpl.
      destruct (String.eqb k s); simpl; lia.
    + simpl. destruct (String.eqb k s); destruct (String.eqb k' s); simpl; lia.
    + simpl. destruct (String.eqb k' s); simpl; rewrite IH; lia.
Qed.

Lemma group_insert_keys (k : string) (l : list (string * nat)) (x : string * nat) :
  In x (group_insert k l) -> fst x = k \/ In (fst x) (map fst l).
Proof.
  induction l as [ | [k' n] l IH]; simpl.
  - intros [<- | []]. left. reflexivity.
  - destruct (String.compare k k') eqn:C; simpl.
    + intros [<- | H]; [right; left; reflexivity | ].
      right. right. apply in_map. exact H.
    + intros [<- | [<- | H]]; [left; reflexivity | right; left; reflexivity | ].
      right. right. apply in_map. exact H.
    + intros [<- | H]; [right; left; reflexivity | ].
      destruct (IH H) as [E | E]; [left; exact E | right; right; exact E].
Qed.

Lemma group_insert_sorted (k : string) (l : list (string * nat)) :
  StronglySorted key_lt l -> StronglySorted key_lt (group_insert k l).
Proof.
  induction l as [ | [k' n] l IH]; simpl; intros S.
  - repeat constructor.
  - inversion S as [ | ? ? Sl Hall]; subst.
    destruct (String.compare k k') eqn:C.
    + constructor; [exact Sl | ].
      eapply Forall_impl; [ | exact Hall]. intros y Hy. exact Hy.
    + constructor; [exact S | ].
      constructor; [exact C | ].
      eapply Forall_impl; [ | exact Hall].
      intros y Hy. unfold key_lt in *. simpl in *.
      eapply string_lt_trans; eassumption.
    + constructor; [apply IH; exact Sl | ].
      rewrite Forall_forall. intros y Hy.
      destruct (group_insert_keys k l y Hy) as [E | E].
      * unfold key_lt. simpl. rewrite E.
        rewrite String.compare_antisym, C. reflexivity.
      * rewrite Forall_forall in Hall.
        apply in_map_iff in E. destruct E as (z & Ez & Hz).
        specialize (Hall z Hz). unfold key_lt in *. simpl in *.
        rewrite <- Ez. exact Hall.
Qed.

Lemma group_insert_positive (k : string) (l : list (string * nat)) :
  Forall (fun x => (0 < snd x)%nat) l ->
  Forall (fun x => (0 < snd x)%nat) (group_insert k l).
Proof.
  induction l as [ | [k' n] l IH]; simpl; intros F.
  - repeat constructor.
  - inversion F as [ | ? ? Hn Fl]; subst.
    destruct (String.compare k k'); repeat constructor; simpl in *;
      try lia; try assumption.
    apply IH. exact Fl.
Qed.

Lemma groupby_size_spec (keys : list (option string)) :
  StronglySorted key_lt (groupby_size keys)
  /\ Forall (fun x => (0 < snd x)%nat) (groupby_size keys)
  /\ forall s, count_for s (groupby_size keys) = occurrences s keys.
Proof.
  unfold groupby_size.
  assert (G : forall acc,
             StronglySorted key_lt acc ->
             Forall (fun x => (0 < snd x)%nat) acc ->
             let r := fold_left (fun acc k => match k with
                                              | Some s => group_insert s acc
                                              | None => acc
                                              end) keys acc in
             StronglySorted key_lt r
             /\ Forall (fun x => (0 < snd x)%nat) r
             /\ forall s, count_for s r = (count_for s acc + occurrences s keys)%nat).
  { induction keys as [ | k keys IH]; intros acc S F; cbn [fold_left].
    - repeat split; try assumption. intros s. unfold occurrences. simpl. lia.
    - destruct k as [k | ].
      + destruct (IH (group_insert k acc) (group_insert_sorted k acc S)
                    (group_insert_positive k acc F)) as (S' & F' & C').
        repeat split; try assumption.
        intros s. rewrite C', group_insert_count.
        unfold occurrences. simpl. destruct (String.eqb k s); simpl; lia.
      + destruct (IH acc S F) as (S' & F' & C').
        repeat split; try assumption. }
  destruct (G [] (SSorted_nil _) (Forall_nil _)) as (S & F & C).
  split; [exact S | split; [exact F | ]].
  intros s. rewrite C. reflexivity.
Qed.

Lemma count_for_In (s : string) (l : list (string * nat)) :
  StronglySorted key_lt l ->
  forall n, In (s, n) l -> count_for s l = n.
Proof.
  induction l as [ | [k m] l IH]; intros S n H; [destruct H | ].
  inversion S as [ | ? ? Sl Hall]; subst.
  unfold count_for in *. simpl.
  rewrite Forall_forall in Hall.
  destruct H as [[= -> ->] | H].
  - rewrite String.eqb_refl. simpl.
    replace (filter (fun x => String.eqb (fst x) s) l) with (@nil (string * nat)).
    + simpl. lia.
    + symmetry. apply filter_nil_iff. intros y Hy.
      apply String.eqb_neq. intros E.
      specialize (Hall y Hy). unfold key_lt in Hall. simpl in Hall.
      rewrite E in Hall. exact (string_lt_irrefl s Hall).
  - destruct (String.eqb_spec k s) as [E | _].
    + exfalso. specialize (Hall (s, n) H). unfold key_lt in Hall. simpl in Hall.
      rewrite E in Hall. exact (string_lt_irrefl s Hall).
    + apply IH; assumption.
Qed.

Lemma count_for_absent (s : string) (l : list (string * nat)) :
  ~ In s (map fst l) -> count_for s l = 0%nat.
Proof.
  intros H. unfold count_for.
  replace (filter (fun x => String.eqb (fst x) s) l) with (@nil (string * nat));
    [reflexivity | ].
  symmetry. apply filter_nil_iff. intros y Hy.
  apply String.eqb_neq. intros E. apply H. rewrite <- E. apply in_map. exact Hy.
Qed.

Lemma left_join_nil {A B : Type} (on : A -> B -> bool) (a : list A) (b : list B) :
  left_join on a b = [] <-> a = [].
Proof.
  split.
  - intros E. destruct a as [ | x a]; [reflexivity | ].
    destruct (left_join_total on (x :: a) b x (or_introl eq_refl)) as [o Ho].
    rewrite E in Ho. destruct Ho.
  - intros ->. reflexivity.
Qed.

Lemma workload_assignee_names_nil (db : database) :
  workload_assignee_names db = [] <-> tasks db = [].
Proof.
  unfold workload_assignee_names. split.
  - intros E. apply map_eq_nil in E.
    apply left_join_nil in E. apply left_join_nil in E. exact E.
  - intros E. rewrite E. reflexivity.
Qed.

Lemma occurrences_zero (keys : list (option string)) :
  (forall s, occurrences s keys = 0%nat) <-> (forall o, In o keys -> o = None).
Proof.
  unfold occurrences. split.
  - intros H [s | ] Ho; [ | reflexivity].
    exfalso. specialize (H s). apply length_zero_iff_nil in H.
    pose proof (proj1 (filter_nil_iff _ _) H (Some s) Ho) as E.
    simpl in E. rewrite String.eqb_refl in E. discriminate E.
  - intros H s. apply length_zero_iff_nil. apply filter_nil_iff.
    intros o Ho. rewrite (H o Ho). reflexivity.
Qed.

Lemma groupby_size_nil (keys : list (option string)) :
  groupby_size keys = [] <-> (forall o, In o keys -> o = None).
Proof.
  destruct (groupby_size_spec keys) as (S & F & C).
  rewrite <- occurrences_zero. split.
  - intros E s. rewrite <- C, E. reflexivity.
  - intros H. remember (groupby_size keys) as g eqn:E.
    destruct g as [ | [k n] l]; [reflexivity | ].
    exfalso.
    inversion F as [ | ? ? Hn _]; subst. simpl in Hn.
    specialize (C k).
    rewrite (count_for_In k _ S n (or_introl eq_refl)), H in C. lia.
Qed.

(** X13. The "Team Workload" tab shows "Insufficient data ..." exactly
    when there is no member or no task, and "No tasks have been assigned
    ..." exactly when there are both but no task has a stored assignee.
    Otherwise its frame lists, in ascending order of the name, each member
    name under which at least one task is assigned, with the number of
    tasks assigned to members of that name: members without tasks are
    absent, not listed with 0, and members who share a name share one
    row.  With primary keys the names counted are those of the tasks'
    assignees, one per task. *)
Theorem reports_workload_spec :
  forall (db : database),
    (reports_workload db = InsufficientData
     <-> team_members db = [] \/ tasks db = [])
    /\ (reports_workload db = NoAssignments
        <-> team_members db <> [] /\ tasks db <> []
            /\ forall o, In o (workload_assignee_names db) -> o = None)
    /\ (forall task_counts,
          reports_workload db = Workload task_counts ->
          StronglySorted key_lt task_counts
          /\ forall name n,
               In (name, n) task_counts
               <-> (0 < n)%nat
                   /\ n = occurrences name (workload_assignee_names db))
    /\ (NoDup (map p_id (projects db)) ->
        NoDup (map m_id (team_members db)) ->
        workload_assignee_names db
        = map (fun t => option_map m_name (assignee_of db t)) (tasks db)).
Proof.
  intros db.
  pose proof (workload_assignee_names_nil db) as Hnil.
  pose proof (groupby_size_nil (workload_assignee_names db)) as Gnil.
  destruct (groupby_size_spec (workload_assignee_names db)) as (S & F & C).
  assert (Hm : is_empty (team_members db) = true <-> team_members db = [])
    by apply is_empty_true.
  assert (Hn : is_empty (workload_assignee_names db) = true <-> tasks db = []).
  { rewrite is_empty_true. exact Hnil. }
  assert (Hg : is_empty (groupby_size (workload_assignee_names db)) = true
               <-> forall o, In o (workload_assignee_names db) -> o = None).
  { rewrite is_empty_true. exact Gnil. }
  assert (Hone : NoDup (map p_id (projects db)) ->
                 NoDup (map m_id (team_members db)) ->
                 workload_assignee_names db
                 = map (fun t => option_map m_name (assignee_of db t)) (tasks db)).
  { intros NP NM. unfold workload_assignee_names.
    rewrite (left_join_unique on_assignee)
      by (intros t; apply filter_on_assignee_unique; exact NM).
    rewrite (left_join_unique (fun tm p => on_project (fst tm) p))
      by (intros tm; apply filter_on_project_unique; exact NP).
    rewrite !map_map. reflexivity. }
  assert (Hrows : forall name n,
             In (name, n) (groupby_size (workload_assignee_names db))
             <-> (0 < n)%nat
                 /\ n = occurrences name (workload_assignee_names db)).
  { intros name n. split.
    - intros H. rewrite Forall_forall in F.
      split; [exact (F _ H) | ].
      rewrite <- C. symmetry. apply count_for_In; assumption.
    - intros [Hpos ->].
      destruct (in_dec string_dec name
                  (map fst (groupby_size (workload_assignee_names db))))
        as [Hin | Hout].
      + apply in_map_iff in Hin. destruct Hin as ([k m] & Ek & Hkm).
        simpl in Ek. subst k.
        rewrite <- C, (count_for_In name _ S m Hkm). exact Hkm.
      + exfalso. rewrite <- C, (count_for_absent _ _ Hout) in Hpos. lia. }
  unfold reports_workload.
  destruct (is_empty (team_members db)) eqn:Em; cbn [negb andb].
  { (* no member *)
    assert (E : team_members db = []) by (apply Hm; reflexivity).
    split; [split; [intros _; left; exact E | reflexivity] | ].
    split; [split; [discriminate | intros (H & _); contradiction] | ].
    split; [intros task_counts H; discriminate H | exact Hone]. }
  assert (Em' : team_members db <> []).
  { intros E. apply Hm in E. congruence. }
  destruct (is_empty (workload_assignee_names db)) eqn:En; cbn [negb].
  { (* no task *)
    assert (E : tasks db = []) by (apply Hn; reflexivity).
    split; [split; [intros _; right; exact E | reflexivity] | ].
    split; [split; [discriminate | intros (_ & H & _); contradiction] | ].
    split; [intros task_counts H; discriminate H | exact Hone]. }
  assert (En' : tasks db <> []).
  { intros E. apply Hn in E. congruence. }
  cbv zeta.
  destruct (is_empty (groupby_size (workload_assignee_names db))) eqn:Eg;
    cbn [negb].
  - (* nobody assigned *)
    split; [split; [discriminate | intros [E | E]; contradiction] | ].
    split.
    + split; [ | reflexivity]. intros _.
      split; [exact Em' | split; [exact En' | apply Hg; reflexivity]].
    + split; [intros task_counts H; discriminate H | exact Hone].
  - split; [split; [discriminate | intros [E | E]; contradiction] | ].
    split.
    + split; [discriminate | ]. intros (_ & _ & H).
      apply Hg in H. congruence.
    + split; [ | exact Hone].
      intros task_counts [= <-]. split; [exact S | exact Hrows].
Qed.

Lemma reports_workload_spec_witness :
  let tk id assigned :=
    mktask id 1 "t" "" "Not Started" "Medium" (mkdate 2024 1 1) (mkdate 2024 1 8)
      assigned 0 in
  let db := mkdb [mkproject 1 "Alpha" "" (mkdate 2024 1 1) (mkdate 2024 1 31)
                    "Planning" 0]
                 [mkmember 1 "Grace" "lead" ""; mkmember 2 "Ada" "dev" "";
                  mkmember 3 "Ada" "ops" ""; mkmember 4 "Linus" "dev" ""]
                 [tk 1 (Some 1); tk 2 (Some 2); tk 3 (Some 3); tk 4 None] in
  reports_workload db = Workload [("Ada", 2%nat); ("Grace", 1%nat)]%string
  /\ StronglySorted key_lt [("Ada", 2%nat); ("Grace", 1%nat)]%string.
Proof.
  intros tk db.
  assert (H : reports_workload db = Workload [("Ada", 2%nat); ("Grace", 1%nat)]%string)
    by (vm_compute; reflexivity).
  split; [exact H | ].
  exact (proj1 (proj1 (proj2 (proj2 (reports_workload_spec db))) _ H)).
Defined.

(** ** The listings of projects and members *)

Section CountByKey.

Context {A : Type}.
Variable key : A -> option Z.

Lemma list_sum_map_add {B : Type} (f g : B -> nat) (l : list B) :
  list_sum (map (fun x => (f x + g x)%nat) l)
  = (list_sum (map f l) + list_sum (map g l))%nat.
Proof. induction l as [ | x l IH]; simpl; lia. Qed.

Lemma hits_of_stored_key (a : Z) (ks : list Z) :
  NoDup ks -> In a ks ->
  list_sum (map (fun k => if a =? k then 1%nat else 0%nat) ks) = 1%nat.
Proof.
  induction ks as [ | k ks IH]; simpl; intros N H; [destruct H | ].
  inversion N as [ | ? ? Hnotin N']; subst.
  destruct (Z.eqb_spec a k) as [E | Hne].
  - subst k.
    replace (list_sum (map (fun k => if a =? k then 1%nat else 0%nat) ks)) with 0%nat;
      [reflexivity | ].
    clear - Hnotin. induction ks as [ | k ks IH]; simpl; [reflexivity | ].
    destruct (Z.eqb_spec a k) as [E | _].
    + exfalso. apply Hnotin. left. symmetry. exact E.
    + apply IH. intros H. apply Hnotin. right. exact H.
  - destruct H as [E | H]; [congruence | ].
    apply IH; assumption.
Qed.

Lemma hits_of_no_key (ks : list Z) :
  list_sum (map (fun _ : Z => 0%nat) ks) = 0%nat.
Proof. induction ks; simpl; [reflexivity | assumption]. Qed.

(** Counting the rows key by key counts every row that holds a stored key
    once. *)
Lemma sum_counts_by_key (ks : list Z) (vs : list A) :
  NoDup ks ->
  (forall v a, In v vs -> key v = Some a -> In a ks) ->
  list_sum (map (fun k => length (filter (has_key key k) vs)) ks)
  = length (filter (keyed key) vs).
Proof.
  intros N H. induction vs as [ | v vs IH].
  - simpl. apply hits_of_no_key.
  - rewrite (map_ext _ (fun k => ((if has_key key k v then 1 else 0)
                                  + length (filter (has_key key k) vs))%nat))
      by (intros k; simpl; destruct (has_key key k v); reflexivity).
    rewrite list_sum_map_add, IH
      by (intros u a Hu; apply H; right; exact Hu).
    cbn [filter].
    assert (Hk : keyed key v = match key v with Some _ => true | None => false end)
      by reflexivity.
    destruct (key v) as [a | ] eqn:E; rewrite Hk.
    + rewrite (map_ext (fun k => if has_key key k v then 1%nat else 0%nat)
                       (fun k => if a =? k then 1%nat else 0%nat))
        by (intros k; unfold has_key; rewrite E; reflexivity).
      rewrite (hits_of_stored_key a ks N (H v a (or_introl eq_refl) E)).
      reflexivity.
    + rewrite (map_ext (fun k => if has_key key k v then 1%nat else 0%nat)
                       (fun _ => 0%nat))
        by (intros k; unfold has_key; rewrite E; reflexivity).
      rewrite hits_of_no_key. reflexivity.
Qed.

End CountByKey.

(** X14. The projects page lists every project once, in table order.  The
    line of a project reads "No tasks assigned" exactly when no task names
    its id, and otherwise "c/n completed" with n the number of tasks that
    name its id and c, at most n, the number of those that are
    "Completed".  With primary keys and a stored project behind every
    task, the figures n of all lines add up to the number of tasks. *)
Theorem projects_listing_counts :
  forall (db : database),
    map fst (projects_listing db) = projects db
    /\ (forall p line,
          In (p, line) (projects_listing db) ->
          match line with
          | NoTasksAssigned =>
              forall t, In t (tasks db) -> t_project_id t <> p_id p
          | TasksCompleted completed_tasks total =>
              (0 < total)%nat
              /\ (completed_tasks <= total)%nat
              /\ total = length (project_tasks (p_id p) db)
              /\ completed_tasks
                 = length (filter (fun t => String.eqb (t_status t) "Completed")
                             (project_tasks (p_id p) db))
          end)
    /\ (NoDup (map p_id (projects db)) ->
        (forall t, In t (tasks db) -> In (t_project_id t) (map p_id (projects db))) ->
        list_sum (map (fun x => tasks_total (snd x)) (projects_listing db))
        = length (tasks db)).
Proof.
  intros db. split; [ | split].
  - unfold projects_listing. rewrite map_map. apply map_id.
  - intros p line H. unfold projects_listing in H.
    apply in_map_iff in H. destruct H as (q & [= -> <-] & _).
    unfold project_tasks_summary.
    destruct (project_tasks (p_id p) db) as [ | t l] eqn:E; cbn [is_empty negb].
    + intros t Ht Hid.
      assert (Hin : In t (project_tasks (p_id p) db)).
      { unfold project_tasks. apply filter_In. split; [exact Ht | ].
        apply Z.eqb_eq. exact Hid. }
      rewrite E in Hin. destruct Hin.
    + repeat split.
      * simpl. lia.
      * apply filter_length_le.
  - intros N H. unfold projects_listing. rewrite map_map.
    rewrite (map_ext _ (fun p => length (filter (has_key (fun t => Some (t_project_id t))
                                                   (p_id p)) (tasks db)))).
    + rewrite <- (map_map p_id (fun k => length (filter (has_key _ k) (tasks db)))).
      rewrite (sum_counts_by_key (fun t => Some (t_project_id t))).
      * f_equal. apply forallb_filter_id. apply forallb_forall. reflexivity.
      * exact N.
      * intros t a Ht [= <-]. apply H. exact Ht.
    + intros p. cbn [snd]. unfold project_tasks_summary, project_tasks, has_key.
      destruct (filter (fun t => t_project_id t =? p_id p) (tasks db)); reflexivity.
Qed.

Lemma projects_listing_counts_witness :
  let tk id pid status :=
    mktask id pid "t" "" status "Medium" (mkdate 2024 1 1) (mkdate 2024 1 8)
      None 0 in
  let alpha := mkproject 1 "Alpha" "" (mkdate 2024 1 1) (mkdate 2024 1 31)
                 "Planning" 0 in
  let beta := mkproject 2 "Beta" "" (mkdate 2024 1 1) (mkdate 2024 1 31)
                "Planning" 0 in
  let db := mkdb [alpha; beta] []
              [tk 1 1 "Completed"; tk 2 1 "Blocked"; tk 3 1 "Completed"]%string in
  NoDup (map p_id (projects db))
  /\ (forall t, In t (tasks db) -> In (t_project_id t) (map p_id (projects db)))
  /\ projects_listing db = [(alpha, TasksCompleted 2 3); (beta, NoTasksAssigned)]
  /\ list_sum (map (fun x => tasks_total (snd x)) (projects_listing db))
     = length (tasks db).
Proof.
  intros tk alpha beta db.
  assert (H1 : NoDup (map p_id (projects db))) by (simpl; concrete_rows).
  assert (H2 : forall t, In t (tasks db) ->
                         In (t_project_id t) (map p_id (projects db))).
  { intros t [<- | [<- | [<- | []]]]; left; reflexivity. }
  split; [exact H1 | ]. split; [exact H2 | ]. split; [reflexivity | ].
  exact (proj2 (proj2 (projects_listing_counts db)) H1 H2).
Defined.

(** X15. The team page shows a card for every member, in table order, also
    for members without tasks, whose "Assigned Tasks" figure is then 0.
    With primary keys and a stored member behind every assignment, the
    figures of all cards add up to the number of assigned tasks. *)
Theorem team_listing_counts :
  forall (db : database),
    map fst (team_listing db) = team_members db
    /\ (forall m n,
          In (m, n) (team_listing db) ->
          n = length (filter (fun t => option_Z_eqb (t_assigned_to t) (Some (m_id m)))
                        (tasks db))
          /\ (n = 0%nat <-> forall t, In t (tasks db) ->
                                      t_assigned_to t <> Some (m_id m)))
    /\ (NoDup (map m_id (team_members db)) ->
        (forall t a, In t (tasks db) -> t_assigned_to t = Some a ->
                     In a (map m_id (team_members db))) ->
        list_sum (map snd (team_listing db))
        = length (filter is_assigned (tasks db))).
Proof.
  intros db. split; [ | split].
  - unfold team_listing. rewrite map_map. apply map_id.
  - intros m n H. unfold team_listing in H.
    apply in_map_iff in H. destruct H as (q & [= -> <-] & _).
    assert (E : tasks_count (m_id m) db
                = length (filter (fun t => option_Z_eqb (t_assigned_to t)
                                             (Some (m_id m))) (tasks db))).
    { reflexivity. }
    split; [exact E | ].
    rewrite E, length_zero_iff_nil, filter_nil_iff.
    split.
    + intros H t Ht Ea. specialize (H t Ht). rewrite Ea in H.
      simpl in H. rewrite Z.eqb_refl in H. discriminate H.
    + intros H t Ht. specialize (H t Ht).
      destruct (t_assigned_to t) as [a | ]; [ | reflexivity].
      simpl. apply Z.eqb_neq. congruence.
  - intros N H. unfold team_listing. rewrite map_map. cbn [snd].
    rewrite <- (map_map m_id (fun k => tasks_count k db)).
    exact (sum_counts_by_key t_assigned_to _ (tasks db) N H).
Qed.

Lemma team_listing_counts_witness :
  let tk id assigned :=
    mktask id 1 "t" "" "Not Started" "Medium" (mkdate 2024 1 1) (mkdate 2024 1 8)
      assigned 0 in
  let ada := mkmember 1 "Ada" "dev" "" in
  let linus := mkmember 2 "Linus" "dev" "" in
  let db := mkdb [] [ada; linus] [tk 1 (Some 1); tk 2 None; tk 3 (Some 1)] in
  NoDup (map m_id (team_members db))
  /\ (forall t a, In t (tasks db) -> t_assigned_to t = Some a ->
                  In a (map m_id (team_members db)))
  /\ team_listing db = [(ada, 2%nat); (linus, 0%nat)]
  /\ list_sum (map snd (team_listing db)) = length (filter is_assigned (tasks db)).
Proof.
  intros tk ada linus db.
  assert (H1 : NoDup (map m_id (team_members db))) by (simpl; concrete_rows).
  assert (H2 : forall t a, In t (tasks db) -> t_assigned_to t = Some a ->
                           In a (map m_id (team_members db))).
  { intros t a Ht E. unfold db, tk in Ht. simpl in Ht.
    destruct Ht as [Ht | [Ht | [Ht | []]]]; subst t; simpl in E;
      try discriminate E; injection E as E; subst a; left; reflexivity. }
  split; [exact H1 | ]. split; [exact H2 | ]. split; [reflexivity | ].
  exact (proj2 (proj2 (team_listing_counts db)) H1 H2).
Defined.

(** ** [dashboard_page]: the metrics and the status pie *)

Lemma round_half_even_bounds (q : Q) (a b : Z) :
  (inject_Z a <= q)%Q -> (q <= inject_Z b)%Q ->
  a <= round_half_even q <= b.
Proof.
  intros Ha Hb.
  pose proof (Qfloor_resp_le _ _ Ha) as Fa. rewrite Qfloor_Z in Fa.
  pose proof (Qfloor_resp_le _ _ Hb) as Fb. rewrite Qfloor_Z in Fb.
  assert (Hup : (1 # 2 <= q - inject_Z (Qfloor q))%Q -> Qfloor q + 1 <= b).
  { intros H.
    destruct (Z.eq_dec (Qfloor q) b) as [E | N]; [ | lia].
    exfalso. rewrite E in H. lra. }
  unfold round_half_even.
  destruct (Qcompare (q - inject_Z (Qfloor q)) (1 # 2)) eqn:C.
  - apply Qeq_alt in C.
    assert (H : (1 # 2 <= q - inject_Z (Qfloor q))%Q) by (rewrite C; apply Qle_refl).
    specialize (Hup H). destruct (Z.even (Qfloor q)); lia.
  - lia.
  - apply Qgt_alt in C.
    assert (H : (1 # 2 <= q - inject_Z (Qfloor q))%Q) by (apply Qlt_le_weak; exact C).
    specialize (Hup H). lia.
Qed.

Lemma sum_bounds (l : list Q) :
  Forall (fun q => 0 <= q /\ q <= 100)%Q l ->
  (0 <= fold_right Qplus 0 l)%Q
  /\ (fold_right Qplus 0 l <= 100 * inject_Z (Z.of_nat (length l)))%Q.
Proof.
  induction 1 as [ | q l [Hq0 Hq1] _ [IH0 IH1]]; simpl fold_right.
  - split; [apply Qle_refl | ]. simpl. apply Qle_refl.
  - assert (E : (inject_Z (Z.of_nat (length (q :: l)))
                 == inject_Z (Z.of_nat (length l)) + 1)%Q).
    { simpl length. rewrite Nat2Z.inj_succ. unfold Z.succ.
      rewrite inject_Z_plus. reflexivity. }
    rewrite E. split; lra.
Qed.

Lemma mean_bounds (l : list Q) :
  l <> [] ->
  Forall (fun q => 0 <= q /\ q <= 100)%Q l ->
  (0 <= mean l)%Q /\ (mean l <= 100)%Q.
Proof.
  intros Hne F. destruct (sum_bounds l F) as [H0 H1].
  assert (Hn : (0 < inject_Z (Z.of_nat (length l)))%Q).
  { destruct l; [congruence | ].
    change 0%Q with (inject_Z 0). rewrite <- Zlt_Qlt. simpl length. lia. }
  unfold mean. split.
  - apply Qle_shift_div_l; [exact Hn | ]. lra.
  - apply Qle_shift_div_r; [exact Hn | ]. lra.
Qed.

Lemma filter_negb_length {A : Type} (f : A -> bool) (l : list A) :
  (length (filter (fun a => negb (f a)) l) + length (filter f l))%nat = length l.
Proof.
  induction l as [ | a l IH]; simpl; [reflexivity | ].
  destruct (f a); simpl; lia.
Qed.

(** X16. On the dashboard, "Open Tasks" counts the tasks whose status is
    not exactly "Completed", so that it and the number of "Completed"
    tasks add up to the number of tasks.  "Avg. Project Progress" is 0
    without projects, and otherwise the mean of the recorded progress of
    the projects (whatever their status), printed as a whole number, which
    lies between 0 and 100 when every progress does. *)
Theorem dashboard_metrics :
  forall (db : database),
    (open_tasks db + completed_tasks_count (tasks db))%nat = length (tasks db)
    /\ total_projects db = length (projects db)
    /\ (projects db = [] -> avg_project_progress db = 0)
    /\ (projects db <> [] ->
        avg_project_progress db
        = round_half_even (mean (map p_progress (projects db))))
    /\ (Forall (fun p => slider_value (p_progress p)) (projects db) ->
        0 <= avg_project_progress db <= 100).
Proof.
  intros db.
  split; [apply filter_negb_length | ].
  split; [reflexivity | ].
  split; [intros E; unfold avg_project_progress; rewrite E; reflexivity | ].
  split.
  { intros Hne. unfold avg_project_progress.
    apply is_empty_false in Hne. rewrite Hne. reflexivity. }
  intros F. unfold avg_project_progress.
  destruct (projects db) as [ | p ps] eqn:E; cbn [is_empty negb]; [lia | ].
  rewrite <- E in *.
  assert (Hne : map p_progress (projects db) <> []) by (rewrite E; discriminate).
  assert (F' : Forall (fun q => 0 <= q /\ q <= 100)%Q (map p_progress (projects db))).
  { rewrite Forall_map. eapply Forall_impl; [ | exact F].
    intros q (z & Hz & ->). cbn beta.
    change 0%Q with (inject_Z 0). change 100%Q with (inject_Z 100).
    rewrite <- !Zle_Qle. lia. }
  destruct (mean_bounds _ Hne F') as [M0 M1].
  apply round_half_even_bounds; assumption.
Qed.

Lemma dashboard_metrics_witness :
  let pr id progress :=
    mkproject id "p" "" (mkdate 2024 1 1) (mkdate 2024 1 31) "Planning"
      (inject_Z progress) in
  let db := mkdb [pr 1 10; pr 2 15] [] [] in
  projects db <> []
  /\ Forall (fun p => slider_value (p_progress p)) (projects db)
  /\ avg_project_progress db = 12
  /\ 0 <= avg_project_progress db <= 100.
Proof.
  intros pr db.
  assert (H1 : projects db <> []) by discriminate.
  assert (H2 : Forall (fun p => slider_value (p_progress p)) (projects db)).
  { unfold db, pr. concrete_rows. }
  split; [exact H1 | ]. split; [exact H2 | ]. split; [reflexivity | ].
  exact (proj2 (proj2 (proj2 (proj2 (dashboard_metrics db)))) H2).
Defined.

Lemma count_insert_count (s k : string) (l : list (string * nat)) :
  count_for s (count_insert k l)
  = (count_for s l + (if String.eqb k s then 1 else 0))%nat.
Proof.
  unfold count_for.
  induction l as [ | [k' n] l IH]; simpl.
  - destruct (String.eqb k s); reflexivity.
  - destruct (String.eqb_spec k' k) as [E | N]; simpl.
    + subst k'. destruct (String.eqb k s); simpl; lia.
    + destruct (String.eqb k' s); simpl; rewrite IH; lia.
Qed.

Lemma count_insert_keys (k x : string) (l : list (string * nat)) :
  In x (map fst (count_insert k l)) <-> x = k \/ In x (map fst l).
Proof.
  induction l as [ | [k' n] l IH]; simpl.
  - split; [intros [<- | []]; left; reflexivity | intros [-> | []]; left; reflexivity].
  - destruct (String.eqb_spec k' k) as [E | N]; simpl.
    + subst k'. split; [tauto | intros [-> | H]; tauto].
    + rewrite IH. tauto.
Qed.

Lemma count_insert_NoDup (k : string) (l : list (string * nat)) :
  NoDup (map fst l) -> NoDup (map fst (count_insert k l)).
Proof.
  induction l as [ | [k' n] l IH]; simpl; intros N.
  - repeat constructor. simpl. tauto.
  - inversion N as [ | ? ? Hnotin N']; subst.
    destruct (String.eqb_spec k' k) as [E | Hne]; simpl.
    + constructor; assumption.
    + constructor; [ | apply IH; exact N'].
      rewrite count_insert_keys. intros [E | H]; [congruence | contradiction].
Qed.

Lemma count_insert_positive (k : string) (l : list (string * nat)) :
  Forall (fun x => (0 < snd x)%nat) l ->
  Forall (fun x => (0 < snd x)%nat) (count_insert k l).
Proof.
  induction l as [ | [k' n] l IH]; simpl; intros F.
  - repeat constructor.
  - inversion F as [ | ? ? Hn Fl]; subst.
    destruct (String.eqb k' k); constructor; simpl in *; try lia; try assumption.
    apply IH. exact Fl.
Qed.

Lemma count_insert_sum (k : string) (l : list (string * nat)) :
  list_sum (map snd (count_insert k l)) = S (list_sum (map snd l)).
Proof.
  induction l as [ | [k' n] l IH]; simpl; [reflexivity | ].
  destruct (String.eqb k' k); simpl; [lia | rewrite IH; lia].
Qed.

Lemma counted_spec (l : list string) :
  let c := fold_left (fun acc k => count_insert k acc) l [] in
  NoDup (map fst c)
  /\ Forall (fun x => (0 < snd x)%nat) c
  /\ (forall s, count_for s c = length (filter (fun k => String.eqb k s) l))
  /\ list_sum (map snd c) = length l.
Proof.
  assert (G : forall acc,
             NoDup (map fst acc) ->
             Forall (fun x => (0 < snd x)%nat) acc ->
             let c := fold_left (fun acc k => count_insert k acc) l acc in
             NoDup (map fst c)
             /\ Forall (fun x => (0 < snd x)%nat) c
             /\ (forall s, count_for s c
                           = (count_for s acc
                              + length (filter (fun k => String.eqb k s) l))%nat)
             /\ list_sum (map snd c) = (list_sum (map snd acc) + length l)%nat).
  { induction l as [ | k l IH]; intros acc N F; cbn [fold_left].
    - repeat split; try assumption; simpl; intros; lia.
    - destruct (IH (count_insert k acc) (count_insert_NoDup k acc N)
                  (count_insert_positive k acc F)) as (N' & F' & C' & S').
      repeat split; try assumption.
      + intros s. rewrite C', count_insert_count. simpl.
        destruct (String.eqb k s); simpl; lia.
      + rewrite S', count_insert_sum. simpl. lia. }
  destruct (G [] (NoDup_nil _) (Forall_nil _)) as (N & F & C & S).
  split; [exact N | split; [exact F | split; [ | exact S]]].
  intros s. rewrite C. reflexivity.
Qed.

Lemma insert_by_count_perm (x : string * nat) (l : list (string * nat)) :
  Permutation (insert_by_count x l) (x :: l).
Proof.
  induction l as [ | y l IH]; simpl; [reflexivity | ].
  destruct (snd y <? snd x)%nat; [reflexivity | ].
  rewrite IH. apply perm_swap.
Qed.

Lemma insert_by_count_sorted (x : string * nat) (l : list (string * nat)) :
  StronglySorted count_ge l -> StronglySorted count_ge (insert_by_count x l).
Proof.
  induction l as [ | y l IH]; simpl; intros S.
  - repeat constructor.
  - inversion S as [ | ? ? Sl Hall]; subst.
    destruct (Nat.ltb_spec (snd y) (snd x)) as [Hlt | Hge].
    + constructor; [exact S | ].
      constructor; [unfold count_ge; lia | ].
      eapply Forall_impl; [ | exact Hall].
      intros z Hz. unfold count_ge in *. lia.
    + constructor; [apply IH; exact Sl | ].
      rewrite Forall_forall in *. intros z Hz.
      apply (Permutation_in _ (insert_by_count_perm x l)) in Hz.
      destruct Hz as [<- | Hz]; [exact Hge | apply Hall; exact Hz].
Qed.

Lemma sorted_by_count_spec (c : list (string * nat)) :
  StronglySorted count_ge (fold_left (fun acc x => insert_by_count x acc) c [])
  /\ Permutation (fold_left (fun acc x => insert_by_count x acc) c []) c.
Proof.
  assert (G : forall acc,
             StronglySorted count_ge acc ->
             StronglySorted count_ge
               (fold_left (fun acc x => insert_by_count x acc) c acc)
             /\ Permutation (fold_left (fun acc x => insert_by_count x acc) c acc)
                            (acc ++ c)).
  { induction c as [ | x c IH]; simpl; intros acc S.
    - rewrite app_nil_r. split; [exact S | reflexivity].
    - destruct (IH (insert_by_count x acc) (insert_by_count_sorted x acc S))
        as [S' P'].
      split; [exact S' | ].
      rewrite P', insert_by_count_perm. apply Permutation_middle. }
  apply (G []). constructor.
Qed.

Lemma count_for_In_NoDup (s : string) (l : list (string * nat)) (n : nat) :
  NoDup (map fst l) -> In (s, n) l -> count_for s l = n.
Proof.
  induction l as [ | [k m] l IH]; simpl; intros N H; [destruct H | ].
  inversion N as [ | ? ? Hnotin N']; subst.
  unfold count_for in *. simpl.
  destruct H as [[= -> ->] | H].
  - rewrite String.eqb_refl. simpl.
    fold (count_for s l). rewrite (count_for_absent s l Hnotin). lia.
  - destruct (String.eqb_spec k s) as [E | _].
    + exfalso. apply Hnotin. rewrite E.
      apply (in_map fst _ _ H).
    + apply IH; assumption.
Qed.

Lemma list_sum_perm (l l' : list nat) :
  Permutation l l' -> list_sum l = list_sum l'.
Proof. induction 1; simpl; lia. Qed.

(** X17. The frame behind the "Project Status" pie holds one row for each
    status that some project has, with the number of projects of that
    status, never a row with 0; the rows come by descending count and
    their counts add up to the number of projects. *)
Theorem status_counts_spec :
  forall (db : database),
    NoDup (map fst (status_counts db))
    /\ StronglySorted count_ge (status_counts db)
    /\ (forall s n,
          In (s, n) (status_counts db)
          <-> (0 < n)%nat
              /\ n = length (filter (fun p => String.eqb (p_status p) s)
                              (projects db)))
    /\ list_sum (map snd (status_counts db)) = length (projects db).
Proof.
  intros db. unfold status_counts, value_counts.
  set (l := map p_status (projects db)).
  destruct (counted_spec l) as (N & F & C & S).
  set (c := fold_left (fun acc k => count_insert k acc) l []) in *.
  destruct (sorted_by_count_spec c) as [Sorted P].
  assert (Hocc : forall s, length (filter (fun k => String.eqb k s) l)
                           = length (filter (fun p => String.eqb (p_status p) s)
                                       (projects db))).
  { intros s. unfold l. clear. induction (projects db) as [ | p ps IH]; simpl;
      [reflexivity | ].
    destruct (String.eqb (p_status p) s); simpl; rewrite IH; reflexivity. }
  split.
  { apply (Permutation_NoDup (Permutation_sym (Permutation_map fst P))). exact N. }
  split; [exact Sorted | ].
  split.
  { intros s n. rewrite <- Hocc, <- C. split.
    - intros H. apply (Permutation_in _ P) in H.
      rewrite Forall_forall in F.
      split; [exact (F _ H) | ].
      symmetry. apply count_for_In_NoDup; assumption.
    - intros [Hpos ->].
      apply (Permutation_in _ (Permutation_sym P)).
      destruct (in_dec string_dec s (map fst c)) as [Hin | Hout].
      + apply in_map_iff in Hin. destruct Hin as ([k m] & Ek & Hkm).
        simpl in Ek. subst k.
        rewrite (count_for_In_NoDup s c m N Hkm). exact Hkm.
      + exfalso. rewrite (count_for_absent _ _ Hout) in Hpos. lia. }
  rewrite (list_sum_perm _ _ (Permutation_map snd P)), S.
  unfold l. apply length_map.
Qed.

(** ** [reports_page]: the "Timeline" tab for every selection *)

Lemma filter_head_find {A : Type} (f : A -> bool) (l : list A) (a : A) :
  find f l = Some a -> exists rest, filter f l = a :: rest.
Proof.
  induction l as [ | b l IH]; simpl; [discriminate | ].
  destruct (f b).
  - intros [= <-]. eexists. reflexivity.
  - exact IH.
Qed.

Lemma select_project_id_find (selected_project : string) (ps : list project)
    (first : project) :
  find (fun p => String.eqb (p_name p) selected_project) ps = Some first ->
  select_project_id selected_project ps = Ok (p_id first).
Proof.
  intros H. destruct (filter_head_find _ _ _ H) as [rest E].
  unfold select_project_id. rewrite E. reflexivity.
Qed.

Lemma select_project_id_absent (selected_project : string) (ps : list project) :
  ~ In selected_project (map p_name ps) ->
  select_project_id selected_project ps = Raise IndexError.
Proof.
  intros H. unfold select_project_id.
  replace (filter (fun p => String.eqb (p_name p) selected_project) ps)
    with (@nil project); [reflexivity | ].
  symmetry. apply filter_nil_iff. intros p Hp.
  apply String.eqb_neq. intros E. apply H. rewrite <- E. apply in_map. exact Hp.
Qed.

Lemma select_project_details_unique (ps : list project) (p : project) :
  NoDup (map p_id ps) -> In p ps ->
  select_project_details (p_id p) ps = Ok p.
Proof.
  intros N H. unfold select_project_details.
  rewrite (filter_unique_key p_id _ (p_id p) ps)
    by (try exact N; intros q E; apply Z.eqb_eq in E; exact E).
  rewrite (find_unique p_id _ _ N H). reflexivity.
Qed.



Lemma percent_completed_all (tasks_df : list task) :
  tasks_df <> [] ->
  Forall (fun t => t_status t = "Completed"%string) tasks_df ->
  (percent_completed tasks_df == 100)%Q.
Proof.
  intros Hne F. unfold percent_completed.
  assert (E : completed_tasks_count tasks_df = length tasks_df).
  { unfold completed_tasks_count. f_equal. apply forallb_filter_id.
    apply forallb_forall. rewrite Forall_forall in F.
    intros t Ht. apply String.eqb_eq. apply F. exact Ht. }
  rewrite E. pose proof (total_tasks_pos tasks_df Hne) as Hpos.
  field. intros C. rewrite C in Hpos. discriminate Hpos.
Qed.

(** X19. When every task of the project is "Completed", the estimated
    total is the number of whole days elapsed since the start date, and
    the estimated completion is the midnight that starts today.  The
    project is then reported "on track" until its end date and, once
    today is after the end date, late by the number of days since the end
    date, a figure that grows by one every day although all tasks are
    done. *)
Theorem completion_estimate_all_completed :
  forall (now : Z) (project_details : project) (tasks_df : list task),
    tasks_df <> [] ->
    Forall (fun t => t_status t = "Completed"%string) tasks_df ->
    let today_ordinal := td_days now in
    exists pr,
      completion_prediction now project_details tasks_df = Ok (Some pr)
      /\ (estimated_total_days pr
          == inject_Z (today_ordinal - toordinal (p_start_date project_details)))%Q
      /\ estimated_completion pr = today_ordinal * us_per_day
      /\ outlook pr
         = (if toordinal (p_end_date project_details) <? today_ordinal
            then Late (today_ordinal - toordinal (p_end_date project_details))
            else OnTime).
Proof.
  intros now pd tasks_df Hne F today_ordinal.
  pose proof (percent_completed_all _ Hne F) as HP.
  rewrite completion_prediction_eq by exact Hne.
  unfold estimateCompletion_spec.
  destruct (Qeq_bool (percent_completed tasks_df) 0) eqn:E0.
  { apply Qeq_bool_iff in E0. rewrite HP in E0. discriminate E0. }
  assert (HD : td_days (now - to_datetime (p_start_date pd))
               = today_ordinal - toordinal (p_start_date pd)).
  { unfold today_ordinal, td_days, to_datetime.
    replace (now - toordinal (p_start_date pd) * us_per_day)
      with (now + (- toordinal (p_start_date pd)) * us_per_day) by ring.
    rewrite Z.div_add by (unfold us_per_day; lia). ring. }
  assert (HT : (inject_Z (td_days (now - to_datetime (p_start_date pd)))
                / (percent_completed tasks_df / 100)
                == inject_Z (today_ordinal - toordinal (p_start_date pd)))%Q).
  { rewrite HP, HD. field. }
  assert (HC : to_datetime (p_start_date pd)
               + timedelta_of_days
                   (inject_Z (td_days (now - to_datetime (p_start_date pd)))
                    / (percent_completed tasks_df / 100))
               = today_ordinal * us_per_day).
  { unfold timedelta_of_days.
    rewrite (round_half_even_inject_Z _
               ((today_ordinal - toordinal (p_start_date pd)) * us_per_day)).
    - unfold to_datetime. ring.
    - rewrite HT, inject_Z_mult. reflexivity. }
  eexists. split; [reflexivity | ].
  cbn [estimated_total_days estimated_completion outlook].
  split; [exact HT | ]. split; [exact HC | ].
  rewrite HC. unfold to_datetime.
  assert (Hus : 0 < us_per_day) by (unfold us_per_day; lia).
  destruct (Z.ltb_spec (toordinal (p_end_date pd)) today_ordinal) as [Hlt | Hge].
  - destruct (Z.ltb_spec (toordinal (p_end_date pd) * us_per_day)
                (today_ordinal * us_per_day)) as [_ | Hc]; [ | nia].
    f_equal. unfold td_days.
    replace (today_ordinal * us_per_day - toordinal (p_end_date pd) * us_per_day)
      with ((today_ordinal - toordinal (p_end_date pd)) * us_per_day) by ring.
    apply Z.div_mul. lia.
  - destruct (Z.ltb_spec (toordinal (p_end_date pd) * us_per_day)
                (today_ordinal * us_per_day)) as [Hc | _]; [nia | reflexivity].
Qed.

Lemma completion_estimate_all_completed_witness :
  let project_details :=
    mkproject 1 "Alpha" "" (mkdate 2024 1 1) (mkdate 2024 1 15) "Completed"
      (inject_Z 100) in
  let tasks_df :=
    [mktask 1 1 "t" "" "Completed" "Medium" (mkdate 2024 1 1) (mkdate 2024 1 5)
       None 100] in
  let now := to_datetime (mkdate 2024 2 1) + 3600 * 1000000 in
  tasks_df <> []
  /\ Forall (fun t => t_status t = "Completed"%string) tasks_df
  /\ exists pr,
       completion_prediction now project_details tasks_df = Ok (Some pr)
       /\ outlook pr = Late 17.
Proof.
  intros project_details tasks_df now.
  assert (H1 : tasks_df <> []) by discriminate.
  assert (H2 : Forall (fun t => t_status t = "Completed"%string) tasks_df)
    by (repeat constructor).
  split; [exact H1 | ]. split; [exact H2 | ].
  destruct (completion_estimate_all_completed now project_details tasks_df H1 H2)
    as (pr & Hpr & _ & _ & Hout).
  exists pr. split; [exact Hpr | exact Hout].
Defined.

(** ** What a run writes *)

Lemma save_project_ids (project_data_id : option Z) (name description : string)
    (start_date end_date : date) (status : project_status) (progress : Z)
    (db : database) :
  let db' := fst (save_project project_data_id name description start_date
                    end_date status progress db) in
  kept_or_appended (map p_id (projects db)) (map p_id (projects db'))
  /\ team_members db' = team_members db
  /\ tasks db' = tasks db.
Proof.
  unfold save_project.
  destruct (truthy name); cbn [fst];
    [ | split; [left; reflexivity | split; reflexivity]].
  destruct project_data_id as [id | ]; cbn [projects team_members tasks];
    (split; [ | split; reflexivity]).
  - left. apply (update_keeps_ids p_id). reflexivity.
  - right. unfold insert_project. rewrite map_app. reflexivity.
Qed.

Lemma save_team_member_ids (member_data_id : option Z) (name role email : string)
    (db : database) :
  let db' := fst (save_team_member member_data_id name role email db) in
  kept_or_appended (map m_id (team_members db)) (map m_id (team_members db'))
  /\ projects db' = projects db
  /\ tasks db' = tasks db.
Proof.
  unfold save_team_member.
  destruct (truthy name && truthy role); cbn [fst];
    [ | split; [left; reflexivity | split; reflexivity]].
  destruct member_data_id as [id | ]; cbn [projects team_members tasks];
    (split; [ | split; reflexivity]).
  - left. apply (update_keeps_ids m_id). reflexivity.
  - right. unfold insert_team_member. rewrite map_app. reflexivity.
Qed.

Lemma save_task_ids (task_data_id : option Z)
    (name project_idx description : string) (start_date due_date : date)
    (status : task_status) (priority : task_priority) (assigned_idx : string)
    (progress : Z) (db db' : database) (msg : st_message) :
  save_task task_data_id name project_idx description start_date due_date
    status priority assigned_idx progress db = Ok (db', msg) ->
  kept_or_appended (map t_id (tasks db)) (map t_id (tasks db'))
  /\ projects db' = projects db
  /\ team_members db' = team_members db.
Proof.
  unfold save_task.
  destruct (truthy name && negb (is_empty (projects db))).
  - destruct (index project_idx (map p_name (projects db))) as [i | e];
      cbn [bind]; [ | discriminate].
    destruct (getitem (map p_id (projects db)) i) as [pid | e];
      cbn [bind]; [ | discriminate].
    match goal with
    | |- bind ?m _ = _ -> _ => destruct m as [a | e]; cbn [bind]; [ | discriminate]
    end.
    intros [= <- _]. cbn [projects team_members tasks].
    split; [ | split; reflexivity].
    destruct task_data_id as [id | ].
    + left. apply (update_keeps_ids t_id). reflexivity.
    + right. unfold insert_task. rewrite map_app. reflexivity.
  - destruct (is_empty (projects db)); intros [= <- _];
      (split; [left; reflexivity | split; reflexivity]).
Qed.

Lemma one_append_refl (db : database) : one_append db db.
Proof. left. split; [left; reflexivity | split; reflexivity]. Qed.

Ltac same_db :=
  match goal with
  | |- Ok (_, ?d) = Ok (_, _) -> _ =>
      let H := fresh in intros H; injection H as _ <-; apply one_append_refl
  | |- Raise _ = Ok _ -> _ => discriminate
  end.

Lemma projects_page_writes (c : click) (k : clock) (s s' : session_state)
    (db db' : database) :
  projects_page c k s db = Ok (s', db') -> one_append db db'.
Proof.
  unfold projects_page.
  destruct (edit_project s) as [e | ].
  - destruct (load_project_data e (today k) (today30 k) db) as [pd | x];
      cbn [bind]; [ | discriminate].
    destruct (project_form_defaults pd) as [f | x]; cbn [bind]; [ | discriminate].
    destruct c; try same_db.
    destruct (is_st_error _); [same_db | ].
    intros [= _ <-]. left. apply save_project_ids.
  - destruct c; try same_db.
    destruct (existsb _ _); same_db.
Qed.

Lemma tasks_page_writes (c : click) (k : clock) (w : widgets)
    (s s' : session_state) (db db' : database) :
  tasks_page c k w s db = Ok (s', db') -> one_append db db'.
Proof.
  unfold tasks_page.
  destruct (edit_task s) as [e | ].
  - destruct (load_task_data e (today k) (today7 k) db) as [td | x];
      cbn [bind]; [ | discriminate].
    destruct (task_form_defaults td db) as [f | x]; cbn [bind]; [ | discriminate].
    destruct c; try same_db.
    destruct (save_task _ _ _ _ _ _ _ _ _ _ _) as [[db1 msg] | x] eqn:E;
      cbn [bind snd fst]; [ | discriminate].
    destruct (is_st_error msg); [same_db | ].
    intros [= _ <-]. right. right. eapply save_task_ids. exact E.
  - destruct c; try same_db.
    destruct (existsb _ _); same_db.
Qed.

Lemma team_page_writes (c : click) (s s' : session_state) (db db' : database) :
  team_page c s db = Ok (s', db') -> one_append db db'.
Proof.
  unfold team_page.
  destruct (edit_team_member s) as [e | ].
  - destruct (load_member_data e db) as [md | x]; cbn [bind]; [ | discriminate].
    destruct c; try same_db.
    destruct (is_st_error _); [same_db | ].
    intros [= _ <-]. right. left. apply save_team_member_ids.
  - destruct c; try same_db.
    destruct (existsb _ _); same_db.
Qed.

Lemma main_writes (c : click) (k : clock) (w : widgets) (st : option session_state)
    (s' : session_state) (db db' : database) :
  main c k w st db = Ok (s', db') -> one_append db db'.
Proof.
  unfold main.
  destruct (page (sidebar_navigation _ (init_session_state st))).
  - same_db.
  - apply projects_page_writes.
  - apply tasks_page_writes.
  - apply team_page_writes.
  - unfold reports_page.
    destruct (reports_timeline _ _ _); cbn [bind]; same_db.
Qed.

Lemma kept_or_appended_length (ids ids' : list Z) :
  kept_or_appended ids ids' ->
  (length ids <= length ids' <= S (length ids))%nat
  /\ firstn (length ids) ids' = ids.
Proof.
  intros [-> | ->].
  - split; [lia | apply firstn_all].
  - rewrite length_app. simpl. split; [lia | ].
    rewrite firstn_app, Nat.sub_diag, firstn_all. simpl. apply app_nil_r.
Qed.

(** X20. No run of the script removes a row or changes an id: each of the
    three id columns is, after the run, the column it was with at most one
    id appended, and at most one table changes in a run. *)
Theorem run_never_removes_rows :
  forall (c : click) (k : clock) (w : widgets) (st : option session_state)
         (s' : session_state) (db db' : database),
    main c k w st db = Ok (s', db') ->
    firstn (length (projects db)) (map p_id (projects db')) = map p_id (projects db)
    /\ firstn (length (team_members db)) (map m_id (team_members db'))
       = map m_id (team_members db)
    /\ firstn (length (tasks db)) (map t_id (tasks db')) = map t_id (tasks db)
    /\ (length (projects db) + length (team_members db) + length (tasks db)
        <= length (projects db') + length (team_members db') + length (tasks db')
        <= S (length (projects db) + length (team_members db) + length (tasks db)))%nat.
Proof.
  intros c k w st s' db db' H.
  assert (Hsame : forall {A} (key : A -> Z) (l : list A),
             firstn (length l) (map key l) = map key l).
  { intros A key l. rewrite <- (length_map key l). apply firstn_all. }
  destruct (main_writes c k w st s' db db' H)
    as [(Hk & E1 & E2) | [(Hk & E1 & E2) | (Hk & E1 & E2)]];
    destruct (kept_or_appended_length _ _ Hk) as [Hl Hf];
    rewrite !length_map in Hl; rewrite length_map in Hf;
    rewrite ?E1, ?E2, ?Hsame; repeat split; try assumption; try lia.
Qed.

Lemma run_never_removes_rows_witness :
  let k := mkclock 0 (mkdate 2024 1 1) (mkdate 2024 1 8) (mkdate 2024 1 31) in
  let w := mkwidgets "All Projects" "All Statuses" "" in
  let s := mksession Team None None (Some New) in
  let ada := mkmember 1 "Ada" "dev" "" in
  let db := mkdb [] [ada] [] in
  let db' := mkdb [] [ada; mkmember 2 "Grace" "lead" ""] [] in
  main (SaveMemberClick (mkmember_submit "Grace" "lead" "")) k w (Some s) db
  = Ok (mksession Team None None None, db')
  /\ firstn (length (team_members db)) (map m_id (team_members db'))
     = map m_id (team_members db).
Proof.
  intros k w s ada db db'.
  assert (H : main (SaveMemberClick (mkmember_submit "Grace" "lead" "")) k w
                (Some s) db = Ok (mksession Team None None None, db'))
    by reflexivity.
  split; [exact H | ].
  exact (proj1 (proj2 (run_never_removes_rows _ _ _ _ _ _ _ H))).
Defined.

Lemma fold_max_consecutive (n : nat) :
  fold_right Z.max 1 (map Z.of_nat (seq 2 n)) = Z.of_nat (S n).
Proof.
  assert (G : forall m a, (a <= m)%nat ->
                fold_right Z.max (Z.of_nat a) (map Z.of_nat (seq (S m) n))
                = Z.of_nat (match n with O => a | S _ => m + n end)).
  { induction n as [ | n IH]; intros m a Ha; [reflexivity | ].
    cbn [seq map fold_right].
    rewrite (IH (S m) a) by lia.
    destruct n; lia. }
  specialize (G 1%nat 1%nat (le_n _)).
  change (Z.of_nat 1) with 1 in G. rewrite G.
  destruct n; [reflexivity | f_equal; lia].
Qed.

Lemma consecutive_ids_next (ids : list Z) :
  consecutive_ids ids -> next_rowid ids = Z.of_nat (S (length ids)).
Proof.
  unfold consecutive_ids. intros E.
  destruct ids as [ | x r]; [reflexivity | ].
  simpl length in *. cbn [seq map] in E. injection E as Ex Er.
  unfold next_rowid. remember (length r) as n eqn:En.
  subst x r. rewrite fold_max_consecutive. lia.
Qed.

Lemma consecutive_ids_step (ids ids' : list Z) :
  consecutive_ids ids -> kept_or_appended ids ids' -> consecutive_ids ids'.
Proof.
  intros C [-> | ->]; [exact C | ].
  unfold consecutive_ids. rewrite length_app. simpl length.
  rewrite Nat.add_1_r, seq_S, map_app. simpl.
  rewrite <- C, (consecutive_ids_next _ C). reflexivity.
Qed.

(** X21. In every state the application can be in, the ids of each table
    are 1, 2, ..., n in table order: ids are handed out in the order of
    creation, none is skipped and none is used twice, and the listings,
    which follow the table, show rows in the order they were created. *)
Theorem reachable_ids_are_consecutive :
  forall (s : session_state) (db : database),
    reachable s db ->
    map p_id (projects db) = map Z.of_nat (seq 1 (length (projects db)))
    /\ map m_id (team_members db)
       = map Z.of_nat (seq 1 (length (team_members db)))
    /\ map t_id (tasks db) = map Z.of_nat (seq 1 (length (tasks db))).
Proof.
  intros s db R.
  assert (G : consecutive_ids (map p_id (projects db))
              /\ consecutive_ids (map m_id (team_members db))
              /\ consecutive_ids (map t_id (tasks db))).
  { induction R as [ | c k w s s' db db' _ (IP & IM & IT) _ _ _ Hrun].
    - repeat split.
    - destruct (main_writes _ _ _ _ _ _ _ Hrun)
        as [(Hk & E1 & E2) | [(Hk & E1 & E2) | (Hk & E1 & E2)]];
        rewrite ?E1, ?E2; repeat split; try assumption;
        refine (consecutive_ids_step _ _ _ Hk); assumption. }
  unfold consecutive_ids in G. rewrite !length_map in G. exact G.
Qed.

Lemma reachable_ids_are_consecutive_witness :
  let k := mkclock 0 (mkdate 2024 1 1) (mkdate 2024 1 8) (mkdate 2024 1 31) in
  let w := mkwidgets "All Projects" "All Statuses" "" in
  let f := mkproject_submit "Site" "" (mkdate 2024 1 1) (mkdate 2024 1 31)
             PS_Planning 0 in
  let db := mkdb [mkproject 1 "Site" "" (mkdate 2024 1 1) (mkdate 2024 1 31)
                    "Planning" (inject_Z 0)] [] [] in
  reachable (mksession Projects None None None) db
  /\ map p_id (projects db) = [1].
Proof.
  intros k w f db.
  assert (R : reachable (mksession Projects None None None) db).
  { apply (reachable_run (SaveProjectClick f) k w
             (mksession Projects (Some New) None None) _ (mkdb [] [] [])).
    - apply (reachable_run (SidebarClick NewProjectButton) k w
               (init_session_state None) _ (mkdb [] [] []));
        [exact reachable_init | exact I | intros H; now destruct H
        | repeat split | reflexivity].
    - repeat split; simpl; lia.
    - intros H. now destruct H.
    - repeat split.
    - reflexivity. }
  split; [exact R | ].
  exact (proj1 (reachable_ids_are_consecutive _ _ R)).
Defined.
